(** * snakes-backend: the game state engine, embedded and verified

    A shallow embedding of the route handlers of the backend
    (roll, proof, games, board, state, overlay), of the helper model
    [src/model/gameModel.ts] and of the schema of [src/db.ts].

    Conventions of the embedding.
    - The sql.js database is a record of tables; a table is the list of its
      rows in insertion (rowid) order.  [SELECT ... LIMIT 1] is [find];
      [INSERT] appends after checking the table's PRIMARY KEY and UNIQUE
      constraints and throws when one is violated; [UPDATE ... WHERE] is a
      [map]; [DELETE ... WHERE] is a [filter].
    - A handler is a computation in a state-and-exception monad over the
      database.  A thrown exception keeps the writes already made: the
      handlers open no transaction.
    - JavaScript numbers that the code only uses as integers are [Z];
      [null]/[undefined] are [None].
    - What the handlers draw from the environment is an argument: the clock
      ([now], milliseconds; a handler that reads the clock more than once
      reads the same instant), the random identifiers ([rid]) and the die.
    - Built-ins of the JavaScript runtime that the handlers call but the
      repository does not define (SHA-256, date parsing and printing, URL
      validation, JSON text, number coercion) are the fields of the class [Runtime]; every
      theorem holds for every runtime.
    - The Discord webhook posts have no effect on the database or on a
      response and are left out. *)

From Stdlib Require Import ZArith List String Ascii Bool Lia DecimalString Sorted.
Import ListNotations.
Local Open Scope Z_scope.
Local Open Scope string_scope.
Local Open Scope list_scope.

Set Implicit Arguments.

(* ------------------------------------------------------------------ *)
(** ** JavaScript runtime and string helpers *)

(** JSON values, for the board document kept in game_boards.board_json. *)
Unset Elimination Schemes.
Inductive json :=
| JNull
| JBool (b : bool)
| JNum (n : Z)
| JStr (s : string)
| JArr (items : list json)
| JObj (fields : list (string * json)).
Set Elimination Schemes.

Class Runtime : Type := {
  (** crypto.createHash("sha256").update(s).digest("hex") *)
  sha256 : string -> string;
  (** new Date(s).getTime() / Date.parse(s); [None] when the result is not finite *)
  Date_parse : string -> option Z;
  (** new Date(ms).toISOString() *)
  toISOString : Z -> string;
  (** the check behind zod's z.string().url() *)
  is_url : string -> bool;
  (** JSON.stringify(v) *)
  JSON_stringify : json -> string;
  (** JSON.parse(text); [None] when it throws *)
  JSON_parse : string -> option json;
  (** Number(v) for a JSON value; [None] when the result is not finite *)
  Number_of_json : json -> option Z
}.

(** A value is truthy in [if (s)] for [s : string | null] when it is a
    non-empty string. *)
Definition truthy (s : option string) : bool :=
  match s with
  | Some (String _ _) => true
  | _ => false
  end.

Definition is_ascii_space (c : ascii) : bool :=
  let n := nat_of_ascii c in
  ((n =? 32) || (n =? 9) || (n =? 10) || (n =? 11) || (n =? 12) || (n =? 13))%nat.

Fixpoint trimStart (s : string) : string :=
  match s with
  | String c s' => if is_ascii_space c then trimStart s' else s
  | EmptyString => EmptyString
  end.

Fixpoint rev_string_onto (s acc : string) : string :=
  match s with
  | String c s' => rev_string_onto s' (String c acc)
  | EmptyString => acc
  end.

(** String.prototype.trim on the ASCII white space. *)
Definition trim (s : string) : string :=
  rev_string_onto (trimStart (rev_string_onto (trimStart s) "")) "".

Definition lower_ascii (c : ascii) : ascii :=
  let n := nat_of_ascii c in
  if ((65 <=? n) && (n <=? 90))%nat then ascii_of_nat (n + 32) else c.

Definition upper_ascii (c : ascii) : ascii :=
  let n := nat_of_ascii c in
  if ((97 <=? n) && (n <=? 122))%nat then ascii_of_nat (n - 32) else c.

Fixpoint map_string (f : ascii -> ascii) (s : string) : string :=
  match s with
  | String c s' => String (f c) (map_string f s')
  | EmptyString => EmptyString
  end.

(** toLowerCase / toUpperCase and SQLite's LOWER, all on the ASCII letters. *)
Definition toLowerCase : string -> string := map_string lower_ascii.
Definition toUpperCase : string -> string := map_string upper_ascii.

(** String(n) for an integer [n]. *)
Definition string_of_Z (n : Z) : string := NilZero.string_of_int (Z.to_int n).

Definition len (s : string) : Z := Z.of_nat (String.length s).

(** [a ?? b] *)
Definition orElse {A} (a : option A) (b : A) : A :=
  match a with Some x => x | None => b end.

Definition opt_eqb {A} (eqb : A -> A -> bool) (a b : option A) : bool :=
  match a, b with
  | Some x, Some y => eqb x y
  | None, None => true
  | _, _ => false
  end.

(** rid(prefix): the prefix, an underscore and 24 random hex digits, which
    are an input here. *)
Definition rid (prefix hex : string) : string := (prefix ++ "_" ++ hex)%string.

(** Math.min / Math.max on integers. *)
Definition Math_min (a b : Z) : Z := Z.min a b.
Definition Math_max (a b : Z) : Z := Z.max a b.

(* ------------------------------------------------------------------ *)
(** ** src/db.ts: the schema *)

Module DbTs.

Record game_row := {
  g_id : string;
  g_clan_name : string;
  g_host_password_hash : string;
  g_board_size : Z;
  g_created_at : string;
  g_turn_team_index : Z;
  g_status : string;
  g_discord_webhook_url : option string;
  g_board_url : option string;
  g_starts_at : option string;
  g_ends_at : option string;
  g_display_name : option string;
  g_join_code_hash : option string
}.

Record team_row := {
  t_id : string;
  t_game_id : string;
  t_team_index : Z;
  t_name : string;
  t_color : string;
  t_password_hash : string;
  t_position : Z;
  t_awaiting_proof : Z;
  t_pending_tile : option Z
}.

Record registration_row := {
  r_id : string;
  r_game_id : string;
  r_team_id : string;
  r_rsn : string;
  r_token_jti : string;
  r_created_at : string
}.

Record tile_task_row := {
  tt_id : string;
  tt_game_id : string;
  tt_tile_index : Z;
  tt_kind : string;
  tt_title : option string;
  tt_description : option string;
  tt_jump_to : option Z
}.

Record proof_row := {
  p_id : string;
  p_game_id : string;
  p_team_id : string;
  p_tile_index : Z;
  p_rsn : string;
  p_url : string;
  p_created_at : string
}.

Record event_row := {
  e_game_id : string;
  e_seq : Z;
  e_type : string;
  e_payload_json : string;
  e_created_at : string
}.

Record game_board_row := {
  gb_game_id : string;
  gb_board_json : string;
  gb_locked : Z;
  gb_updated_at : string
}.

Record Db := {
  games : list game_row;
  teams : list team_row;
  registrations : list registration_row;
  tile_tasks : list tile_task_row;
  proofs : list proof_row;
  events : list event_row;
  game_boards : list game_board_row
}.

(** new SQL.Database() after the CREATE TABLE IF NOT EXISTS statements *)
Definition empty_db : Db :=
  {| games := []; teams := []; registrations := []; tile_tasks := [];
     proofs := []; events := []; game_boards := [] |}.

(** What a handler can throw. *)
Inductive failure :=
| Thrown (message : string)          (* throw new Error(message) *)
| ZodError                           (* Schema.parse(body) rejected the body *)
| SqlConstraint (columns : string).  (* db.run: UNIQUE constraint failed: columns *)

(** Handlers: state (the database) and exceptions. *)
Definition M (A : Type) : Type := Db -> (failure + A) * Db.

Definition ret {A} (a : A) : M A := fun db => (inr a, db).

Definition bind {A B} (c : M A) (k : A -> M B) : M B :=
  fun db =>
    match c db with
    | (inr a, db') => k a db'
    | (inl e, db') => (inl e, db')
    end.

Definition throw {A} (e : failure) : M A := fun db => (inl e, db).

(** db.exec(SELECT ...): a read of the current database *)
Definition query {A} (q : Db -> A) : M A := fun db => (inr (q db), db).

(** db.run(UPDATE / DELETE ...): cannot fail on this schema *)
Definition run (f : Db -> Db) : M unit := fun db => (inr tt, f db).

(** The first violated uniqueness constraint, in index order (the
    PRIMARY KEY first). *)
Fixpoint violated {A} (cs : list (string * (A -> A -> bool))) (r : A) (t : list A)
  : option string :=
  match cs with
  | [] => None
  | (columns, same) :: cs' =>
      if existsb (same r) t then Some columns else violated cs' r t
  end.

Definition games_keys : list (string * (game_row -> game_row -> bool)) :=
  [("games.id", fun a b => g_id a =? g_id b)].

Definition teams_keys : list (string * (team_row -> team_row -> bool)) :=
  [("teams.id", fun a b => t_id a =? t_id b)].

Definition registrations_keys
  : list (string * (registration_row -> registration_row -> bool)) :=
  [("registrations.id", fun a b => r_id a =? r_id b);
   ("registrations.game_id, registrations.rsn",
    fun a b => (r_game_id a =? r_game_id b) && (r_rsn a =? r_rsn b))].

Definition tile_tasks_keys
  : list (string * (tile_task_row -> tile_task_row -> bool)) :=
  [("tile_tasks.id", fun a b => tt_id a =? tt_id b);
   ("tile_tasks.game_id, tile_tasks.tile_index",
    fun a b => (tt_game_id a =? tt_game_id b) && (tt_tile_index a =? tt_tile_index b)%Z)].

Definition proofs_keys : list (string * (proof_row -> proof_row -> bool)) :=
  [("proofs.id", fun a b => p_id a =? p_id b);
   ("proofs.game_id, proofs.team_id, proofs.tile_index",
    fun a b => (p_game_id a =? p_game_id b) && (p_team_id a =? p_team_id b)
               && (p_tile_index a =? p_tile_index b)%Z)].

Definition events_keys : list (string * (event_row -> event_row -> bool)) :=
  [("events.game_id, events.seq",
    fun a b => (e_game_id a =? e_game_id b) && (e_seq a =? e_seq b)%Z)].

Definition set_games (f : list game_row -> list game_row) (db : Db) : Db :=
  {| games := f (games db); teams := teams db; registrations := registrations db;
     tile_tasks := tile_tasks db; proofs := proofs db; events := events db;
     game_boards := game_boards db |}.

Definition set_teams (f : list team_row -> list team_row) (db : Db) : Db :=
  {| games := games db; teams := f (teams db); registrations := registrations db;
     tile_tasks := tile_tasks db; proofs := proofs db; events := events db;
     game_boards := game_boards db |}.

Definition set_registrations
  (f : list registration_row -> list registration_row) (db : Db) : Db :=
  {| games := games db; teams := teams db; registrations := f (registrations db);
     tile_tasks := tile_tasks db; proofs := proofs db; events := events db;
     game_boards := game_boards db |}.

Definition set_tile_tasks (f : list tile_task_row -> list tile_task_row) (db : Db) : Db :=
  {| games := games db; teams := teams db; registrations := registrations db;
     tile_tasks := f (tile_tasks db); proofs := proofs db; events := events db;
     game_boards := game_boards db |}.

Definition set_proofs (f : list proof_row -> list proof_row) (db : Db) : Db :=
  {| games := games db; teams := teams db; registrations := registrations db;
     tile_tasks := tile_tasks db; proofs := f (proofs db); events := events db;
     game_boards := game_boards db |}.

Definition set_events (f : list event_row -> list event_row) (db : Db) : Db :=
  {| games := games db; teams := teams db; registrations := registrations db;
     tile_tasks := tile_tasks db; proofs := proofs db; events := f (events db);
     game_boards := game_boards db |}.

Definition set_game_boards (f : list game_board_row -> list game_board_row) (db : Db) : Db :=
  {| games := games db; teams := teams db; registrations := registrations db;
     tile_tasks := tile_tasks db; proofs := proofs db; events := events db;
     game_boards := f (game_boards db) |}.

(** db.run(INSERT INTO table ...): append the row, or throw on a violated
    constraint and leave the table as it was. *)
Definition insert {A} (keys : list (string * (A -> A -> bool)))
    (table : Db -> list A) (set : (list A -> list A) -> Db -> Db) (r : A) : M unit :=
  fun db =>
    match violated keys r (table db) with
    | Some columns => (inl (SqlConstraint columns), db)
    | None => (inr tt, set (fun t => t ++ [r]) db)
    end.

Definition insert_game := insert games_keys games set_games.
Definition insert_team := insert teams_keys teams set_teams.
Definition insert_registration := insert registrations_keys registrations set_registrations.
Definition insert_tile_task := insert tile_tasks_keys tile_tasks set_tile_tasks.
Definition insert_proof := insert proofs_keys proofs set_proofs.
(** No route writes the events table; this is the INSERT that its schema
    admits. *)
Definition insert_event := insert events_keys events set_events.

(** INSERT INTO game_boards ... ON CONFLICT(game_id) DO UPDATE SET ...:
    the row is inserted, or the existing row of the game is updated. *)
Definition upsert_game_board (r : game_board_row)
    (on_conflict : game_board_row -> game_board_row) : M unit :=
  run (set_game_boards (fun t =>
    if existsb (fun b => gb_game_id b =? gb_game_id r) t
    then map (fun b => if gb_game_id b =? gb_game_id r then on_conflict b else b) t
    else t ++ [r])).

End DbTs.

Export DbTs.

Declare Scope handler_scope.
Delimit Scope handler_scope with handler.
Notation "x <- c ;; k" := (bind c (fun x => k))
  (at level 61, c at next level, right associativity) : handler_scope.
Notation "c ;;; k" := (bind c (fun _ => k))
  (at level 61, right associativity) : handler_scope.
Local Open Scope handler_scope.

(** The verified payload of the bearer token (src/types/fastify-jwt.d.ts).
    The preHandler [jwtVerify] has already accepted the token when a handler
    runs. *)
Record jwt_user := {
  gameId : string;
  teamId : string;
  rsn : string;
  jti : string
}.

(* ------------------------------------------------------------------ *)
(** ** src/routes/roll.ts *)

Module RollTs.
Section Route.
Context {RT : Runtime}.

Definition msUntil (iso : string) (now : Z) : option Z :=
  match Date_parse iso with
  | None => None
  | Some t => Some (t - now)
  end.

Record game := {
  id : string;
  clanName : string;
  boardSize : Z;
  status : string;
  startsAt : option string;
  endsAt : option string
}.

Definition getGame (db : Db) (gameId : string) : option game :=
  match find (fun g => g_id g =? gameId) (games db) with
  | None => None
  | Some row =>
      Some {| id := g_id row; clanName := g_clan_name row;
              boardSize := g_board_size row; status := g_status row;
              startsAt := g_starts_at row; endsAt := g_ends_at row |}
  end.

Record team := {
  team_id : string;
  name : string;
  position : Z;
  awaitingProof : bool;
  pendingTile : option Z
}.

Definition getTeamById (db : Db) (gameId teamId : string) : option team :=
  match find (fun t => (t_game_id t =? gameId) && (t_id t =? teamId)) (teams db) with
  | None => None
  | Some row =>
      Some {| team_id := t_id row; name := t_name row; position := t_position row;
              awaitingProof := (t_awaiting_proof row =? 1)%Z;
              pendingTile := t_pending_tile row |}
  end.

Record tile := {
  kind : string;
  jumpTo : option Z;
  title : option string
}.

Definition getTileRaw (db : Db) (gameId : string) (tileIndex : Z) : option tile :=
  match find (fun r => (tt_game_id r =? gameId) && (tt_tile_index r =? tileIndex)%Z)
             (tile_tasks db) with
  | None => None
  | Some row =>
      Some {| kind := tt_kind row; jumpTo := tt_jump_to row; title := tt_title row |}
  end.

Definition getTileWithDefaults (db : Db) (gameId : string) (tileIndex boardSize : Z) : tile :=
  match getTileRaw db gameId tileIndex with
  | Some t => t
  | None =>
      if (tileIndex =? 0)%Z then
        {| kind := "empty"; jumpTo := None; title := Some "Start" |}
      else if (tileIndex =? boardSize)%Z then
        {| kind := "empty"; jumpTo := None; title := Some "Finish" |}
      else
        (* default to task (proof required) *)
        {| kind := "task"; jumpTo := None; title := None |}
  end.

Record team_brief := { b_id : string; b_name : string; b_position : Z }.

Record jump_info := { jump_from : Z; jump_to : Z }.

(** The response bodies of POST /games/:gameId/roll, one constructor per
    [return] of the handler. *)
Inductive response :=
| NotFound
| Inactive (status : string)
| Unauthorized
| TeamMissing
| AwaitingProof (pendingTile : option Z) (team : team_brief)
| NotStarted (team : team_brief) (serverTime : string)
             (startsAt endsAt : option string) (msUntilStart : Z)
| Ended (team : team_brief) (serverTime : string)
        (startsAt endsAt : option string) (msUntilEnd : Z)
| Rolled (roll from to : Z) (jump : option jump_info) (awaitingProof : bool)
         (serverTime : string) (startsAt endsAt : option string).

Definition ok (r : response) : bool :=
  match r with
  | NotFound | Inactive _ | Unauthorized | TeamMissing => false
  | _ => true
  end.

Definition rollAllowed (r : response) : bool :=
  match r with
  | Rolled _ _ _ _ _ _ _ _ => true
  | _ => false
  end.

Definition reason (r : response) : string :=
  match r with
  | NotFound => "not_found"
  | Inactive _ => "inactive"
  | Unauthorized => "unauthorized"
  | TeamMissing => "team_missing"
  | AwaitingProof _ _ => "awaiting_proof"
  | NotStarted _ _ _ _ _ => "not_started"
  | Ended _ _ _ _ _ => "ended"
  | Rolled _ _ _ _ _ _ _ _ => "rolled"
  end.

(** SELECT id FROM registrations WHERE game_id = ? AND team_id = ? AND rsn = ?
    AND token_jti = ? LIMIT 1 *)
Definition session (db : Db) (gameId : string) (auth : jwt_user) : option registration_row :=
  find (fun r => (r_game_id r =? gameId) && (r_team_id r =? teamId auth)
                 && (r_rsn r =? rsn auth) && (r_token_jti r =? jti auth))
       (registrations db).

Definition brief (t : team) : team_brief :=
  {| b_id := team_id t; b_name := name t; b_position := position t |}.

(** UPDATE teams SET position = ?, awaiting_proof = ?, pending_tile = ?
    WHERE id = ? AND game_id = ? *)
Definition update_team (teamId gameId : string) (to : Z) (needsProof : bool) : M unit :=
  run (set_teams (map (fun t =>
    if (t_id t =? teamId) && (t_game_id t =? gameId) then
      {| t_id := t_id t; t_game_id := t_game_id t; t_team_index := t_team_index t;
         t_name := t_name t; t_color := t_color t; t_password_hash := t_password_hash t;
         t_position := to;
         t_awaiting_proof := if needsProof then 1 else 0;
         t_pending_tile := if needsProof then Some to else None |}
    else t))).

(** The part of the handler after the time gates ("----- roll -----"). *)
Definition resolve (gameId : string) (g : game) (t : team) (now roll : Z) : M response :=
  let serverTime := toISOString now in
  let from := position t in
  (* clamp movement to finish tile (boardSize inclusive) *)
  let to := Math_min (boardSize g) (from + roll) in
  (* landing tile may be jump *)
  landing <- query (fun db => getTileWithDefaults db gameId to (boardSize g)) ;;
  let '(jump, to) :=
    match kind landing =? "jump", jumpTo landing with
    | true, Some target =>
        let jumpTo := Math_min (boardSize g) (Math_max 0 target) in
        (Some {| jump_from := to; jump_to := jumpTo |}, jumpTo)
    | _, _ => (None, to)
    end in
  (* proof gate based on FINAL destination *)
  dest <- query (fun db => getTileWithDefaults db gameId to (boardSize g)) ;;
  let needsProof := (kind dest =? "task") || (kind dest =? "boss") in
  update_team (team_id t) gameId to needsProof ;;;
  ret (Rolled roll from to jump needsProof serverTime (startsAt g) (endsAt g)).

(** POST /games/:gameId/roll.  [roll] is the value of crypto.randomInt(1, 7). *)
Definition rollRoute (gameId : string) (auth : jwt_user) (now roll : Z) : M response :=
  og <- query (fun db => getGame db gameId) ;;
  match og with
  | None => ret NotFound
  | Some g =>
      if negb (status g =? "active") then ret (Inactive (status g)) else
      (* validate session *)
      sess <- query (fun db => session db gameId auth) ;;
      match sess with
      | None => ret Unauthorized
      | Some _ =>
          ot <- query (fun db => getTeamById db gameId (teamId auth)) ;;
          match ot with
          | None => ret TeamMissing
          | Some t =>
              (* hard gate: cannot roll while awaiting proof *)
              if awaitingProof t then ret (AwaitingProof (pendingTile t) (brief t)) else
              (* time gating *)
              let serverTime := toISOString now in
              let notStarted :=
                if truthy (startsAt g) then
                  match msUntil (orElse (startsAt g) "") now with
                  | Some untilStart => if (untilStart >? 0)%Z then Some untilStart else None
                  | None => None
                  end
                else None in
              match notStarted with
              | Some untilStart =>
                  ret (NotStarted (brief t) serverTime (startsAt g) (endsAt g) untilStart)
              | None =>
                  let ended :=
                    if truthy (endsAt g) then
                      match msUntil (orElse (endsAt g) "") now with
                      | Some untilEnd => if (untilEnd <=? 0)%Z then Some untilEnd else None
                      | None => None
                      end
                    else None in
                  match ended with
                  | Some untilEnd =>
                      ret (Ended (brief t) serverTime (startsAt g) (endsAt g) untilEnd)
                  | None => resolve gameId g t now roll
                  end
              end
          end
      end
  end.

End Route.
End RollTs.

(* ------------------------------------------------------------------ *)
(** ** src/routes/proof.ts *)

Module ProofTs.
Section Route.
Context {RT : Runtime}.

(** The request body before validation: { url?, imageUrl? }. *)
Record body := {
  url : option string;
  imageUrl : option string
}.

Definition valid_url (u : option string) : bool :=
  match u with
  | None => true
  | Some s => is_url s
  end.

(** ProofBody.parse(req.body) followed by (parsed.url ?? parsed.imageUrl)! *)
Definition ProofBody_parse (b : body) : option string :=
  if valid_url (url b) && valid_url (imageUrl b)
     && negb (negb (truthy (url b)) && negb (truthy (imageUrl b)))
  then match url b with
       | Some u => Some u
       | None => imageUrl b
       end
  else None.

Record game := {
  id : string;
  clanName : string;
  boardSize : Z;
  status : string
}.

Definition getGame (db : Db) (gameId : string) : option game :=
  match find (fun g => g_id g =? gameId) (games db) with
  | None => None
  | Some row =>
      Some {| id := g_id row; clanName := g_clan_name row;
              boardSize := g_board_size row; status := g_status row |}
  end.

Record team := {
  team_id : string;
  name : string;
  position : Z;
  awaitingProof : bool;
  pendingTile : option Z
}.

Definition getTeamById (db : Db) (gameId teamId : string) : option team :=
  match find (fun t => (t_game_id t =? gameId) && (t_id t =? teamId)) (teams db) with
  | None => None
  | Some row =>
      Some {| team_id := t_id row; name := t_name row; position := t_position row;
              awaitingProof := (t_awaiting_proof row =? 1)%Z;
              pendingTile := t_pending_tile row |}
  end.

Record tile := {
  kind : string;
  jumpTo : option Z;
  title : option string
}.

Definition getTileRaw (db : Db) (gameId : string) (tileIndex : Z) : option tile :=
  match find (fun r => (tt_game_id r =? gameId) && (tt_tile_index r =? tileIndex)%Z)
             (tile_tasks db) with
  | None => None
  | Some row =>
      Some {| kind := tt_kind row; jumpTo := tt_jump_to row; title := tt_title row |}
  end.

(** DEFAULT RULE: if the tile is not defined in tile_tasks, tile 0 is empty,
    tile boardSize is empty, everything else is a task. *)
Definition getTileWithDefaults (db : Db) (gameId : string) (tileIndex boardSize : Z) : tile :=
  match getTileRaw db gameId tileIndex with
  | Some t => t
  | None =>
      if (tileIndex =? 0)%Z then
        {| kind := "empty"; jumpTo := None; title := Some "Start" |}
      else if (tileIndex =? boardSize)%Z then
        {| kind := "empty"; jumpTo := None; title := Some "Finish" |}
      else
        {| kind := "task"; jumpTo := None; title := None |}
  end.

Definition session (db : Db) (gameId : string) (auth : jwt_user) : option registration_row :=
  find (fun r => (r_game_id r =? gameId) && (r_team_id r =? teamId auth)
                 && (r_rsn r =? rsn auth) && (r_token_jti r =? jti auth))
       (registrations db).

(** UPDATE teams SET awaiting_proof = 0, pending_tile = NULL
    WHERE id = ? AND game_id = ? *)
Definition unlock_rolling (teamId gameId : string) : M unit :=
  run (set_teams (map (fun t =>
    if (t_id t =? teamId) && (t_game_id t =? gameId) then
      {| t_id := t_id t; t_game_id := t_game_id t; t_team_index := t_team_index t;
         t_name := t_name t; t_color := t_color t; t_password_hash := t_password_hash t;
         t_position := t_position t;
         t_awaiting_proof := 0;
         t_pending_tile := None |}
    else t))).

(** POST /games/:gameId/proof.  [hex] is the random part of rid("proof");
    the handler answers { ok: true } or throws. *)
Definition proofRoute (gameId : string) (auth : jwt_user) (b : body) (now : Z) (hex : string)
  : M unit :=
  match ProofBody_parse b with
  | None => throw ZodError
  | Some proofUrl =>
      og <- query (fun db => getGame db gameId) ;;
      match og with
      | None => throw (Thrown "Game not found")
      | Some g =>
          if negb (status g =? "active") then throw (Thrown "Game inactive") else
          (* validate session *)
          sess <- query (fun db => session db gameId auth) ;;
          match sess with
          | None => throw (Thrown "Unauthorized")
          | Some _ =>
              ot <- query (fun db => getTeamById db gameId (teamId auth)) ;;
              match ot with
              | None => throw (Thrown "No proof expected")
              | Some t =>
                  match awaitingProof t, pendingTile t with
                  | true, Some tileIndex =>
                      tile <- query (fun db =>
                                getTileWithDefaults db gameId tileIndex (boardSize g)) ;;
                      (* Only TASK tiles are proof-gated. *)
                      if negb (kind tile =? "task")
                      then throw (Thrown "Pending tile is not a proof tile")
                      else
                        insert_proof
                          {| p_id := rid "proof" hex; p_game_id := gameId;
                             p_team_id := team_id t; p_tile_index := tileIndex;
                             p_rsn := rsn auth; p_url := proofUrl;
                             p_created_at := toISOString now |} ;;;
                        (* unlock rolling *)
                        unlock_rolling (team_id t) gameId
                  | _, _ => throw (Thrown "No proof expected")
                  end
              end
          end
      end
  end.

End Route.
End ProofTs.

(* ------------------------------------------------------------------ *)
(** ** src/model/gameModel.ts *)

Module GameModelTs.

Record Tile := {
  index : Z;
  kind : string;
  title : option string;
  description : option string;
  jumpTo : option Z
}.

(** Number.isInteger(n) holds of every [n : Z]. *)
Definition clampTile (n boardSize : Z) : Z :=
  if (n <? 0)%Z then 0
  else if (n >? boardSize)%Z then boardSize
  else n.

Definition isProofTile (kind : string) : bool :=
  (kind =? "task") || (kind =? "boss").

Definition assertTileIndex (index boardSize : Z) : failure + unit :=
  if (index <? 0)%Z || (index >? boardSize)%Z
  then inl (Thrown "Invalid tile index")
  else inr tt.

(** readTile: a missing row is an empty tile here, whatever the index. *)
Definition readTile (db : Db) (gameId : string) (index : Z) : Tile :=
  match find (fun r => (tt_game_id r =? gameId) && (tt_tile_index r =? index)%Z)
             (tile_tasks db) with
  | None => {| index := index; kind := "empty"; title := None;
               description := None; jumpTo := None |}
  | Some row => {| index := index; kind := tt_kind row; title := tt_title row;
                   description := tt_description row; jumpTo := tt_jump_to row |}
  end.

Record jump_info := { jump_from : Z; jump_to : Z }.

(** Resolves a dice roll + optional jump.  No DB writes: pure logic. *)
Definition resolveRoll (boardSize from roll : Z) (landingTile : Tile)
  : Z * option jump_info :=
  let to := clampTile (from + roll) boardSize in
  match kind landingTile =? "jump", jumpTo landingTile with
  | true, Some target =>
      let jt := clampTile target boardSize in
      (jt, Some {| jump_from := to; jump_to := jt |})
  | _, _ => (to, None)
  end.

Definition applyLanding (to : Z) (tile : Tile) : bool * option Z :=
  let needsProof := isProofTile (kind tile) in
  (needsProof, if needsProof then Some to else None).

Record Game := {
  game_id : string;
  clanName : string;
  boardSize : Z;
  status : string
}.

(** readGame: every status other than "finished" reads as "active". *)
Definition readGame (db : Db) (gameId : string) : option Game :=
  match find (fun g => g_id g =? gameId) (games db) with
  | None => None
  | Some row =>
      Some {| game_id := g_id row; clanName := g_clan_name row;
              boardSize := g_board_size row;
              status := if g_status row =? "finished" then "finished" else "active" |}
  end.

Record Team := {
  team_id : string;
  name : string;
  team_index : Z;
  position : Z;
  awaitingProof : bool;
  pendingTile : option Z
}.

Definition readTeam (db : Db) (gameId teamId : string) : option Team :=
  match find (fun t => (t_game_id t =? gameId) && (t_id t =? teamId)) (teams db) with
  | None => None
  | Some row =>
      Some {| team_id := t_id row; name := t_name row; team_index := t_team_index row;
              position := t_position row;
              awaitingProof := (t_awaiting_proof row =? 1)%Z;
              pendingTile := t_pending_tile row |}
  end.

Definition assertCanRoll (team : Team) : failure + unit :=
  if awaitingProof team then inl (Thrown "Team is awaiting proof") else inr tt.

Definition assertCanSubmitProof (team : Team) : failure + unit :=
  match awaitingProof team, pendingTile team with
  | true, Some _ => inr tt
  | _, _ => inl (Thrown "No proof expected")
  end.

End GameModelTs.

(** SQL MAX over the selected values: NULL on no rows. *)
Fixpoint sql_max (l : list Z) : option Z :=
  match l with
  | [] => None
  | x :: l' => match sql_max l' with
               | None => Some x
               | Some m => Some (Z.max x m)
               end
  end.

(* ------------------------------------------------------------------ *)
(** ** src/routes/games.ts (the writing routes) *)

Module GamesTs.
Section Routes.
Context {RT : Runtime}.

Definition normName (s : string) : string := trim s.

(** parseIsoOrThrow(label, value) *)
Definition parseIsoOrThrow (label : string) (value : option string)
  : failure + option string :=
  if negb (truthy value) then inr None
  else match Date_parse (orElse value "") with
       | None => inl (Thrown ("Invalid " ++ label ++ " (must be ISO date string)")%string)
       | Some d => inr (Some (toISOString d))
       end.

(** z.enum(["empty", "task", "jump", "boss"]) *)
Inductive seed_kind := K_empty | K_task | K_jump | K_boss.

Definition kind_text (k : seed_kind) : string :=
  match k with
  | K_empty => "empty"
  | K_task => "task"
  | K_jump => "jump"
  | K_boss => "boss"
  end.

Record seed_tile := {
  tileIndex : Z;
  kind : seed_kind;
  title : option string;
  description : option string;
  jumpTo : option Z
}.

Record create_game_body := {
  clanName : string;
  hostPassword : string;
  boardSize : Z;
  displayName : option string;
  boardUrl : option string;
  startsAt : option string;
  endsAt : option string;
  tiles : option (list seed_tile)
}.

(** CreateGameBody.parse: the length and range checks of the schema (the
    types of the fields are those of the record). *)
Definition CreateGameBody_ok (b : create_game_body) : bool :=
  (1 <=? len (clanName b))%Z
  && (4 <=? len (hostPassword b))%Z
  && (10 <=? boardSize b)%Z && (boardSize b <=? 500)%Z
  && match displayName b with
     | None => true
     | Some d => (1 <=? len d)%Z && (len d <=? 80)%Z
     end
  && match boardUrl b with
     | None => true
     | Some u => is_url u
     end
  && match tiles b with
     | None => true
     | Some ts => forallb (fun t => (0 <=? tileIndex t)%Z) ts
     end.

Record game := {
  id : string;
  g_clanName : string;
  g_boardSize : Z;
  status : string;
  createdAt : string;
  g_startsAt : option string;
  g_endsAt : option string
}.

Definition getGame (db : Db) (gameId : string) : option game :=
  match find (fun g => g_id g =? gameId) (games db) with
  | None => None
  | Some row =>
      Some {| id := g_id row; g_clanName := g_clan_name row;
              g_boardSize := g_board_size row; status := g_status row;
              createdAt := g_created_at row;
              g_startsAt := g_starts_at row; g_endsAt := g_ends_at row |}
  end.

Record team := {
  team_id : string;
  name : string;
  color : string;
  passwordHash : string;
  teamIndex : Z
}.

Definition team_of_row (row : team_row) : team :=
  {| team_id := t_id row; name := t_name row; color := t_color row;
     passwordHash := t_password_hash row; teamIndex := t_team_index row |}.

Definition getTeamById (db : Db) (gameId teamId : string) : option team :=
  option_map team_of_row
    (find (fun t => (t_game_id t =? gameId) && (t_id t =? teamId)) (teams db)).

Definition getTeamByName (db : Db) (gameId name : string) : option team :=
  option_map team_of_row
    (find (fun t => (t_game_id t =? gameId) && (t_name t =? name)) (teams db)).

(** SELECT COALESCE(MAX(team_index), -1) FROM teams WHERE game_id = ?, plus one *)
Definition nextTeamIndex (db : Db) (gameId : string) : Z :=
  let max := orElse (sql_max (map t_team_index
               (filter (fun t => t_game_id t =? gameId) (teams db)))) (-1) in
  max + 1.

Record create_game_response := {
  res_gameId : string;
  res_joinCode : string;
  res_clanName : string;
  res_displayName : string;
  res_startsAt : option string;
  res_endsAt : option string
}.

(** body.tiles?.forEach: one INSERT per tile whose index is on the board.
    [hex i] is the random part of the identifier of the tile at array
    position [i]. *)
Fixpoint seed_tiles (gameId : string) (boardSize : Z) (hex : nat -> string)
    (i : nat) (ts : list seed_tile) : M unit :=
  match ts with
  | [] => ret tt
  | tile :: rest =>
      (if (tileIndex tile <? 0)%Z || (tileIndex tile >? boardSize)%Z then ret tt
       else insert_tile_task
              {| tt_id := rid "tile" (hex i); tt_game_id := gameId;
                 tt_tile_index := tileIndex tile;
                 tt_kind := kind_text (kind tile);
                 tt_title := title tile;
                 tt_description := description tile;
                 tt_jump_to := jumpTo tile |}) ;;;
      seed_tiles gameId boardSize hex (S i) rest
  end.

Definition lift {A} (r : failure + A) : M A :=
  match r with
  | inl e => throw e
  | inr a => ret a
  end.

(** POST /games.  [gameHex], [joinCode] and [tileHex] are the random draws
    of rid("game"), makeJoinCode(8) and rid("tile"). *)
Definition createGame (body : create_game_body) (now : Z)
    (gameHex joinCode : string) (tileHex : nat -> string) : M create_game_response :=
  if negb (CreateGameBody_ok body) then throw ZodError else
  let gameId := rid "game" gameHex in
  let clanName := normName (clanName body) in
  let displayName :=
    if truthy (displayName body) then normName (orElse (displayName body) "")
    else (clanName ++ " Game")%string in
  startsAtIso <- lift (parseIsoOrThrow "startsAt" (startsAt body)) ;;
  endsAtIso <- lift (parseIsoOrThrow "endsAt" (endsAt body)) ;;
  if truthy startsAtIso && truthy endsAtIso
     && match Date_parse (orElse endsAtIso ""), Date_parse (orElse startsAtIso "") with
        | Some e, Some s => (e <=? s)%Z
        | _, _ => false
        end
  then throw (Thrown "endsAt must be after startsAt")
  else
    let joinHash := sha256 (toUpperCase joinCode) in
    insert_game
      {| g_id := gameId; g_clan_name := clanName;
         g_host_password_hash := sha256 (hostPassword body);
         g_board_size := boardSize body;
         g_created_at := toISOString now;
         g_turn_team_index := 0;
         g_status := "active";
         g_discord_webhook_url := None;
         g_board_url := boardUrl body;
         g_starts_at := startsAtIso;
         g_ends_at := endsAtIso;
         g_display_name := Some displayName;
         g_join_code_hash := Some joinHash |} ;;;
    seed_tiles gameId (boardSize body) tileHex 0 (orElse (tiles body) []) ;;;
    ret {| res_gameId := gameId; res_joinCode := joinCode; res_clanName := clanName;
           res_displayName := displayName;
           res_startsAt := startsAtIso; res_endsAt := endsAtIso |}.

Record create_team_body := {
  ct_name : string;
  ct_color : string;
  ct_password : string
}.

Definition CreateTeamBody_ok (b : create_team_body) : bool :=
  (1 <=? len (ct_name b))%Z && (1 <=? len (ct_color b))%Z && (1 <=? len (ct_password b))%Z.

Record create_team_response := {
  ctr_id : string;
  ctr_index : Z;
  ctr_name : string;
  ctr_color : string
}.

(** POST /games/:id/teams *)
Definition createTeam (gameId : string) (body : create_team_body) (teamHex : string)
  : M create_team_response :=
  if negb (CreateTeamBody_ok body) then throw ZodError else
  og <- query (fun db => getGame db gameId) ;;
  match og with
  | None => throw (Thrown "Game not found")
  | Some _ =>
      let name := normName (ct_name body) in
      let color := trim (ct_color body) in
      exists_ <- query (fun db =>
                   existsb (fun t => (t_game_id t =? gameId) && (t_name t =? name)) (teams db)) ;;
      if (exists_ : bool) then throw (Thrown "Team name already exists") else
      teamIndex <- query (fun db => nextTeamIndex db gameId) ;;
      let teamId := rid "team" teamHex in
      insert_team
        {| t_id := teamId; t_game_id := gameId; t_team_index := teamIndex;
           t_name := name; t_color := color;
           t_password_hash := sha256 (ct_password body);
           t_position := 0; t_awaiting_proof := 0; t_pending_tile := None |} ;;;
      ret {| ctr_id := teamId; ctr_index := teamIndex; ctr_name := name; ctr_color := color |}
  end.

Record register_body := {
  rb_rsn : string;
  rb_teamId : option string;
  rb_teamName : option string;
  rb_teamPassword : string
}.

Definition RegisterBody_ok (b : register_body) : bool :=
  (1 <=? len (rb_rsn b))%Z
  && match rb_teamId b with None => true | Some s => (1 <=? len s)%Z end
  && match rb_teamName b with None => true | Some s => (1 <=? len s)%Z end
  && (1 <=? len (rb_teamPassword b))%Z
  && negb (negb (truthy (rb_teamId b)) && negb (truthy (rb_teamName b))).

Record register_response := {
  (** app.jwt.sign(payload): the token is stood for by its payload *)
  token : jwt_user;
  rr_id : string;
  rr_name : string;
  rr_color : string
}.

(** POST /games/:id/register *)
Definition register (gameId : string) (body : register_body) (now : Z)
    (sessHex regHex : string) : M register_response :=
  if negb (RegisterBody_ok body) then throw ZodError else
  og <- query (fun db => getGame db gameId) ;;
  match og with
  | None => throw (Thrown "Game not found")
  | Some g =>
      if negb (status g =? "active") then throw (Thrown "Game inactive") else
      ot <- query (fun db =>
              if truthy (rb_teamId body)
              then getTeamById db gameId (orElse (rb_teamId body) "")
              else getTeamByName db gameId (normName (orElse (rb_teamName body) ""))) ;;
      match ot with
      | None => throw (Thrown "Invalid team credentials")
      | Some t =>
          if negb (passwordHash t =? sha256 (rb_teamPassword body))
          then throw (Thrown "Invalid team credentials") else
          exists_ <- query (fun db =>
                       existsb (fun r => (r_game_id r =? gameId) && (r_rsn r =? rb_rsn body))
                               (registrations db)) ;;
          if (exists_ : bool) then throw (Thrown "RSN already registered in this game") else
          let jti := rid "sess" sessHex in
          insert_registration
            {| r_id := rid "reg" regHex; r_game_id := gameId; r_team_id := team_id t;
               r_rsn := rb_rsn body; r_token_jti := jti;
               r_created_at := toISOString now |} ;;;
          ret {| token := {| gameId := gameId; teamId := team_id t;
                             rsn := rb_rsn body; jti := jti |};
                 rr_id := team_id t; rr_name := name t; rr_color := color t |}
      end
  end.

End Routes.
End GamesTs.

(* ------------------------------------------------------------------ *)
(** ** src/routes/board.ts *)

Module BoardTs.
Section Routes.
Context {RT : Runtime}.

Record game := {
  id : string;
  hostPasswordHash : string;
  g_boardSize : Z;
  status : string
}.

Definition getGame (db : Db) (gameId : string) : option game :=
  match find (fun g => g_id g =? gameId) (games db) with
  | None => None
  | Some row =>
      Some {| id := g_id row; hostPasswordHash := g_host_password_hash row;
              g_boardSize := g_board_size row; status := g_status row |}
  end.

(** z.enum(["start", "task", "jump", "finish", "empty", "boss"]) *)
Inductive tile_type := T_start | T_task | T_jump | T_finish | T_empty | T_boss.

Definition type_text (t : tile_type) : string :=
  match t with
  | T_start => "start"
  | T_task => "task"
  | T_jump => "jump"
  | T_finish => "finish"
  | T_empty => "empty"
  | T_boss => "boss"
  end.

(** A tile of the board document; [type] is absent before the schema's
    default is applied. *)
Record board_tile := {
  tile_id : Z;
  type : option tile_type;
  title : option string;
  description : option string;
  image : option string;
  category : option string;
  requiresProof : option bool;
  jumpTo : option Z
}.

Record board := {
  schemaVersion : option Z;
  board_id : option string;
  board_title : option string;
  board_description : option string;
  boardSize : Z;
  tilesBasePath : option string;
  tiles : list board_tile
}.

Definition in_range (lo hi : Z) (o : option Z) : bool :=
  match o with
  | None => true
  | Some n => (lo <=? n)%Z && (n <=? hi)%Z
  end.

Definition min_len (n : Z) (o : option string) : bool :=
  match o with
  | None => true
  | Some s => (n <=? len s)%Z
  end.

Definition tile_ok (t : board_tile) : bool :=
  (0 <=? tile_id t)%Z && (tile_id t <=? 500)%Z && in_range 0 500 (jumpTo t).

(** the defaults of the schema: schemaVersion 1, type "empty" *)
Definition tile_defaults (t : board_tile) : board_tile :=
  {| tile_id := tile_id t; type := Some (orElse (type t) T_empty);
     title := title t; description := description t; image := image t;
     category := category t; requiresProof := requiresProof t; jumpTo := jumpTo t |}.

(** BoardSchema.parse(req.body) *)
Definition BoardSchema_parse (b : board) : option board :=
  if in_range 1 10 (schemaVersion b) && min_len 1 (board_id b)
     && (1 <=? boardSize b)%Z && (boardSize b <=? 500)%Z
     && min_len 1 (tilesBasePath b) && forallb tile_ok (tiles b)
  then Some {| schemaVersion := Some (orElse (schemaVersion b) 1);
               board_id := board_id b; board_title := board_title b;
               board_description := board_description b;
               boardSize := boardSize b; tilesBasePath := tilesBasePath b;
               tiles := map tile_defaults (tiles b) |}
  else None.

(** Mechanics mapping:
    - jump => jump
    - task => task (unless requiresProof===false, then treat as empty for gating)
    - boss (legacy tile type) => task (same as above)
    - start/finish/empty => empty *)
Definition mapBoardTileToDbKind (t_type : option string) (t_requiresProof : option bool)
  : string :=
  let type := toLowerCase (orElse t_type "empty") in
  if type =? "jump" then "jump"
  else if (type =? "task") || (type =? "boss") then
    match t_requiresProof with
    | Some false => "empty"
    | _ => "task"
    end
  else "empty".

Definition opt_field {A} (key : string) (enc : A -> json) (o : option A)
  : list (string * json) :=
  match o with
  | None => []
  | Some v => [(key, enc v)]
  end.

(** The JSON value that JSON.stringify prints for a parsed document:
    absent fields are left out. *)
Definition tile_to_json (t : board_tile) : json :=
  JObj ([("id", JNum (tile_id t))]
        ++ opt_field "type" (fun ty => JStr (type_text ty)) (type t)
        ++ opt_field "title" JStr (title t)
        ++ opt_field "description" JStr (description t)
        ++ opt_field "image" JStr (image t)
        ++ opt_field "category" JStr (category t)
        ++ opt_field "requiresProof" JBool (requiresProof t)
        ++ opt_field "jumpTo" JNum (jumpTo t)).

Definition board_to_json (b : board) : json :=
  JObj (opt_field "schemaVersion" JNum (schemaVersion b)
        ++ opt_field "id" JStr (board_id b)
        ++ opt_field "title" JStr (board_title b)
        ++ opt_field "description" JStr (board_description b)
        ++ [("boardSize", JNum (boardSize b))]
        ++ opt_field "tilesBasePath" JStr (tilesBasePath b)
        ++ [("tiles", JArr (map tile_to_json (tiles b)))]).

(** The minimal default document: Start and Finish only. *)
Definition minimal (gameId : string) (boardSize : Z) : json :=
  JObj [("schemaVersion", JNum 1); ("id", JStr gameId);
        ("title", JStr "Snakes & Ladders"); ("description", JStr "");
        ("boardSize", JNum boardSize); ("tilesBasePath", JStr "tiles");
        ("tiles", JArr [
           JObj [("id", JNum 0); ("type", JStr "start"); ("title", JStr "Start");
                 ("requiresProof", JBool false)];
           JObj [("id", JNum boardSize); ("type", JStr "finish"); ("title", JStr "Finish");
                 ("requiresProof", JBool false)]])].

Definition board_row (db : Db) (gameId : string) : option game_board_row :=
  find (fun b => gb_game_id b =? gameId) (game_boards db).

Inductive get_response :=
| NoBoard                                           (* { board: null } *)
| BoardDoc (board : option json) (locked : bool) (updatedAt : option string).

(** GET /games/:id/board; JSON.parse throws on a text that is not JSON. *)
Definition getBoard (gameId : string) : M get_response :=
  og <- query (fun db => getGame db gameId) ;;
  match og with
  | None => ret NoBoard
  | Some g =>
      orow <- query (fun db => board_row db gameId) ;;
      match orow with
      | None => ret (BoardDoc (Some (minimal gameId (g_boardSize g))) false None)
      | Some row =>
          match JSON_parse (gb_board_json row) with
          | None => throw (Thrown "SyntaxError")
          | Some doc =>
              ret (BoardDoc (Some doc) (gb_locked row =? 1)%Z (Some (gb_updated_at row)))
          end
      end
  end.

(** The replies of the writing routes: reply.code(c).send({ error }), or the
    returned object with status 200. *)
Inductive response :=
| Refused (code : Z) (error : string)
| Saved (updatedAt : string)
| LockState (locked : bool) (updatedAt : string).

(** validate tile ids range + jumpTo correctness: the first complaint *)
Fixpoint validate_tiles (boardSize : Z) (ts : list board_tile) : option string :=
  match ts with
  | [] => None
  | t :: rest =>
      if (tile_id t <? 0)%Z || (tile_id t >? boardSize)%Z
      then Some ("Tile id " ++ string_of_Z (tile_id t) ++ " out of range")%string
      else if type_text (orElse (type t) T_empty) =? "jump" then
        match jumpTo t with
        | None => Some ("jump tile " ++ string_of_Z (tile_id t) ++ " missing jumpTo")%string
        | Some j =>
            if (j <? 0)%Z || (j >? boardSize)%Z
            then Some ("jumpTo " ++ string_of_Z j ++ " out of range")%string
            else validate_tiles boardSize rest
        end
      else validate_tiles boardSize rest
  end.

Definition tile_row (gameId hex : string) (t : board_tile) : tile_task_row :=
  let kind := mapBoardTileToDbKind (option_map type_text (type t)) (requiresProof t) in
  {| tt_id := rid "tile" hex; tt_game_id := gameId; tt_tile_index := tile_id t;
     tt_kind := kind; tt_title := title t; tt_description := description t;
     tt_jump_to := if kind =? "jump" then jumpTo t else None |}.

(** rebuild tile_tasks from board tiles: one INSERT per tile *)
Fixpoint insert_tiles (gameId : string) (hex : nat -> string) (i : nat)
    (ts : list board_tile) : M unit :=
  match ts with
  | [] => ret tt
  | t :: rest =>
      insert_tile_task (tile_row gameId (hex i) t) ;;;
      insert_tiles gameId hex (S i) rest
  end.

Definition host_header (h : option string) : string := trim (orElse h "").

(** PUT /games/:id/board.  [hostPassword] is the x-host-password header. *)
Definition putBoard (gameId : string) (hostPassword : option string) (body : board)
    (now : Z) (tileHex : nat -> string) : M response :=
  let hostPassword := host_header hostPassword in
  if negb (truthy (Some hostPassword))
  then ret (Refused 401 "Missing x-host-password header") else
  og <- query (fun db => getGame db gameId) ;;
  match og with
  | None => ret (Refused 404 "Game not found")
  | Some g =>
      if negb (sha256 hostPassword =? hostPasswordHash g)
      then ret (Refused 403 "Invalid host password") else
      (* refuse edits if locked *)
      lockRow <- query (fun db => board_row db gameId) ;;
      if match lockRow with
         | Some row => (gb_locked row =? 1)%Z
         | None => false
         end
      then ret (Refused 409 "Board is locked") else
      match BoardSchema_parse body with
      | None => throw ZodError
      | Some parsed =>
          (* enforce boardSize matches game.boardSize *)
          if negb (boardSize parsed =? g_boardSize g)%Z
          then ret (Refused 400 ("boardSize must match game.boardSize ("
                                 ++ string_of_Z (g_boardSize g) ++ ")")%string)
          else
            match validate_tiles (g_boardSize g) (tiles parsed) with
            | Some complaint => ret (Refused 400 complaint)
            | None =>
                let updatedAt := toISOString now in
                let text := JSON_stringify (board_to_json parsed) in
                upsert_game_board
                  {| gb_game_id := gameId; gb_board_json := text;
                     gb_locked := 0; gb_updated_at := updatedAt |}
                  (fun old => {| gb_game_id := gb_game_id old; gb_board_json := text;
                                 gb_locked := gb_locked old;
                                 gb_updated_at := updatedAt |}) ;;;
                (* DELETE FROM tile_tasks WHERE game_id = ? *)
                run (set_tile_tasks (filter (fun r => negb (tt_game_id r =? gameId)))) ;;;
                insert_tiles gameId tileHex 0 (tiles parsed) ;;;
                ret (Saved updatedAt)
            end
      end
  end.

(** POST /games/:id/board/lock ([locked] = 1) and .../unlock ([locked] = 0):
    the two handlers differ in that value only. *)
Definition setLock (locked : Z) (gameId : string) (hostPassword : option string) (now : Z)
  : M response :=
  let hostPassword := host_header hostPassword in
  if negb (truthy (Some hostPassword))
  then ret (Refused 401 "Missing x-host-password header") else
  og <- query (fun db => getGame db gameId) ;;
  match og with
  | None => ret (Refused 404 "Game not found")
  | Some g =>
      if negb (sha256 hostPassword =? hostPasswordHash g)
      then ret (Refused 403 "Invalid host password") else
      let updatedAt := toISOString now in
      existing <- query (fun db => board_row db gameId) ;;
      if truthy (option_map gb_board_json existing) then
        (* UPDATE game_boards SET locked = ?, updated_at = ? WHERE game_id = ? *)
        run (set_game_boards (map (fun b =>
          if gb_game_id b =? gameId then
            {| gb_game_id := gb_game_id b; gb_board_json := gb_board_json b;
               gb_locked := locked; gb_updated_at := updatedAt |}
          else b))) ;;;
        ret (LockState (locked =? 1)%Z updatedAt)
      else
        upsert_game_board
          {| gb_game_id := gameId;
             gb_board_json := JSON_stringify (minimal gameId (g_boardSize g));
             gb_locked := locked; gb_updated_at := updatedAt |}
          (fun old => {| gb_game_id := gb_game_id old; gb_board_json := gb_board_json old;
                         gb_locked := locked; gb_updated_at := updatedAt |}) ;;;
        ret (LockState (locked =? 1)%Z updatedAt)
  end.

Definition lock := setLock 1.
Definition unlock := setLock 0.

End Routes.
End BoardTs.

(** ORDER BY key ASC as a stable insertion sort: rows with equal keys keep
    their rowid order. *)
Section OrderBy.
Variables (A K : Type) (leb : K -> K -> bool) (key : A -> K).

Fixpoint insert_sorted (x : A) (l : list A) : list A :=
  match l with
  | [] => [x]
  | y :: l' => if leb (key y) (key x) then y :: insert_sorted x l' else x :: l
  end.

Definition order_by (l : list A) : list A :=
  fold_left (fun acc x => insert_sorted x acc) l [].
End OrderBy.

(* ------------------------------------------------------------------ *)
(** ** src/routes/state.ts *)

Module StateTs.
Section Route.
Context {RT : Runtime}.

Record game := {
  id : string;
  clanName : string;
  boardSize : Z;
  status : string;
  boardUrl : option string;
  startsAt : option string;
  endsAt : option string
}.

Definition getGame (db : Db) (gameId : string) : option game :=
  match find (fun g => g_id g =? gameId) (games db) with
  | None => None
  | Some row =>
      Some {| id := g_id row; clanName := g_clan_name row;
              boardSize := g_board_size row; status := g_status row;
              boardUrl := g_board_url row;
              startsAt := g_starts_at row; endsAt := g_ends_at row |}
  end.

Record tile := {
  kind : string;
  title : option string;
  jumpTo : option Z
}.

Definition getTileInfo (db : Db) (gameId : string) (tileIndex boardSize : Z) : tile :=
  match find (fun r => (tt_game_id r =? gameId) && (tt_tile_index r =? tileIndex)%Z)
             (tile_tasks db) with
  | None =>
      (* Match roll/proof defaults exactly *)
      if (tileIndex =? 0)%Z then
        {| kind := "empty"; title := Some "Start"; jumpTo := None |}
      else if (tileIndex =? boardSize)%Z then
        {| kind := "empty"; title := Some "Finish"; jumpTo := None |}
      else
        {| kind := "task"; title := None; jumpTo := None |}
  | Some row =>
      {| kind := tt_kind row; title := tt_title row; jumpTo := tt_jump_to row |}
  end.

(** membersByTeam[id] ?? []: the rsn of the registrations of the team, by
    created_at *)
Definition members (db : Db) (gameId teamId : string) : list string :=
  map r_rsn
    (filter (fun r => r_team_id r =? teamId)
       (order_by String.leb r_created_at
          (filter (fun r => r_game_id r =? gameId) (registrations db)))).

Record tile_view := {
  tv_index : Z;
  tv_kind : string;
  tv_title : option string;
  tv_jumpTo : option Z
}.

Record team_view := {
  team_id : string;
  index : Z;
  name : string;
  color : string;
  position : Z;
  awaitingProof : bool;
  pendingTile : option Z;
  team_members : list string;
  positionTile : tile_view;
  activeTile : tile_view
}.

Definition view (i : Z) (t : tile) : tile_view :=
  {| tv_index := i; tv_kind := kind t; tv_title := title t; tv_jumpTo := jumpTo t |}.

Definition team_view_of (db : Db) (gameId : string) (g : game) (r : team_row) : team_view :=
  let position := t_position r in
  let pendingTile := t_pending_tile r in
  let posTile := getTileInfo db gameId position (boardSize g) in
  let activeIndex := orElse pendingTile position in
  let activeTile := getTileInfo db gameId activeIndex (boardSize g) in
  {| team_id := t_id r; index := t_team_index r; name := t_name r; color := t_color r;
     position := position;
     awaitingProof := (t_awaiting_proof r =? 1)%Z;
     pendingTile := pendingTile;
     team_members := members db gameId (t_id r);
     positionTile := view position posTile;
     activeTile := view activeIndex activeTile |}.

Record response := {
  serverTime : string;
  res_game : option game;
  res_teams : list team_view
}.

(** GET /games/:id/state *)
Definition stateRoute (db : Db) (gameId : string) (now : Z) : response :=
  match getGame db gameId with
  | None => {| serverTime := toISOString now; res_game := None; res_teams := [] |}
  | Some g =>
      {| serverTime := toISOString now;
         res_game := Some g;
         res_teams :=
           map (team_view_of db gameId g)
               (order_by Z.leb t_team_index
                  (filter (fun t => t_game_id t =? gameId) (teams db))) |}
  end.

End Route.
End StateTs.

(* ------------------------------------------------------------------ *)
(** ** src/routes/overlay.ts *)

Module OverlayTs.
Section Route.
Context {RT : Runtime}.

Definition parseIso (s : option string) : option Z :=
  if truthy s then Date_parse (orElse s "") else None.

Inductive phase := prestart | running | ended.

Definition phase_text (p : phase) : string :=
  match p with
  | prestart => "prestart"
  | running => "running"
  | ended => "ended"
  end.

Record game := {
  id : string;
  clanName : string;
  boardSize : Z;
  status : string;
  boardUrl : option string;
  startsAt : option string;
  endsAt : option string;
  turnTeamIndex : Z
}.

Definition phaseFrom (g : option game) (nowMs : Z) : phase :=
  match g with
  | None => ended
  | Some game =>
      if toLowerCase (status game) =? "finished" then ended else
      let startMs := parseIso (startsAt game) in
      let endMs := parseIso (endsAt game) in
      if match startMs with Some s => (nowMs <? s)%Z | None => false end then prestart
      else if match endMs with Some e => (nowMs >=? e)%Z | None => false end then ended
      else running
  end.

Definition getGame (db : Db) (gameId : string) : option game :=
  match find (fun g => g_id g =? gameId) (games db) with
  | None => None
  | Some row =>
      Some {| id := g_id row; clanName := g_clan_name row;
              boardSize := g_board_size row; status := g_status row;
              boardUrl := g_board_url row;
              startsAt := g_starts_at row; endsAt := g_ends_at row;
              turnTeamIndex := g_turn_team_index row |}
  end.

Record revision_info := {
  maxSeq : Z;
  updatedAt : option string
}.

(** SELECT COALESCE(MAX(seq), 0) FROM events WHERE game_id = ?  and
    SELECT updated_at FROM game_boards WHERE game_id = ? LIMIT 1 *)
Definition getOverlayRevision (db : Db) (gameId : string) : revision_info :=
  {| maxSeq := orElse (sql_max (map e_seq
                 (filter (fun e => e_game_id e =? gameId) (events db)))) 0;
     updatedAt := option_map gb_updated_at
                    (find (fun b => gb_game_id b =? gameId) (game_boards db)) |}.

Record team := {
  team_id : string;
  index : Z;
  name : string;
  color : string;
  position : Z;
  awaitingProof : bool;
  pendingTile : option Z
}.

Definition getTeamByRsn (db : Db) (gameId rsn : string) : option team :=
  match find (fun r => (r_game_id r =? gameId) && (toLowerCase (r_rsn r) =? toLowerCase rsn))
             (registrations db) with
  | None => None
  | Some reg =>
      if negb (truthy (Some (r_team_id reg))) then None else
      match find (fun t => (t_game_id t =? gameId) && (t_id t =? r_team_id reg))
                 (teams db) with
      | None => None
      | Some row =>
          Some {| team_id := t_id row; index := t_team_index row; name := t_name row;
                  color := t_color row; position := t_position row;
                  awaitingProof := (t_awaiting_proof row =? 1)%Z;
                  pendingTile := t_pending_tile row |}
      end
  end.

Record tile := {
  kind : string;
  title : option string;
  description : option string;
  jumpTo : option Z
}.

Definition getTileFull (db : Db) (gameId : string) (tileIndex boardSize : Z) : tile :=
  match find (fun r => (tt_game_id r =? gameId) && (tt_tile_index r =? tileIndex)%Z)
             (tile_tasks db) with
  | None =>
      if (tileIndex =? 0)%Z then
        {| kind := "empty"; title := Some "Start"; description := None; jumpTo := None |}
      else if (tileIndex =? boardSize)%Z then
        {| kind := "empty"; title := Some "Finish"; description := None; jumpTo := None |}
      else
        {| kind := "task"; title := None; description := None; jumpTo := None |}
  | Some row =>
      {| kind := tt_kind row; title := tt_title row;
         description := tt_description row; jumpTo := tt_jump_to row |}
  end.

Record tile_image := {
  imageUrl : option string;
  imageCacheKey : option string
}.

(** [v?.key] on a parsed JSON value (a parsed object has no duplicate key). *)
Definition field (key : string) (v : json) : option json :=
  match v with
  | JObj fields => option_map snd (find (fun kv => fst kv =? key) fields)
  | _ => None
  end.

Definition string_field (key : string) (v : json) : option string :=
  match field key v with
  | Some (JStr s) => Some s
  | _ => None
  end.

(** getBoardTileImages: the Map as an association list, the latest
    out.set first. *)
Definition getBoardTileImages (db : Db) (gameId : string) : list (Z * tile_image) :=
  match find (fun b => gb_game_id b =? gameId) (game_boards db) with
  | None => []
  | Some row =>
      if negb (truthy (Some (gb_board_json row))) then [] else
      match JSON_parse (gb_board_json row) with
      | None => []                                   (* catch: ignore *)
      | Some parsed =>
          let tiles := match field "tiles" parsed with
                       | Some (JArr items) => items
                       | _ => []
                       end in
          fold_left (fun out t =>
            match match field "tileIndex" t with
                  | None => None
                  | Some v => Number_of_json v
                  end with
            | None => out
            | Some idx =>
                let imageUrl := string_field "imageUrl" t in
                let imageCacheKey := string_field "imageCacheKey" t in
                if truthy imageUrl || truthy imageCacheKey
                then (idx, {| imageUrl := imageUrl; imageCacheKey := imageCacheKey |}) :: out
                else out
            end) tiles []
      end
  end.

Definition images_get (images : list (Z * tile_image)) (i : Z) : option tile_image :=
  option_map snd (find (fun kv => (fst kv =? i)%Z) images).

Record team_view := { tv_name : string; tv_position : Z }.

Record tile_view := {
  v_tileIndex : Z;
  v_kind : string;
  v_title : string;
  v_description : string;
  v_imageUrl : string;
  v_imageCacheKey : string
}.

Record body := {
  revision : Z;
  serverTime : string;
  startTime : option string;
  endTime : option string;
  body_phase : string;
  body_team : option team_view;
  body_tile : tile_view;
  flag_awaitingProof : bool;
  flag_canRoll : bool
}.

(** status code, ETag header, body *)
Record reply := {
  code : Z;
  ETag : option string;
  payload : option body
}.

Definition dquote : string := String (ascii_of_nat 34) EmptyString.

Definition quoted (s : string) : string := (dquote ++ s ++ dquote)%string.

(** GET /games/:id/overlay?rsn=...; [ifNoneMatch] is the request header. *)
Definition overlayRoute (db : Db) (gameId : string) (rsn_query ifNoneMatch : option string)
    (now : Z) : reply :=
  let rsn := trim (orElse rsn_query "") in
  match getGame db gameId with
  | None =>
      {| code := 200;
         ETag := Some (quoted "missing");
         payload := Some
           {| revision := 0; serverTime := toISOString now;
              startTime := None; endTime := None;
              body_phase := "ended";
              body_team := None;
              body_tile := {| v_tileIndex := 0; v_kind := "empty"; v_title := "Start";
                              v_description := ""; v_imageUrl := "";
                              v_imageCacheKey := "" |};
              flag_awaitingProof := false; flag_canRoll := false |} |}
  | Some game =>
      let rev := getOverlayRevision db gameId in
      let etag := quoted (string_of_Z (maxSeq rev) ++ ":" ++ orElse (updatedAt rev) "")%string in
      (* 304 support *)
      let inm := orElse ifNoneMatch "" in
      if truthy (Some inm) && (inm =? etag)
      then {| code := 304; ETag := None; payload := None |}
      else
        let nowMs := now in
        let phase := phaseFrom (Some game) nowMs in
        let images := getBoardTileImages db gameId in
        let team := if truthy (Some rsn) then getTeamByRsn db gameId rsn else None in
        (* If not in a team, show tile 0 info *)
        let activeIndex := match team with
                           | Some t => orElse (pendingTile t) (position t)
                           | None => 0
                           end in
        let t := getTileFull db gameId activeIndex (boardSize game) in
        let img := orElse (images_get images activeIndex)
                          {| imageUrl := None; imageCacheKey := None |} in
        let awaitingProof := match team with
                             | Some t => awaitingProof t
                             | None => false
                             end in
        let hasJwt := true in
        let canRoll :=
          match team with
          | Some tm =>
              hasJwt && negb awaitingProof
              && (phase_text phase =? "running")
              && (toLowerCase (status game) =? "active")
              && (index tm =? turnTeamIndex game)%Z
          | None => false
          end in
        {| code := 200;
           ETag := Some etag;
           payload := Some
             {| revision := maxSeq rev;
                serverTime := toISOString now;
                startTime := startsAt game;
                endTime := endsAt game;
                body_phase := phase_text phase;
                body_team := option_map (fun tm => {| tv_name := name tm;
                                                      tv_position := position tm |}) team;
                body_tile := {| v_tileIndex := activeIndex;
                                v_kind := kind t;
                                v_title := orElse (title t) "";
                                v_description := orElse (description t) "";
                                v_imageUrl := orElse (imageUrl img) "";
                                v_imageCacheKey := orElse (imageCacheKey img) "" |};
                flag_awaitingProof := awaitingProof;
                flag_canRoll := canRoll |} |}
  end.

End Route.
End OverlayTs.

(* ------------------------------------------------------------------ *)
(** ** src/server.ts: the routes that write, as requests on one database *)

Module ServerTs.
Section Server.
Context {RT : Runtime}.

Inductive request :=
| PostGames (body : GamesTs.create_game_body) (now : Z)
            (gameHex joinCode : string) (tileHex : nat -> string)
| PostTeams (gameId : string) (body : GamesTs.create_team_body) (teamHex : string)
| PostRegister (gameId : string) (body : GamesTs.register_body) (now : Z)
               (sessHex regHex : string)
| PostRoll (gameId : string) (auth : jwt_user) (now roll : Z)
| PostProof (gameId : string) (auth : jwt_user) (body : ProofTs.body) (now : Z)
            (hex : string)
| PutBoard (gameId : string) (hostPassword : option string) (body : BoardTs.board)
           (now : Z) (tileHex : nat -> string)
| PostLock (gameId : string) (hostPassword : option string) (now : Z)
| PostUnlock (gameId : string) (hostPassword : option string) (now : Z).

(** The database after a request; the GET routes leave it as it is. *)
Definition handle (req : request) (db : Db) : Db :=
  match req with
  | PostGames body now gameHex joinCode tileHex =>
      snd (GamesTs.createGame body now gameHex joinCode tileHex db)
  | PostTeams gameId body teamHex => snd (GamesTs.createTeam gameId body teamHex db)
  | PostRegister gameId body now sessHex regHex =>
      snd (GamesTs.register gameId body now sessHex regHex db)
  | PostRoll gameId auth now roll => snd (RollTs.rollRoute gameId auth now roll db)
  | PostProof gameId auth body now hex => snd (ProofTs.proofRoute gameId auth body now hex db)
  | PutBoard gameId hostPassword body now tileHex =>
      snd (BoardTs.putBoard gameId hostPassword body now tileHex db)
  | PostLock gameId hostPassword now => snd (BoardTs.lock gameId hostPassword now db)
  | PostUnlock gameId hostPassword now => snd (BoardTs.unlock gameId hostPassword now db)
  end.

(** The database after a sequence of requests, served one after the other. *)
Definition serve (reqs : list request) (db : Db) : Db :=
  fold_left (fun db req => handle req db) reqs db.

End Server.
End ServerTs.

(* ------------------------------------------------------------------ *)
(** ** Properties of the state *)

(** The pairing of the gating fields of a team row, as the handlers read
    them: awaitingProof is [awaiting_proof = 1], pendingTile is
    [pending_tile]. *)
Definition team_paired (t : team_row) : Prop :=
  ((t_awaiting_proof t =? 1)%Z = true <-> t_pending_tile t <> None)
  /\ (forall p, t_pending_tile t = Some p -> p = t_position t).

(** clamp(x, lo, hi) of the specification. *)
Definition clamp (x lo hi : Z) : Z := Z.max lo (Z.min x hi).

(** A computation keeps a property of the database, whether it returns or
    throws. *)
Definition preserves {A} (P : Db -> Prop) (c : M A) : Prop :=
  forall db, P db -> P (snd (c db)).

(** A runtime for closed examples.  The hash is a tagged copy of its
    argument; the clock functions are tables over the instants that the
    examples use. *)
Definition example_runtime : Runtime :=
  {| sha256 := fun s => ("sha256:" ++ s)%string;
     Date_parse := fun s =>
       if s =? "2024-01-01T00:00:00.000Z" then Some 1704067200000
       else if s =? "2024-01-02T00:00:00.000Z" then Some 1704153600000
       else if s =? "2024-01-03T00:00:00.000Z" then Some 1704240000000
       else None;
     toISOString := fun ms =>
       if (ms =? 1704067200000)%Z then "2024-01-01T00:00:00.000Z"
       else if (ms =? 1704153600000)%Z then "2024-01-02T00:00:00.000Z"
       else if (ms =? 1704240000000)%Z then "2024-01-03T00:00:00.000Z"
       else "1970-01-01T00:00:00.000Z";
     is_url := fun s => prefix "https://" s;
     JSON_stringify := fun _ => "{}";
     JSON_parse := fun _ => Some (JObj []);
     Number_of_json := fun v => match v with JNum n => Some n | _ => None end |}.

Definition all_paired (db : Db) : Prop := Forall team_paired (teams db).

(** What each consumer of a tile reads at an index: kind, title and jump
    target, from the roll route, the proof route, the state view and the
    overlay view, in this order. *)
Definition tile_consumers (db : Db) (gameId : string) (i boardSize : Z)
  : list (string * option string * option Z) :=
  [ (let t := RollTs.getTileWithDefaults db gameId i boardSize in
     (RollTs.kind t, RollTs.title t, RollTs.jumpTo t));
    (let t := ProofTs.getTileWithDefaults db gameId i boardSize in
     (ProofTs.kind t, ProofTs.title t, ProofTs.jumpTo t));
    (let t := StateTs.getTileInfo db gameId i boardSize in
     (StateTs.kind t, StateTs.title t, StateTs.jumpTo t));
    (let t := OverlayTs.getTileFull db gameId i boardSize in
     (OverlayTs.kind t, OverlayTs.title t, OverlayTs.jumpTo t)) ].

(** No row of tile_tasks overrides tile [i] of the game. *)
Definition no_override (db : Db) (gameId : string) (i : Z) : Prop :=
  forall r, In r (tile_tasks db) -> tt_game_id r = gameId -> tt_tile_index r <> i.

(** A board of size 20 on which only tile 10 is configured, as a jump to 3. *)
Definition jump_board : Db :=
  set_tile_tasks (fun _ =>
    [ {| tt_id := "tile_a"; tt_game_id := "game_1"; tt_tile_index := 10;
         tt_kind := "jump"; tt_title := None; tt_description := None;
         tt_jump_to := Some 3 |} ]) empty_db.

(** The reply that the claim describes: status 200, the ETag "missing" and
    the placeholder body. *)
Definition placeholder_reply {RT : Runtime} (now : Z) : OverlayTs.reply :=
  {| OverlayTs.code := 200;
     OverlayTs.ETag := Some (OverlayTs.quoted "missing");
     OverlayTs.payload := Some
       {| OverlayTs.revision := 0;
          OverlayTs.serverTime := toISOString now;
          OverlayTs.startTime := None;
          OverlayTs.endTime := None;
          OverlayTs.body_phase := "ended";
          OverlayTs.body_team := None;
          OverlayTs.body_tile :=
            {| OverlayTs.v_tileIndex := 0; OverlayTs.v_kind := "empty";
               OverlayTs.v_title := "Start"; OverlayTs.v_description := "";
               OverlayTs.v_imageUrl := ""; OverlayTs.v_imageCacheKey := "" |};
          OverlayTs.flag_awaitingProof := false;
          OverlayTs.flag_canRoll := false |} |}.

(** The index on which a roll lands before any jump, and the index on which
    it ends, as the handler computes them. *)
Definition landing_index (g : RollTs.game) (t : RollTs.team) (roll : Z) : Z :=
  Math_min (RollTs.boardSize g) (RollTs.position t + roll).

Definition final_index (db : Db) (gameId : string) (g : RollTs.game) (t : RollTs.team)
    (roll : Z) : Z :=
  let landing :=
    RollTs.getTileWithDefaults db gameId (landing_index g t roll) (RollTs.boardSize g) in
  match (RollTs.kind landing =? "jump")%string, RollTs.jumpTo landing with
  | true, Some target => Math_min (RollTs.boardSize g) (Math_max 0 target)
  | _, _ => landing_index g t roll
  end.

(** Whether the handler gates the team on the tile where the roll ends. *)
Definition needs_proof (db : Db) (gameId : string) (g : RollTs.game) (t : RollTs.team)
    (roll : Z) : bool :=
  let dest :=
    RollTs.getTileWithDefaults db gameId (final_index db gameId g t roll)
      (RollTs.boardSize g) in
  (RollTs.kind dest =? "task") || (RollTs.kind dest =? "boss").

(** *** A running example

    One clan game on a board of 20 tiles that ends on 2024-01-02, seeded
    with a jump from 10 to 3, a jump from 3 to 7, a legacy boss tile at 5
    and a jump from 6 back to 4; one team with one registered player.  Every request is served on
    2024-01-01 unless stated otherwise. *)
Definition day1 : Z := 1704067200000.
Definition day3 : Z := 1704240000000.

Definition example_seed (i : Z) (k : GamesTs.seed_kind) (j : option Z) : GamesTs.seed_tile :=
  {| GamesTs.tileIndex := i; GamesTs.kind := k; GamesTs.title := None;
     GamesTs.description := None; GamesTs.jumpTo := j |}.

Definition example_game : GamesTs.create_game_body :=
  {| GamesTs.clanName := "Clan"; GamesTs.hostPassword := "secret";
     GamesTs.boardSize := 20; GamesTs.displayName := None; GamesTs.boardUrl := None;
     GamesTs.startsAt := None;
     GamesTs.endsAt := Some "2024-01-02T00:00:00.000Z";
     GamesTs.tiles := Some [ example_seed 10 GamesTs.K_jump (Some 3);
                             example_seed 3 GamesTs.K_jump (Some 7);
                             example_seed 5 GamesTs.K_boss None;
                             example_seed 6 GamesTs.K_jump (Some 4) ] |}.

Definition example_hex (i : nat) : string :=
  match i with
  | O => "a0"
  | S O => "a1"
  | S (S O) => "a2"
  | _ => "a3"
  end.

Definition example_auth : jwt_user :=
  {| gameId := "game_01"; teamId := "team_0a"; rsn := "Zezima"; jti := "sess_5e" |}.

Definition example_setup : list (@ServerTs.request) :=
  [ ServerTs.PostGames example_game day1 "01" "ABCDEF12" example_hex;
    ServerTs.PostTeams "game_01"
      {| GamesTs.ct_name := "Red"; GamesTs.ct_color := "#ff0000";
         GamesTs.ct_password := "pw" |} "0a";
    ServerTs.PostRegister "game_01"
      {| GamesTs.rb_rsn := "Zezima"; GamesTs.rb_teamId := Some "team_0a";
         GamesTs.rb_teamName := None; GamesTs.rb_teamPassword := "pw" |}
      day1 "5e" "4e" ].

Definition example_roll (die : Z) : ServerTs.request :=
  ServerTs.PostRoll "game_01" example_auth day1 die.

Definition example_proof (now : Z) (hex : string) : ServerTs.request :=
  ServerTs.PostProof "game_01" example_auth
    {| ProofTs.url := Some "https://example.org/proof.png"; ProofTs.imageUrl := None |}
    now hex.

(** The example after its set-up and further requests. *)
Definition example_db (more : list ServerTs.request) : Db :=
  @ServerTs.serve example_runtime (example_setup ++ more) empty_db.

(** The game and the team of the example as the roll route reads them. *)
Definition example_game_read : RollTs.game :=
  {| RollTs.id := "game_01"; RollTs.clanName := "Clan"; RollTs.boardSize := 20;
     RollTs.status := "active"; RollTs.startsAt := None;
     RollTs.endsAt := Some "2024-01-02T00:00:00.000Z" |}.

Definition example_team (position : Z) (awaitingProof : bool) (pendingTile : option Z)
  : RollTs.team :=
  {| RollTs.team_id := "team_0a"; RollTs.name := "Red"; RollTs.position := position;
     RollTs.awaitingProof := awaitingProof; RollTs.pendingTile := pendingTile |}.

(** The team has rolled 4, proved tile 4, rolled 4 again and proved tile 8. *)
Definition example_at8 : Db :=
  example_db [ example_roll 4; example_proof day1 "b1";
               example_roll 4; example_proof day1 "b2" ].

(** ... and then rolls 2: it lands on the jump at 10 and stops on tile 3,
    which is a jump itself. *)
Definition example_after_jump : Db :=
  example_db [ example_roll 4; example_proof day1 "b1";
               example_roll 4; example_proof day1 "b2"; example_roll 2 ].

Definition example_jump_reply : RollTs.response :=
  RollTs.Rolled 2 8 3 (Some {| RollTs.jump_from := 10; RollTs.jump_to := 3 |}) false
    "2024-01-01T00:00:00.000Z" None (Some "2024-01-02T00:00:00.000Z").

(** The first roll of the team is a 5: it stops on the seeded boss tile. *)
Definition example_on_boss : Db := example_db [ example_roll 5 ].

Definition example_boss_reply : RollTs.response :=
  RollTs.Rolled 5 0 5 None true
    "2024-01-01T00:00:00.000Z" None (Some "2024-01-02T00:00:00.000Z").

(** The first roll of the team is a 4: it awaits a proof for tile 4. *)
Definition example_gated : Db := example_db [ example_roll 4 ].

(** An accepted proof of the team for the tile is on record. *)
Definition proof_recorded (db : Db) (gameId teamId : string) (tileIndex : Z) : Prop :=
  exists p, In p (proofs db)
            /\ p_game_id p = gameId /\ p_team_id p = teamId /\ p_tile_index p = tileIndex.

(** No proof on record has the identifier. *)
Definition proof_id_fresh (db : Db) (id : string) : Prop :=
  forall p, In p (proofs db) -> p_id p <> id.

(** The row that the proof route inserts. *)
Definition proof_record {RT : Runtime} (gameId : string) (auth : jwt_user)
    (t : ProofTs.team) (tileIndex : Z) (proofUrl : string) (now : Z) (hex : string)
  : proof_row :=
  {| p_id := rid "proof" hex; p_game_id := gameId; p_team_id := ProofTs.team_id t;
     p_tile_index := tileIndex; p_rsn := rsn auth; p_url := proofUrl;
     p_created_at := toISOString now |}.

(** The team as the proof route reads it once the gate is cleared. *)
Definition ungated (t : ProofTs.team) : ProofTs.team :=
  {| ProofTs.team_id := ProofTs.team_id t; ProofTs.name := ProofTs.name t;
     ProofTs.position := ProofTs.position t;
     ProofTs.awaitingProof := false; ProofTs.pendingTile := None |}.

(** The preconditions of the proof route, up to the INSERT. *)
Definition proof_expected {RT : Runtime} (db : Db) (gameId : string) (auth : jwt_user)
    (b : ProofTs.body) (proofUrl : string) (g : ProofTs.game) (t : ProofTs.team)
    (tileIndex : Z) : Prop :=
  ProofTs.ProofBody_parse b = Some proofUrl
  /\ ProofTs.getGame db gameId = Some g
  /\ ProofTs.status g = "active"
  /\ ProofTs.session db gameId auth <> None
  /\ ProofTs.getTeamById db gameId (teamId auth) = Some t
  /\ ProofTs.awaitingProof t = true
  /\ ProofTs.pendingTile t = Some tileIndex
  /\ ProofTs.kind (ProofTs.getTileWithDefaults db gameId tileIndex (ProofTs.boardSize g))
     = "task".

(** The end time of the game has passed at [now], as the roll route
    decides it. *)
Definition past_end {RT : Runtime} (db : Db) (gameId : string) (now : Z) : Prop :=
  exists g ends e,
    RollTs.getGame db gameId = Some g
    /\ RollTs.endsAt g = Some ends
    /\ truthy (Some ends) = true
    /\ Date_parse ends = Some e
    /\ e <= now.

(** The game and the gated team of the example as the proof route reads
    them. *)
Definition example_game_proof : ProofTs.game :=
  {| ProofTs.id := "game_01"; ProofTs.clanName := "Clan"; ProofTs.boardSize := 20;
     ProofTs.status := "active" |}.

Definition example_team_gated4 : ProofTs.team :=
  {| ProofTs.team_id := "team_0a"; ProofTs.name := "Red"; ProofTs.position := 4;
     ProofTs.awaitingProof := true; ProofTs.pendingTile := Some 4 |}.

Definition example_body : ProofTs.body :=
  {| ProofTs.url := Some "https://example.org/proof.png"; ProofTs.imageUrl := None |}.

(** The proof for tile 4 is accepted ... *)
Definition example_proved4 : Db := example_db [ example_roll 4; example_proof day1 "b1" ].

(** ... and the team rolls 2: the jump at 6 sends it back to tile 4. *)
Definition example_regated : Db :=
  @ServerTs.serve example_runtime [ example_roll 2 ] example_proved4.

(** The kind stored in tile_tasks for a tile of a game, if a row exists. *)
Definition stored_kind (db : Db) (gameId : string) (i : Z) : option string :=
  option_map tt_kind
    (find (fun r => (tt_game_id r =? gameId) && (tt_tile_index r =? i)%Z) (tile_tasks db)).

(** The rows that a board save inserts for the tiles of a document, the
    first of them drawing the random identifier number [i]. *)
Fixpoint tile_rows (gameId : string) (hex : nat -> string) (i : nat)
    (ts : list BoardTs.board_tile) : list tile_task_row :=
  match ts with
  | [] => []
  | t :: rest => BoardTs.tile_row gameId (hex i) t :: tile_rows gameId hex (S i) rest
  end.

(** The kind that the mechanics mapping gives to a task or boss tile. *)
Definition task_kind (requiresProof : option bool) : string :=
  match requiresProof with
  | Some false => "empty"
  | _ => "task"
  end.

(** A board document for the example: tile 5 is a legacy boss tile, tile 7
    a boss tile that is marked as needing no proof. *)
Definition example_tile (i : Z) (ty : BoardTs.tile_type) (rp : option bool)
  : BoardTs.board_tile :=
  {| BoardTs.tile_id := i; BoardTs.type := Some ty; BoardTs.title := None;
     BoardTs.description := None; BoardTs.image := None; BoardTs.category := None;
     BoardTs.requiresProof := rp; BoardTs.jumpTo := None |}.

Definition example_board : BoardTs.board :=
  {| BoardTs.schemaVersion := None; BoardTs.board_id := None;
     BoardTs.board_title := Some "Clan board"; BoardTs.board_description := None;
     BoardTs.boardSize := 20; BoardTs.tilesBasePath := None;
     BoardTs.tiles := [ example_tile 5 BoardTs.T_boss None;
                        example_tile 7 BoardTs.T_boss (Some false) ] |}.

Definition example_save : ServerTs.request :=
  ServerTs.PutBoard "game_01" (Some "secret") example_board day1 example_hex.

Definition example_saved : Db := example_db [ example_save ].

(** The revision field of the overlay body; none on a 304 reply, which
    has no body. *)
Definition overlay_revision {RT : Runtime} (db : Db) (gameId : string)
    (rsn_query ifNoneMatch : option string) (now : Z) : option Z :=
  option_map OverlayTs.revision
    (OverlayTs.payload (OverlayTs.overlayRoute db gameId rsn_query ifNoneMatch now)).

(** The revision in the words of the specification: the larger of the
    count of recorded events of the game and the update timestamp of its
    board revision (in milliseconds; nothing to compare with when the game
    has no board revision). *)
Definition claimed_revision {RT : Runtime} (db : Db) (gameId : string) : Z :=
  let count := Z.of_nat (List.length (filter (fun e => e_game_id e =? gameId) (events db))) in
  match find (fun b => gb_game_id b =? gameId) (game_boards db) with
  | None => count
  | Some row => Z.max count (orElse (Date_parse (gb_updated_at row)) 0)
  end.

(** The game exists. *)
Definition game_exists (db : Db) (gameId : string) : Prop :=
  exists g, In g (games db) /\ g_id g = gameId.

(** The example after a board save, with two events on record. *)
Definition example_event (seq : Z) : event_row :=
  {| e_game_id := "game_01"; e_seq := seq; e_type := "roll"; e_payload_json := "{}";
     e_created_at := "2024-01-01T00:00:00.000Z" |}.

Definition example_with_events : Db :=
  set_events (fun _ => [ example_event 3; example_event 7 ]) example_saved.

(** The same two events on record for the example before any board save. *)
Definition example_events_only : Db :=
  set_events (fun _ => [ example_event 3; example_event 7 ]) (example_db []).

(** A tile as the roll route reads it, handed to the helpers of the model
    file. *)
Definition model_tile (i : Z) (t : RollTs.tile) : GameModelTs.Tile :=
  {| GameModelTs.index := i; GameModelTs.kind := RollTs.kind t;
     GameModelTs.title := RollTs.title t; GameModelTs.description := None;
     GameModelTs.jumpTo := RollTs.jumpTo t |}.

Definition model_jump (j : RollTs.jump_info) : GameModelTs.jump_info :=
  {| GameModelTs.jump_from := RollTs.jump_from j; GameModelTs.jump_to := RollTs.jump_to j |}.

(** The row of a team after the UPDATE of a roll. *)
Definition moved (row : team_row) (to : Z) (needsProof : bool) : team_row :=
  {| t_id := t_id row; t_game_id := t_game_id row; t_team_index := t_team_index row;
     t_name := t_name row; t_color := t_color row; t_password_hash := t_password_hash row;
     t_position := to;
     t_awaiting_proof := if needsProof then 1 else 0;
     t_pending_tile := if needsProof then Some to else None |}.

(** The team row is the one that the token names. *)
Definition is_team (gameId : string) (auth : jwt_user) (row : team_row) : bool :=
  (t_id row =? teamId auth) && (t_game_id row =? gameId).

(** The row of a team after the UPDATE of an accepted proof. *)
Definition released (row : team_row) : team_row :=
  {| t_id := t_id row; t_game_id := t_game_id row; t_team_index := t_team_index row;
     t_name := t_name row; t_color := t_color row; t_password_hash := t_password_hash row;
     t_position := t_position row;
     t_awaiting_proof := 0;
     t_pending_tile := None |}.

(** The row that team creation inserts. *)
Definition new_team_row {RT : Runtime} (gameId : string) (body : GamesTs.create_team_body)
    (teamHex : string) (teamIndex : Z) : team_row :=
  {| t_id := rid "team" teamHex; t_game_id := gameId; t_team_index := teamIndex;
     t_name := GamesTs.normName (GamesTs.ct_name body);
     t_color := trim (GamesTs.ct_color body);
     t_password_hash := sha256 (GamesTs.ct_password body);
     t_position := 0; t_awaiting_proof := 0; t_pending_tile := None |}.

(** The row that a registration inserts. *)
Definition new_registration_row {RT : Runtime} (gameId : string)
    (body : GamesTs.register_body) (now : Z) (sessHex regHex teamId : string)
  : registration_row :=
  {| r_id := rid "reg" regHex; r_game_id := gameId; r_team_id := teamId;
     r_rsn := GamesTs.rb_rsn body; r_token_jti := rid "sess" sessHex;
     r_created_at := toISOString now |}.

(** The row of a game, as POST /games inserts it: active, with the turn
    pointer on 0 and a board size that the schema accepted. *)
Definition fresh_game (row : game_row) : Prop :=
  g_status row = "active" /\ g_turn_team_index row = 0 /\ 10 <= g_board_size row <= 500.

(** The die of a roll request is one that crypto.randomInt(1, 7) draws. *)
Definition die_ok (req : ServerTs.request) : bool :=
  match req with
  | ServerTs.PostRoll _ _ _ roll => (1 <=? roll)%Z && (roll <=? 6)%Z
  | _ => true
  end.

(** The game row that the lookups of the routes find. *)
Definition game_of (db : Db) (gameId : string) : option game_row :=
  find (fun g => g_id g =? gameId) (games db).

(** The key of the UNIQUE constraint of tile_tasks. *)
Definition tile_key (r : tile_task_row) : string * Z := (tt_game_id r, tt_tile_index r).

(** The four kinds that the routes store. *)
Definition stored_kinds : list string := [ "empty"; "task"; "jump"; "boss" ].

(** A tile row of a game on a board of the given size. *)
Definition on_board (gameId : string) (boardSize : Z) (r : tile_task_row) : Prop :=
  tt_game_id r = gameId /\ 0 <= tt_tile_index r <= boardSize /\ In (tt_kind r) stored_kinds.

(** Two states differ in the tile_tasks table at most. *)
Definition tiles_apart (db db' : Db) : Prop :=
  games db' = games db /\ teams db' = teams db /\ registrations db' = registrations db
  /\ proofs db' = proofs db /\ events db' = events db /\ game_boards db' = game_boards db.

(** The row that POST /games inserts, given the two normalized dates. *)
Definition new_game_row {RT : Runtime} (body : GamesTs.create_game_body) (now : Z)
    (gameHex joinCode : string) (startsAtIso endsAtIso : option string) : game_row :=
  {| g_id := rid "game" gameHex;
     g_clan_name := GamesTs.normName (GamesTs.clanName body);
     g_host_password_hash := sha256 (GamesTs.hostPassword body);
     g_board_size := GamesTs.boardSize body;
     g_created_at := toISOString now;
     g_turn_team_index := 0;
     g_status := "active";
     g_discord_webhook_url := None;
     g_board_url := GamesTs.boardUrl body;
     g_starts_at := startsAtIso;
     g_ends_at := endsAtIso;
     g_display_name :=
       Some (if truthy (GamesTs.displayName body)
             then GamesTs.normName (orElse (GamesTs.displayName body) "")
             else (GamesTs.normName (GamesTs.clanName body) ++ " Game")%string);
     g_join_code_hash := Some (sha256 (toUpperCase joinCode)) |}.

(** The games table is as POST /games builds it: fresh rows with distinct
    identifiers. *)
Definition games_ok (db : Db) : Prop :=
  Forall fresh_game (games db) /\ NoDup (map g_id (games db)).

(** The game of the team exists and the team stands on its board. *)
Definition team_on_board (db : Db) (t : team_row) : Prop :=
  exists g, game_of db (t_game_id t) = Some g /\ 0 <= t_position t <= g_board_size g.

Definition teams_on_board (db : Db) : Prop :=
  games_ok db /\ Forall (team_on_board db) (teams db).

(** The teams of a game, in the order of their creation. *)
Definition teams_of (db : Db) (gameId : string) : list team_row :=
  filter (fun t => t_game_id t =? gameId) (teams db).

(** Team identifiers are distinct, team names are distinct within a game,
    and the indices of the teams of a game count up from 0 in the order of
    creation. *)
Definition teams_ok (db : Db) : Prop :=
  NoDup (map t_id (teams db))
  /\ NoDup (map (fun t => (t_game_id t, t_name t)) (teams db))
  /\ forall gameId,
       map t_team_index (teams_of db gameId)
       = map Z.of_nat (seq 0 (List.length (teams_of db gameId))).

(** The key of the UNIQUE constraint of proofs. *)
Definition proof_key (p : proof_row) : string * string * Z :=
  (p_game_id p, p_team_id p, p_tile_index p).

(** The key of the UNIQUE constraint of registrations. *)
Definition registration_key (r : registration_row) : string * string :=
  (r_game_id r, r_rsn r).

(** The registration names a team of its game. *)
Definition registered_team (db : Db) (r : registration_row) : Prop :=
  exists t, In t (teams db) /\ t_id t = r_team_id r /\ t_game_id t = r_game_id r.

Definition registrations_ok (db : Db) : Prop :=
  NoDup (map registration_key (registrations db))
  /\ Forall (registered_team db) (registrations db).

(** The example before its player registers. *)
Definition example_unregistered : Db :=
  @ServerTs.serve example_runtime (removelast example_setup) empty_db.

Definition example_register_body : GamesTs.register_body :=
  {| GamesTs.rb_rsn := "Zezima"; GamesTs.rb_teamId := Some "team_0a";
     GamesTs.rb_teamName := None; GamesTs.rb_teamPassword := "pw" |}.

Definition example_register_reply : GamesTs.register_response :=
  {| GamesTs.token := example_auth; GamesTs.rr_id := "team_0a"; GamesTs.rr_name := "Red";
     GamesTs.rr_color := "#ff0000" |}.

(** A second game whose seed names tile 5 twice. *)
Definition example_twice : GamesTs.create_game_body :=
  {| GamesTs.clanName := "Clan"; GamesTs.hostPassword := "secret";
     GamesTs.boardSize := 20; GamesTs.displayName := None; GamesTs.boardUrl := None;
     GamesTs.startsAt := None; GamesTs.endsAt := None;
     GamesTs.tiles := Some [ example_seed 5 GamesTs.K_task None;
                             example_seed 5 GamesTs.K_empty None ] |}.

Definition example_hex_b (i : nat) : string :=
  match i with
  | O => "b0"
  | _ => "b1"
  end.

(** The three kinds that the board editor stores. *)
Definition board_kinds : list string := [ "jump"; "task"; "empty" ].

(** A tile row as a board save writes it: on the board of the game, of one
    of the three kinds, with a target on the board exactly when it is a
    jump. *)
Definition saved_row_ok (gameId : string) (boardSize : Z) (r : tile_task_row) : Prop :=
  tt_game_id r = gameId /\ 0 <= tt_tile_index r <= boardSize
  /\ In (tt_kind r) board_kinds
  /\ match tt_jump_to r with
     | Some j => tt_kind r = "jump" /\ 0 <= j <= boardSize
     | None => tt_kind r <> "jump"
     end.

(** The tile rows of a game, and those of the other games. *)
Definition tiles_of (db : Db) (gameId : string) : list tile_task_row :=
  filter (fun r => tt_game_id r =? gameId) (tile_tasks db).

Definition other_tiles (db : Db) (gameId : string) : list tile_task_row :=
  filter (fun r => negb (tt_game_id r =? gameId)) (tile_tasks db).

(** Every tile row belongs to a game, lies on its board, has one of the
    four kinds, and no two rows configure the same tile of a game. *)
Definition tiles_ok (db : Db) : Prop :=
  NoDup (map tile_key (tile_tasks db))
  /\ Forall (fun r => exists g, game_of db (tt_game_id r) = Some g
                                /\ on_board (tt_game_id r) (g_board_size g) r)
       (tile_tasks db).

(** The example board document with tile 5 named twice. *)
Definition example_board_twice : BoardTs.board :=
  {| BoardTs.schemaVersion := None; BoardTs.board_id := None;
     BoardTs.board_title := None; BoardTs.board_description := None;
     BoardTs.boardSize := 20; BoardTs.tilesBasePath := None;
     BoardTs.tiles := [ example_tile 5 BoardTs.T_task None;
                        example_tile 5 BoardTs.T_empty None ] |}.

(** The lock flag that PUT board reads; a game without a board row counts
    as unlocked. *)
Definition board_locked (db : Db) (gameId : string) : bool :=
  match BoardTs.board_row db gameId with
  | Some row => (gb_locked row =? 1)%Z
  | None => false
  end.

Definition example_lock : ServerTs.request := ServerTs.PostLock "game_01" (Some "secret") day1.

Definition example_unlock : ServerTs.request :=
  ServerTs.PostUnlock "game_01" (Some "secret") day3.

Definition example_save_twice : ServerTs.request :=
  ServerTs.PutBoard "game_01" (Some "secret") example_board_twice day1 example_hex.

(** The requests that write game_boards. *)
Definition board_write (req : ServerTs.request) : bool :=
  match req with
  | ServerTs.PutBoard _ _ _ _ _ | ServerTs.PostLock _ _ _ | ServerTs.PostUnlock _ _ _ => true
  | _ => false
  end.

(** The ETag of the overlay of an existing game. *)
Definition overlay_etag (db : Db) (gameId : string) : string :=
  let rev := OverlayTs.getOverlayRevision db gameId in
  OverlayTs.quoted (string_of_Z (OverlayTs.maxSeq rev) ++ ":"
                    ++ orElse (OverlayTs.updatedAt rev) "")%string.

(** reply.code(304) with no body *)
Definition not_modified : OverlayTs.reply :=
  {| OverlayTs.code := 304; OverlayTs.ETag := None; OverlayTs.payload := None |}.


(** The team rows are in ascending order of a key. *)
Definition ascending {A} (key : A -> Z) (l : list A) : Prop :=
  StronglySorted (fun a b => (key a <=? key b)%Z = true) l.

(** The example runtime with a parser that reads every text as the given
    document. *)
Definition reading_runtime (doc : json) : Runtime :=
  {| sha256 := @sha256 example_runtime;
     Date_parse := @Date_parse example_runtime;
     toISOString := @toISOString example_runtime;
     is_url := @is_url example_runtime;
     JSON_stringify := @JSON_stringify example_runtime;
     JSON_parse := fun _ => Some doc;
     Number_of_json := @Number_of_json example_runtime |}.

(** The example board document after the defaults of the schema. *)
Definition example_board_parsed : BoardTs.board :=
  {| BoardTs.schemaVersion := Some 1; BoardTs.board_id := None;
     BoardTs.board_title := Some "Clan board"; BoardTs.board_description := None;
     BoardTs.boardSize := 20; BoardTs.tilesBasePath := None;
     BoardTs.tiles := BoardTs.tiles example_board |}.

(* ------------------------------------------------------------------ *)
(** ** How the monad keeps a property *)

Section Preserves.
Variable P : Db -> Prop.

Lemma preserves_ret A (a : A) : preserves P (ret a).
Proof. intros db H. exact H. Qed.

Lemma preserves_throw A (e : failure) : preserves P (@throw A e).
Proof. intros db H. exact H. Qed.

Lemma preserves_query A (q : Db -> A) : preserves P (query q).
Proof. intros db H. exact H. Qed.

Lemma preserves_lift A (r : failure + A) : preserves P (GamesTs.lift r).
Proof. destruct r; intros db H; exact H. Qed.

Lemma preserves_bind A B (c : M A) (k : A -> M B) :
  preserves P c -> (forall a, preserves P (k a)) -> preserves P (bind c k).
Proof.
  intros Hc Hk db H. unfold bind.
  specialize (Hc db H). destruct (c db) as [[e | a] db1]; simpl in *.
  - exact Hc.
  - apply Hk. exact Hc.
Qed.

Lemma preserves_run (f : Db -> Db) :
  (forall db, P db -> P (f db)) -> preserves P (run f).
Proof. intros Hf db H. apply Hf. exact H. Qed.

Lemma preserves_insert A keys (table : Db -> list A) set (r : A) :
  (forall db, P db -> P (set (fun t => t ++ [r]) db)) ->
  preserves P (insert keys table set r).
Proof.
  intros Hs db H. unfold insert.
  destruct (violated keys r (table db)); simpl; auto.
Qed.
End Preserves.

(** Structural descent into a handler. *)
Ltac descend :=
  repeat first
    [ apply preserves_ret
    | apply preserves_throw
    | apply preserves_query
    | apply preserves_lift
    | apply preserves_bind; [ | intro ]
    | match goal with
      | |- preserves _ (if ?b then _ else _) => destruct b
      | |- preserves _ (match ?x with _ => _ end) => destruct x
      | |- preserves _ (let '(_, _) := ?x in _) => destruct x
      end ].

(** A property that the writes of the routes do not disturb (rows appended
    to games, registrations and proofs; any change of tile_tasks,
    game_boards and teams) is kept by every request.  Each lemma depends on
    the hypotheses for the tables that its route writes. *)
Section Frame.
Context {RT : Runtime}.
Variable P : Db -> Prop.
Hypothesis frame_games : forall r db, P db -> P (set_games (fun t => t ++ [r]) db).
Hypothesis frame_registrations :
  forall r db, P db -> P (set_registrations (fun t => t ++ [r]) db).
Hypothesis frame_proofs : forall r db, P db -> P (set_proofs (fun t => t ++ [r]) db).
Hypothesis frame_tile_tasks : forall f db, P db -> P (set_tile_tasks f db).
Hypothesis frame_game_boards : forall f db, P db -> P (set_game_boards f db).
Hypothesis frame_teams : forall f db, P db -> P (set_teams f db).

Lemma frame_upsert_game_board r f : preserves P (upsert_game_board r f).
Proof. apply preserves_run. intros db H. apply frame_game_boards. exact H. Qed.

Lemma frame_seed_tiles gameId boardSize hex ts i :
  preserves P (GamesTs.seed_tiles gameId boardSize hex i ts).
Proof.
  revert i. induction ts as [| t ts IH]; intro i; simpl.
  - apply preserves_ret.
  - apply preserves_bind; [ | intros _; apply IH ].
    destruct (_ || _).
    + apply preserves_ret.
    + apply preserves_insert. intros db H. apply frame_tile_tasks. exact H.
Qed.

Lemma frame_insert_tiles gameId hex ts i :
  preserves P (BoardTs.insert_tiles gameId hex i ts).
Proof.
  revert i. induction ts as [| t ts IH]; intro i; simpl.
  - apply preserves_ret.
  - apply preserves_bind; [ | intros _; apply IH ].
    apply preserves_insert. intros db H. apply frame_tile_tasks. exact H.
Qed.

Lemma frame_createGame body now gameHex joinCode tileHex :
  preserves P (GamesTs.createGame body now gameHex joinCode tileHex).
Proof.
  unfold GamesTs.createGame. descend;
    first [ apply frame_seed_tiles
          | apply preserves_insert; intros db H; apply frame_games; exact H ].
Qed.

Lemma frame_createTeam gameId body teamHex :
  preserves P (GamesTs.createTeam gameId body teamHex).
Proof.
  unfold GamesTs.createTeam. descend.
  apply preserves_insert. intros db H. apply frame_teams. exact H.
Qed.

Lemma frame_register gameId body now sessHex regHex :
  preserves P (GamesTs.register gameId body now sessHex regHex).
Proof.
  unfold GamesTs.register. descend.
  apply preserves_insert. intros db H. apply frame_registrations. exact H.
Qed.

Lemma frame_rollRoute gameId auth now roll :
  preserves P (RollTs.rollRoute gameId auth now roll).
Proof.
  unfold RollTs.rollRoute, RollTs.resolve. descend.
  apply preserves_run. intros db H. apply frame_teams. exact H.
Qed.

Lemma frame_proofRoute gameId auth body now hex :
  preserves P (ProofTs.proofRoute gameId auth body now hex).
Proof.
  unfold ProofTs.proofRoute. descend.
  - apply preserves_insert. intros db H. apply frame_proofs. exact H.
  - apply preserves_run. intros db H. apply frame_teams. exact H.
Qed.

Lemma frame_putBoard gameId hostPassword body now tileHex :
  preserves P (BoardTs.putBoard gameId hostPassword body now tileHex).
Proof.
  unfold BoardTs.putBoard. descend;
    first [ apply frame_upsert_game_board
          | apply frame_insert_tiles
          | apply preserves_run; intros db H; apply frame_tile_tasks; exact H ].
Qed.

Lemma frame_setLock locked gameId hostPassword now :
  preserves P (BoardTs.setLock locked gameId hostPassword now).
Proof.
  unfold BoardTs.setLock. descend;
    first [ apply frame_upsert_game_board
          | apply preserves_run; intros db H; apply frame_game_boards; exact H ].
Qed.

Lemma frame_handle req db : P db -> P (ServerTs.handle req db).
Proof.
  destruct req; simpl.
  - apply frame_createGame.
  - apply frame_createTeam.
  - apply frame_register.
  - apply frame_rollRoute.
  - apply frame_proofRoute.
  - apply frame_putBoard.
  - apply frame_setLock.
  - apply frame_setLock.
Qed.

Lemma frame_serve reqs db : P db -> P (ServerTs.serve reqs db).
Proof.
  revert db. induction reqs as [| req reqs IH]; intros db H; simpl.
  - exact H.
  - apply IH. apply frame_handle. exact H.
Qed.
End Frame.

(* ------------------------------------------------------------------ *)
(** ** The pairing of awaitingProof and pendingTile *)

Section Pairing.
Context {RT : Runtime}.

Lemma paired_new_team id gid idx name color hash :
  team_paired {| t_id := id; t_game_id := gid; t_team_index := idx; t_name := name;
                 t_color := color; t_password_hash := hash;
                 t_position := 0; t_awaiting_proof := 0; t_pending_tile := None |}.
Proof.
  split; simpl.
  - split; [ discriminate | intro H; now elim H ].
  - discriminate.
Qed.

Lemma paired_after_roll t to needsProof :
  team_paired {| t_id := t_id t; t_game_id := t_game_id t; t_team_index := t_team_index t;
                 t_name := t_name t; t_color := t_color t;
                 t_password_hash := t_password_hash t;
                 t_position := to;
                 t_awaiting_proof := if needsProof : bool then 1 else 0;
                 t_pending_tile := if needsProof then Some to else None |}.
Proof.
  destruct needsProof; split; simpl.
  - split; [ discriminate | reflexivity ].
  - intros p [= <-]. reflexivity.
  - split; [ discriminate | intro H; now elim H ].
  - discriminate.
Qed.

Lemma paired_after_proof t :
  team_paired {| t_id := t_id t; t_game_id := t_game_id t; t_team_index := t_team_index t;
                 t_name := t_name t; t_color := t_color t;
                 t_password_hash := t_password_hash t;
                 t_position := t_position t;
                 t_awaiting_proof := 0; t_pending_tile := None |}.
Proof.
  split; simpl.
  - split; [ discriminate | intro H; now elim H ].
  - discriminate.
Qed.

Lemma paired_createTeam gameId body teamHex :
  preserves all_paired (GamesTs.createTeam gameId body teamHex).
Proof.
  unfold GamesTs.createTeam. descend.
  apply preserves_insert. intros db H. unfold all_paired in *. simpl.
  apply Forall_app. split; [ exact H | ].
  constructor; [ apply paired_new_team | constructor ].
Qed.

Lemma paired_update_team teamId gameId to needsProof :
  preserves all_paired (RollTs.update_team teamId gameId to needsProof).
Proof.
  apply preserves_run. intros db H. unfold all_paired in *. simpl.
  apply Forall_map. eapply Forall_impl; [ | exact H ].
  intros row Hrow. destruct (_ && _); [ apply paired_after_roll | exact Hrow ].
Qed.

Lemma paired_rollRoute gameId auth now roll :
  preserves all_paired (RollTs.rollRoute gameId auth now roll).
Proof.
  unfold RollTs.rollRoute, RollTs.resolve. descend; apply paired_update_team.
Qed.

Lemma paired_proofRoute gameId auth body now hex :
  preserves all_paired (ProofTs.proofRoute gameId auth body now hex).
Proof.
  unfold ProofTs.proofRoute. descend.
  - apply preserves_insert. intros db H. exact H.
  - apply preserves_run. intros db H. unfold all_paired in *. simpl.
    apply Forall_map. eapply Forall_impl; [ | exact H ].
    intros row Hrow. destruct (_ && _); [ apply paired_after_proof | exact Hrow ].
Qed.

(** Every request keeps the pairing. *)
Lemma paired_handle req db : all_paired db -> all_paired (ServerTs.handle req db).
Proof.
  destruct req; simpl.
  - apply frame_createGame; intros r d H; exact H.
  - apply paired_createTeam.
  - apply frame_register; intros r d H; exact H.
  - apply paired_rollRoute.
  - apply paired_proofRoute.
  - apply frame_putBoard; intros f d H; exact H.
  - apply frame_setLock; intros f d H; exact H.
  - apply frame_setLock; intros f d H; exact H.
Qed.

Lemma paired_serve reqs db : all_paired db -> all_paired (ServerTs.serve reqs db).
Proof.
  revert db. induction reqs as [| req reqs IH]; intros db H; simpl.
  - exact H.
  - apply IH. apply paired_handle. exact H.
Qed.
End Pairing.

(** C2.  In every state that the server reaches from the empty database,
    whatever requests it has served (team creation, rolls, proofs and all
    the other writing routes), every team row has awaitingProof true if and
    only if pendingTile is non-null, and a non-null pendingTile equals the
    position of the team. *)
Theorem gating_pair_invariant :
  forall (RT : Runtime) (reqs : list ServerTs.request),
    Forall team_paired (teams (ServerTs.serve reqs empty_db)).
Proof.
  intros RT reqs. apply paired_serve. constructor.
Qed.

(* ------------------------------------------------------------------ *)
(** ** The default tile rule *)

Lemma find_none_iff A (p : A -> bool) (l : list A) :
  find p l = None <-> (forall x, In x l -> p x = false).
Proof.
  split.
  - intros H x Hx. exact (find_none p l H x Hx).
  - induction l as [| a l IH]; intros H; simpl.
    + reflexivity.
    + rewrite (H a (or_introl eq_refl)). apply IH. intros x Hx. apply H. now right.
Qed.

Lemma no_override_find db gameId i :
  no_override db gameId i ->
  find (fun r => (tt_game_id r =? gameId) && (tt_tile_index r =? i)%Z) (tile_tasks db) = None.
Proof.
  intros H. apply find_none_iff. intros r Hr.
  destruct (String.eqb_spec (tt_game_id r) gameId) as [E | E]; simpl.
  - apply Z.eqb_neq. apply H; assumption.
  - reflexivity.
Qed.

(** C1.  For a tile index without an override row, the four consumers of
    the default rule (roll, proof, state, overlay) return the same tile:
    empty "Start" at index 0, empty "Finish" at index boardSize, and a task
    without title at every other index.  The board size of a game is
    positive (at least 10 by the schema of POST /games). *)
Theorem default_tile_rule_consistent :
  forall (db : Db) (gameId : string) (i boardSize : Z),
    0 < boardSize ->
    no_override db gameId i ->
    (i = 0 ->
     tile_consumers db gameId i boardSize = repeat ("empty", Some "Start", None) 4)
    /\ (i = boardSize ->
        tile_consumers db gameId i boardSize = repeat ("empty", Some "Finish", None) 4)
    /\ (i <> 0 -> i <> boardSize ->
        tile_consumers db gameId i boardSize = repeat ("task", None, None) 4).
Proof.
  intros db gameId i boardSize Hpos Hno.
  pose proof (no_override_find Hno) as Hfind.
  unfold tile_consumers, RollTs.getTileWithDefaults, ProofTs.getTileWithDefaults,
    RollTs.getTileRaw, ProofTs.getTileRaw, StateTs.getTileInfo, OverlayTs.getTileFull.
  rewrite Hfind.
  repeat split.
  - intros ->. reflexivity.
  - intros ->. destruct (Z.eqb_spec boardSize 0) as [E | E]; [ lia | ].
    rewrite Z.eqb_refl. reflexivity.
  - intros H0 Hb.
    destruct (Z.eqb_spec i 0) as [E | _]; [ contradiction | ].
    destruct (Z.eqb_spec i boardSize) as [E | _]; [ contradiction | ].
    reflexivity.
Qed.

Lemma default_tile_rule_consistent_witness :
  0 < 20
  /\ no_override jump_board "game_1" 20
  /\ tile_consumers jump_board "game_1" 20 20 = repeat ("empty", Some "Finish", None) 4.
Proof.
  assert (H0 : 0 < 20) by lia.
  assert (Hno : no_override jump_board "game_1" 20).
  { intros r [<- | []] _. simpl. lia. }
  split; [ exact H0 | split; [ exact Hno | ] ].
  exact (proj1 (proj2 (default_tile_rule_consistent H0 Hno)) eq_refl).
Defined.

(* ------------------------------------------------------------------ *)
(** ** The overlay of a game that does not exist *)

(** C10.  For a gameId without a game row the overlay route does not fail:
    it answers 200 with the fixed placeholder (revision 0, phase "ended",
    no team, tile 0 empty "Start", awaitingProof and canRoll false). *)
Theorem overlay_missing_game_placeholder :
  forall (RT : Runtime) (db : Db) (gameId : string) (rsn_query ifNoneMatch : option string)
         (now : Z),
    (forall g, In g (games db) -> g_id g <> gameId) ->
    OverlayTs.overlayRoute db gameId rsn_query ifNoneMatch now = placeholder_reply now.
Proof.
  intros RT db gameId rsn_query ifNoneMatch now Hmissing.
  unfold OverlayTs.overlayRoute, OverlayTs.getGame.
  assert (Hfind : find (fun g => g_id g =? gameId) (games db) = None).
  { apply find_none_iff. intros g Hg. apply String.eqb_neq. apply Hmissing. exact Hg. }
  rewrite Hfind. reflexivity.
Qed.

Lemma overlay_missing_game_placeholder_witness :
  (forall g, In g (games empty_db) -> g_id g <> "game_404")
  /\ @OverlayTs.overlayRoute example_runtime empty_db "game_404" (Some "Zezima") None
       1704067200000
     = @placeholder_reply example_runtime 1704067200000.
Proof.
  assert (H : forall g, In g (games empty_db) -> g_id g <> "game_404").
  { intros g []. }
  split; [ exact H | ].
  exact (@overlay_missing_game_placeholder example_runtime empty_db "game_404"
           (Some "Zezima") None 1704067200000 H).
Defined.

(* ------------------------------------------------------------------ *)
(** ** Rolling while a proof is awaited *)

(** C8.  A roll request for a team that awaits a proof never rolls and
    writes nothing, so position, awaitingProof and pendingTile stay as they
    are; in an active game, with the caller's session registered for the
    team, the reply is the structured refusal: ok true, rollAllowed false,
    reason "awaiting_proof". *)
Theorem awaiting_proof_roll_refused :
  forall (RT : Runtime) (db : Db) (gameId : string) (auth : jwt_user) (now roll : Z)
         (t : RollTs.team),
    RollTs.getTeamById db gameId (teamId auth) = Some t ->
    RollTs.awaitingProof t = true ->
    exists resp,
      RollTs.rollRoute gameId auth now roll db = (inr resp, db)
      /\ RollTs.rollAllowed resp = false
      /\ (forall g,
            RollTs.getGame db gameId = Some g ->
            RollTs.status g = "active" ->
            RollTs.session db gameId auth <> None ->
            resp = RollTs.AwaitingProof (RollTs.pendingTile t) (RollTs.brief t)
            /\ RollTs.ok resp = true
            /\ RollTs.reason resp = "awaiting_proof").
Proof.
  intros RT db gameId auth now roll t Hteam Hawait.
  unfold RollTs.rollRoute, bind, query, ret.
  destruct (RollTs.getGame db gameId) as [g |] eqn:Hg.
  2:{ eexists. split; [ reflexivity | split; [ reflexivity | ] ]. discriminate. }
  destruct (String.eqb_spec (RollTs.status g) "active") as [Hactive | Hinactive]; simpl.
  2:{ eexists. split; [ reflexivity | split; [ reflexivity | ] ].
      intros g' [= <-] Hs. contradiction. }
  destruct (RollTs.session db gameId auth) as [reg |] eqn:Hsess.
  2:{ eexists. split; [ reflexivity | split; [ reflexivity | ] ].
      intros g' _ _ Hne. now elim Hne. }
  rewrite Hteam, Hawait.
  eexists. split; [ reflexivity | split; [ reflexivity | ] ].
  intros g' _ _ _. repeat split.
Qed.
(* ------------------------------------------------------------------ *)
(** ** Resolving a roll *)

Lemma find_map_stable A (p : A -> bool) (f : A -> A) (l : list A) :
  (forall x, p (f x) = p x) ->
  find p (map f l) = option_map f (find p l).
Proof.
  intros Hp. induction l as [| a l IH]; simpl.
  - reflexivity.
  - rewrite Hp. destruct (p a); [ reflexivity | exact IH ].
Qed.

Section Roll.
Context {RT : Runtime}.

(** The handler reaches the roll only through all of its gates. *)
Lemma rollRoute_rolled gameId auth now roll db resp db' :
  RollTs.rollRoute gameId auth now roll db = (inr resp, db') ->
  RollTs.rollAllowed resp = true ->
  exists g t,
    RollTs.getGame db gameId = Some g
    /\ RollTs.status g = "active"
    /\ RollTs.session db gameId auth <> None
    /\ RollTs.getTeamById db gameId (teamId auth) = Some t
    /\ RollTs.awaitingProof t = false
    /\ RollTs.resolve gameId g t now roll db = (inr resp, db').
Proof.
  unfold RollTs.rollRoute, bind, query, ret.
  destruct (RollTs.getGame db gameId) as [g |]; [ | intros [= <- _]; discriminate ].
  destruct (String.eqb_spec (RollTs.status g) "active") as [Hactive | _]; simpl;
    [ | intros [= <- _]; discriminate ].
  destruct (RollTs.session db gameId auth) as [reg |] eqn:Hsess;
    [ | intros [= <- _]; discriminate ].
  destruct (RollTs.getTeamById db gameId (teamId auth)) as [t |];
    [ | intros [= <- _]; discriminate ].
  destruct (RollTs.awaitingProof t) eqn:Hawait; [ intros [= <- _]; discriminate | ].
  match goal with
  | |- context [match ?x with Some _ => _ | None => _ end] =>
      destruct x; [ intros [= <- _]; discriminate | ]
  end.
  match goal with
  | |- context [match ?x with Some _ => _ | None => _ end] =>
      destruct x; [ intros [= <- _]; discriminate | ]
  end.
  intros Hres _. exists g, t. repeat split; try assumption. discriminate.
Qed.

(** What the roll returns and writes. *)
Lemma resolve_eq gameId g t now roll db :
  RollTs.resolve gameId g t now roll db =
    (inr (RollTs.Rolled roll (RollTs.position t) (final_index db gameId g t roll)
            (if (RollTs.kind (RollTs.getTileWithDefaults db gameId (landing_index g t roll)
                                (RollTs.boardSize g)) =? "jump")
                && match RollTs.jumpTo (RollTs.getTileWithDefaults db gameId
                                          (landing_index g t roll) (RollTs.boardSize g)) with
                   | Some _ => true
                   | None => false
                   end
             then Some {| RollTs.jump_from := landing_index g t roll;
                          RollTs.jump_to := final_index db gameId g t roll |}
             else None)
            (needs_proof db gameId g t roll)
            (toISOString now) (RollTs.startsAt g) (RollTs.endsAt g)),
     snd (RollTs.update_team (RollTs.team_id t) gameId (final_index db gameId g t roll)
            (needs_proof db gameId g t roll) db)).
Proof.
  unfold RollTs.resolve, needs_proof, final_index, landing_index, bind, query, ret.
  destruct (RollTs.kind _ =? "jump"); [ destruct (RollTs.jumpTo _) | ]; reflexivity.
Qed.

(** The team that a later request reads after the update of a roll. *)
Lemma getTeamById_after_update db gameId tid t to needs :
  RollTs.getTeamById db gameId tid = Some t ->
  RollTs.getTeamById (snd (RollTs.update_team (RollTs.team_id t) gameId to needs db))
    gameId tid
  = Some {| RollTs.team_id := RollTs.team_id t; RollTs.name := RollTs.name t;
            RollTs.position := to; RollTs.awaitingProof := needs;
            RollTs.pendingTile := if needs then Some to else None |}.
Proof.
  unfold RollTs.getTeamById, RollTs.update_team, run. simpl.
  intros H. rewrite find_map_stable.
  2:{ intros x.
      match goal with
      | |- context [if ?c then _ else _] => destruct c
      end; reflexivity. }
  destruct (find _ (teams db)) as [row |] eqn:Hfind; [ | discriminate ].
  apply find_some in Hfind. destruct Hfind as [_ Hrow].
  apply andb_prop in Hrow. destruct Hrow as [Hg Hid].
  injection H as <-. simpl.
  rewrite String.eqb_refl, Hg. simpl.
  destruct needs; reflexivity.
Qed.

Lemma Math_clamp_high x boardSize :
  0 <= x -> 0 <= boardSize -> Math_min boardSize x = clamp x 0 boardSize.
Proof. unfold Math_min, clamp. lia. Qed.

Lemma Math_clamp_both x boardSize :
  0 <= boardSize -> Math_min boardSize (Math_max 0 x) = clamp x 0 boardSize.
Proof. unfold Math_min, Math_max, clamp. lia. Qed.

Lemma clampTile_clamp x boardSize :
  0 <= boardSize -> GameModelTs.clampTile x boardSize = clamp x 0 boardSize.
Proof.
  intros H. unfold GameModelTs.clampTile, clamp.
  destruct (Z.ltb_spec x 0); [ lia | ].
  destruct (Z.gtb_spec x boardSize); lia.
Qed.

End Roll.

(** C5.  On a resolved roll whose landing tile, at clamp(from + die, 0,
    boardSize), is a jump with a numeric target T, the reply and the stored
    position are clamp(T, 0, boardSize), whatever tile lies at T: the tile
    at T is never consulted for a second jump.  The helper resolveRoll of the
    model file computes the same position.  The die is in 1..6, the position
    read is not negative, and the board size is not negative. *)
Theorem jump_resolves_once :
  forall (RT : Runtime) (db db' : Db) (gameId : string) (auth : jwt_user) (now roll : Z)
         (resp : RollTs.response) (g : RollTs.game) (t : RollTs.team) (T : Z),
    RollTs.rollRoute gameId auth now roll db = (inr resp, db') ->
    RollTs.rollAllowed resp = true ->
    RollTs.getGame db gameId = Some g ->
    RollTs.getTeamById db gameId (teamId auth) = Some t ->
    0 <= RollTs.boardSize g ->
    0 <= RollTs.position t ->
    1 <= roll <= 6 ->
    RollTs.kind (RollTs.getTileWithDefaults db gameId
                   (clamp (RollTs.position t + roll) 0 (RollTs.boardSize g))
                   (RollTs.boardSize g)) = "jump" ->
    RollTs.jumpTo (RollTs.getTileWithDefaults db gameId
                     (clamp (RollTs.position t + roll) 0 (RollTs.boardSize g))
                     (RollTs.boardSize g)) = Some T ->
    (exists needsProof serverTime startsAt endsAt,
       resp = RollTs.Rolled roll (RollTs.position t) (clamp T 0 (RollTs.boardSize g))
                (Some {| RollTs.jump_from :=
                           clamp (RollTs.position t + roll) 0 (RollTs.boardSize g);
                         RollTs.jump_to := clamp T 0 (RollTs.boardSize g) |})
                needsProof serverTime startsAt endsAt)
    /\ (exists t', RollTs.getTeamById db' gameId (teamId auth) = Some t'
                   /\ RollTs.position t' = clamp T 0 (RollTs.boardSize g))
    /\ (forall landingTile,
          GameModelTs.kind landingTile = "jump" ->
          GameModelTs.jumpTo landingTile = Some T ->
          fst (GameModelTs.resolveRoll (RollTs.boardSize g) (RollTs.position t) roll
                 landingTile)
          = clamp T 0 (RollTs.boardSize g)).
Proof.
  intros RT db db' gameId auth now roll resp g t T Hroute Hallowed Hg Ht Hsize Hpos Hdie
    Hkind Hjump.
  destruct (rollRoute_rolled _ _ _ _ _ Hroute Hallowed)
    as (g0 & t0 & Hg0 & _ & _ & Ht0 & _ & Hres).
  rewrite Hg in Hg0. injection Hg0 as <-.
  rewrite Ht in Ht0. injection Ht0 as <-.
  rewrite resolve_eq in Hres.
  assert (Hland : landing_index g t roll
                  = clamp (RollTs.position t + roll) 0 (RollTs.boardSize g)).
  { unfold landing_index. apply Math_clamp_high; lia. }
  assert (Hfinal : final_index db gameId g t roll = clamp T 0 (RollTs.boardSize g)).
  { unfold final_index. rewrite Hland, Hkind, Hjump. simpl.
    apply Math_clamp_both. exact Hsize. }
  rewrite Hfinal, Hland, Hkind, Hjump in Hres. simpl in Hres.
  injection Hres as <- <-.
  split; [ | split ].
  - do 4 eexists. reflexivity.
  - eexists. split; [ apply getTeamById_after_update; exact Ht | reflexivity ].
  - intros landingTile Hk Hj. unfold GameModelTs.resolveRoll.
    rewrite Hk, Hj. simpl. apply clampTile_clamp. exact Hsize.
Qed.

(** C3, as the code has it.  After a resolved roll the stored awaitingProof
    flag of the team is true if and only if the tile at the stored,
    post-jump position resolves under the default rule to kind task or to
    the legacy kind boss, which the seeding of POST /games stores as it
    is. *)
Theorem roll_gating_iff_task_or_boss :
  forall (RT : Runtime) (db db' : Db) (gameId : string) (auth : jwt_user) (now roll : Z)
         (resp : RollTs.response),
    RollTs.rollRoute gameId auth now roll db = (inr resp, db') ->
    RollTs.rollAllowed resp = true ->
    exists g t t',
      RollTs.getGame db gameId = Some g
      /\ RollTs.getTeamById db gameId (teamId auth) = Some t
      /\ RollTs.getTeamById db' gameId (teamId auth) = Some t'
      /\ RollTs.position t' = final_index db gameId g t roll
      /\ (RollTs.awaitingProof t' = true <->
          RollTs.kind (RollTs.getTileWithDefaults db' gameId (RollTs.position t')
                         (RollTs.boardSize g)) = "task"
          \/ RollTs.kind (RollTs.getTileWithDefaults db' gameId (RollTs.position t')
                            (RollTs.boardSize g)) = "boss").
Proof.
  intros RT db db' gameId auth now roll resp Hroute Hallowed.
  destruct (rollRoute_rolled _ _ _ _ _ Hroute Hallowed)
    as (g & t & Hg & _ & _ & Ht & _ & Hres).
  rewrite resolve_eq in Hres. injection Hres as _ <-.
  exists g, t. eexists.
  split; [ exact Hg | split; [ exact Ht | ] ].
  split; [ apply getTeamById_after_update; exact Ht | ].
  split; [ reflexivity | ].
  simpl. unfold needs_proof.
  change (RollTs.getTileWithDefaults
            (set_teams _ db) gameId (final_index db gameId g t roll) (RollTs.boardSize g))
    with (RollTs.getTileWithDefaults db gameId (final_index db gameId g t roll)
            (RollTs.boardSize g)).
  rewrite orb_true_iff, !String.eqb_eq. reflexivity.
Qed.

Lemma jump_resolves_once_witness :
  @RollTs.rollRoute example_runtime "game_01" example_auth day1 2 example_at8
  = (inr example_jump_reply, example_after_jump)
  /\ RollTs.getTeamById example_at8 "game_01" "team_0a" = Some (example_team 8 false None)
  /\ RollTs.kind (RollTs.getTileWithDefaults example_at8 "game_01" (clamp (8 + 2) 0 20) 20)
     = "jump"
  /\ RollTs.jumpTo (RollTs.getTileWithDefaults example_at8 "game_01" (clamp (8 + 2) 0 20) 20)
     = Some 3
  /\ RollTs.kind (RollTs.getTileWithDefaults example_at8 "game_01" 3 20) = "jump"
  /\ exists t', RollTs.getTeamById example_after_jump "game_01" "team_0a" = Some t'
                /\ RollTs.position t' = clamp 3 0 20.
Proof.
  assert (Hroute : @RollTs.rollRoute example_runtime "game_01" example_auth day1 2 example_at8
                   = (inr example_jump_reply, example_after_jump))
    by (vm_compute; reflexivity).
  assert (Hteam : RollTs.getTeamById example_at8 "game_01" "team_0a"
                  = Some (example_team 8 false None))
    by (vm_compute; reflexivity).
  assert (Hkind : RollTs.kind (RollTs.getTileWithDefaults example_at8 "game_01"
                                 (clamp (8 + 2) 0 20) 20) = "jump")
    by (vm_compute; reflexivity).
  assert (Hjump : RollTs.jumpTo (RollTs.getTileWithDefaults example_at8 "game_01"
                                   (clamp (8 + 2) 0 20) 20) = Some 3)
    by (vm_compute; reflexivity).
  split; [ exact Hroute | ].
  split; [ exact Hteam | ].
  split; [ exact Hkind | ].
  split; [ exact Hjump | ].
  split; [ vm_compute; reflexivity | ].
  assert (Hgame : RollTs.getGame example_at8 "game_01" = Some example_game_read)
    by (vm_compute; reflexivity).
  assert (Hsize : 0 <= RollTs.boardSize example_game_read) by (simpl; lia).
  assert (Hpos : 0 <= RollTs.position (example_team 8 false None)) by (simpl; lia).
  assert (Hdie : 1 <= 2 <= 6) by lia.
  destruct (@jump_resolves_once example_runtime example_at8 example_after_jump
              "game_01" example_auth day1 2 example_jump_reply
              example_game_read (example_team 8 false None) 3
              Hroute eq_refl Hgame Hteam Hsize Hpos Hdie Hkind Hjump)
    as [_ [Hstored _]].
  exact Hstored.
Defined.

Lemma roll_gating_iff_task_or_boss_witness :
  @RollTs.rollRoute example_runtime "game_01" example_auth day1 5 (example_db [])
  = (inr example_boss_reply, example_on_boss)
  /\ RollTs.rollAllowed example_boss_reply = true
  /\ exists g t t',
       RollTs.getGame (example_db []) "game_01" = Some g
       /\ RollTs.getTeamById (example_db []) "game_01" "team_0a" = Some t
       /\ RollTs.getTeamById example_on_boss "game_01" "team_0a" = Some t'
       /\ RollTs.position t' = final_index (example_db []) "game_01" g t 5
       /\ (RollTs.awaitingProof t' = true <->
           RollTs.kind (RollTs.getTileWithDefaults example_on_boss "game_01"
                          (RollTs.position t') (RollTs.boardSize g)) = "task"
           \/ RollTs.kind (RollTs.getTileWithDefaults example_on_boss "game_01"
                             (RollTs.position t') (RollTs.boardSize g)) = "boss").
Proof.
  assert (Hroute : @RollTs.rollRoute example_runtime "game_01" example_auth day1 5
                     (example_db [])
                   = (inr example_boss_reply, example_on_boss))
    by (vm_compute; reflexivity).
  split; [ exact Hroute | split; [ reflexivity | ] ].
  exact (@roll_gating_iff_task_or_boss example_runtime (example_db []) example_on_boss
           "game_01" example_auth day1 5 example_boss_reply Hroute eq_refl).
Defined.

(** The claim as stated, with task as the only gating kind, fails on a tile
    that the seeding of POST /games stored with kind boss: the roll gates
    the team although the tile does not resolve to kind task. *)
Lemma roll_gating_task_only_counterexample :
  @RollTs.rollRoute example_runtime "game_01" example_auth day1 5 (example_db [])
  = (inr example_boss_reply, example_on_boss)
  /\ RollTs.rollAllowed example_boss_reply = true
  /\ RollTs.getTeamById example_on_boss "game_01" "team_0a"
     = Some (example_team 5 true (Some 5))
  /\ ~ (RollTs.awaitingProof (example_team 5 true (Some 5)) = true <->
        RollTs.kind (RollTs.getTileWithDefaults example_on_boss "game_01"
                       (RollTs.position (example_team 5 true (Some 5))) 20) = "task").
Proof.
  split; [ vm_compute; reflexivity | ].
  split; [ reflexivity | ].
  split; [ vm_compute; reflexivity | ].
  intros [H _]. specialize (H eq_refl). vm_compute in H. discriminate H.
Qed.

Lemma awaiting_proof_roll_refused_witness :
  RollTs.getTeamById example_gated "game_01" (teamId example_auth)
  = Some (example_team 4 true (Some 4))
  /\ RollTs.awaitingProof (example_team 4 true (Some 4)) = true
  /\ exists resp,
       @RollTs.rollRoute example_runtime "game_01" example_auth day1 6 example_gated
       = (inr resp, example_gated)
       /\ RollTs.rollAllowed resp = false
       /\ (forall g,
             RollTs.getGame example_gated "game_01" = Some g ->
             RollTs.status g = "active" ->
             RollTs.session example_gated "game_01" example_auth <> None ->
             resp = RollTs.AwaitingProof (RollTs.pendingTile (example_team 4 true (Some 4)))
                      (RollTs.brief (example_team 4 true (Some 4)))
             /\ RollTs.ok resp = true
             /\ RollTs.reason resp = "awaiting_proof").
Proof.
  assert (Hteam : RollTs.getTeamById example_gated "game_01" (teamId example_auth)
                  = Some (example_team 4 true (Some 4)))
    by (vm_compute; reflexivity).
  split; [ exact Hteam | split; [ reflexivity | ] ].
  exact (@awaiting_proof_roll_refused example_runtime example_gated "game_01" example_auth
           day1 6 (example_team 4 true (Some 4)) Hteam eq_refl).
Defined.

(* ------------------------------------------------------------------ *)
(** ** Submitting a proof *)

Section ProofRoute.
Context {RT : Runtime}.

Lemma violated_proofs_fresh r ps :
  (forall p, In p ps -> p_id p <> p_id r) ->
  violated proofs_keys r ps =
    if existsb (fun p => (p_game_id r =? p_game_id p) && (p_team_id r =? p_team_id p)
                         && (p_tile_index r =? p_tile_index p)%Z) ps
    then Some "proofs.game_id, proofs.team_id, proofs.tile_index"
    else None.
Proof.
  intros Hfresh. simpl.
  assert (Hid : existsb (fun p => p_id r =? p_id p) ps = false).
  { apply not_true_is_false. intros H. apply existsb_exists in H.
    destruct H as (p & Hp & He). apply String.eqb_eq in He.
    apply (Hfresh p Hp). symmetry. exact He. }
  rewrite Hid. reflexivity.
Qed.

Lemma violated_proofs_recorded db r :
  proof_recorded db (p_game_id r) (p_team_id r) (p_tile_index r) ->
  exists columns,
    violated proofs_keys r (proofs db) = Some columns
    /\ (proof_id_fresh db (p_id r) ->
        columns = "proofs.game_id, proofs.team_id, proofs.tile_index").
Proof.
  intros (p & Hp & Hg & Ht & Hi).
  assert (Hdup : existsb (fun p => (p_game_id r =? p_game_id p)
                                   && (p_team_id r =? p_team_id p)
                                   && (p_tile_index r =? p_tile_index p)%Z) (proofs db)
                 = true).
  { apply existsb_exists. exists p. split; [ exact Hp | ].
    rewrite Hg, Ht, Hi, !String.eqb_refl, Z.eqb_refl. reflexivity. }
  destruct (existsb (fun p => p_id r =? p_id p) (proofs db)) eqn:Hid.
  - exists "proofs.id". split.
    + simpl. rewrite Hid. reflexivity.
    + intros Hfresh. apply existsb_exists in Hid. destruct Hid as (q & Hq & He).
      apply String.eqb_eq in He. elim (Hfresh q Hq). symmetry. exact He.
  - exists "proofs.game_id, proofs.team_id, proofs.tile_index". split.
    + simpl. rewrite Hid, Hdup. reflexivity.
    + reflexivity.
Qed.

Lemma violated_proofs_none db r :
  proof_id_fresh db (p_id r) ->
  ~ proof_recorded db (p_game_id r) (p_team_id r) (p_tile_index r) ->
  violated proofs_keys r (proofs db) = None.
Proof.
  intros Hfresh Hnew. rewrite violated_proofs_fresh by exact Hfresh.
  destruct (existsb _ (proofs db)) eqn:Hdup; [ | reflexivity ].
  apply existsb_exists in Hdup. destruct Hdup as (p & Hp & He).
  apply andb_prop in He. destruct He as [He Hi]. apply andb_prop in He.
  destruct He as [Hg Ht].
  apply String.eqb_eq in Hg, Ht. apply Z.eqb_eq in Hi.
  elim Hnew. exists p. repeat split; [ exact Hp | | | ]; symmetry; assumption.
Qed.

(** Past its preconditions the route is the INSERT followed by the UPDATE. *)
Lemma proofRoute_expected db gameId auth b proofUrl g t tileIndex now hex :
  proof_expected db gameId auth b proofUrl g t tileIndex ->
  ProofTs.proofRoute gameId auth b now hex db =
    match violated proofs_keys (proof_record gameId auth t tileIndex proofUrl now hex)
            (proofs db) with
    | Some columns => (inl (SqlConstraint columns), db)
    | None =>
        (inr tt,
         snd (ProofTs.unlock_rolling (ProofTs.team_id t) gameId
                (set_proofs (fun ps =>
                   ps ++ [proof_record gameId auth t tileIndex proofUrl now hex]) db)))
    end.
Proof.
  intros (Hparse & Hg & Hactive & Hsess & Ht & Hawait & Hpending & Hkind).
  unfold ProofTs.proofRoute, bind, query, throw.
  rewrite Hparse, Hg, Hactive, String.eqb_refl. cbn [negb].
  destruct (ProofTs.session db gameId auth); [ | now elim Hsess ].
  rewrite Ht, Hawait, Hpending, Hkind, String.eqb_refl. cbn [negb].
  unfold insert_proof, insert, proof_record.
  destruct (violated proofs_keys _ (proofs db)); reflexivity.
Qed.

(** A submission that returns has passed the preconditions. *)
Lemma proofRoute_returned db db' gameId auth b now hex u :
  ProofTs.proofRoute gameId auth b now hex db = (inr u, db') ->
  exists proofUrl g t tileIndex,
    proof_expected db gameId auth b proofUrl g t tileIndex.
Proof.
  unfold ProofTs.proofRoute, bind, query, throw, proof_expected.
  destruct (ProofTs.ProofBody_parse b) as [proofUrl |]; [ | discriminate ].
  destruct (ProofTs.getGame db gameId) as [g |]; [ | discriminate ].
  destruct (String.eqb_spec (ProofTs.status g) "active") as [Hactive | _]; simpl;
    [ | discriminate ].
  destruct (ProofTs.session db gameId auth) as [reg |]; [ | discriminate ].
  destruct (ProofTs.getTeamById db gameId (teamId auth)) as [t |]; [ | discriminate ].
  destruct (ProofTs.awaitingProof t) eqn:Hawait; [ | discriminate ].
  destruct (ProofTs.pendingTile t) as [tileIndex |] eqn:Hpending; [ | discriminate ].
  destruct (String.eqb_spec
              (ProofTs.kind (ProofTs.getTileWithDefaults db gameId tileIndex
                               (ProofTs.boardSize g))) "task") as [Hkind | _]; simpl;
    [ | discriminate ].
  intros _. exists proofUrl, g, t, tileIndex.
  repeat split; try assumption; try reflexivity. discriminate.
Qed.

(** A submission that throws has written nothing. *)
Lemma proofRoute_thrown db db' gameId auth b now hex e :
  ProofTs.proofRoute gameId auth b now hex db = (inl e, db') -> db' = db.
Proof.
  unfold ProofTs.proofRoute, bind, query, throw.
  destruct (ProofTs.ProofBody_parse b) as [proofUrl |]; [ | now intros [= _ <-] ].
  destruct (ProofTs.getGame db gameId) as [g |]; [ | now intros [= _ <-] ].
  destruct (negb _); [ now intros [= _ <-] | ].
  destruct (ProofTs.session db gameId auth) as [reg |]; [ | now intros [= _ <-] ].
  destruct (ProofTs.getTeamById db gameId (teamId auth)) as [t |]; [ | now intros [= _ <-] ].
  destruct (ProofTs.awaitingProof t); [ | now intros [= _ <-] ].
  destruct (ProofTs.pendingTile t) as [tileIndex |]; [ | now intros [= _ <-] ].
  destruct (negb _); [ now intros [= _ <-] | ].
  unfold insert_proof, insert.
  destruct (violated proofs_keys _ (proofs db)); [ now intros [= _ <-] | discriminate ].
Qed.

Lemma getTeamById_ungated db gameId tid t :
  ProofTs.getTeamById db gameId tid = Some t ->
  forall ps,
    ProofTs.getTeamById
      (snd (ProofTs.unlock_rolling (ProofTs.team_id t) gameId (set_proofs ps db)))
      gameId tid
    = Some (ungated t).
Proof.
  unfold ProofTs.getTeamById, ProofTs.unlock_rolling, run. simpl.
  intros H ps. rewrite find_map_stable.
  2:{ intros x.
      match goal with
      | |- context [if ?c then _ else _] => destruct c
      end; reflexivity. }
  destruct (find _ (teams db)) as [row |] eqn:Hfind; [ | discriminate ].
  apply find_some in Hfind. destruct Hfind as [_ Hrow].
  apply andb_prop in Hrow. destruct Hrow as [Hg Hid].
  injection H as <-. simpl.
  rewrite String.eqb_refl, Hg. reflexivity.
Qed.

Lemma getTeamById_same_id db gameId tid t :
  ProofTs.getTeamById db gameId tid = Some t -> ProofTs.team_id t = tid.
Proof.
  unfold ProofTs.getTeamById.
  destruct (find _ (teams db)) as [row |] eqn:Hfind; [ | discriminate ].
  apply find_some in Hfind. destruct Hfind as [_ Hrow].
  apply andb_prop in Hrow. destruct Hrow as [_ Hid]. apply String.eqb_eq in Hid.
  intros [= <-]. exact Hid.
Qed.

End ProofRoute.

(** The proofs table only grows: a proof on record stays on record. *)
Lemma recorded_serve {RT : Runtime} gid tid idx reqs db :
  proof_recorded db gid tid idx -> proof_recorded (ServerTs.serve reqs db) gid tid idx.
Proof.
  apply (frame_serve (fun db => proof_recorded db gid tid idx));
    try (intros f d H; exact H).
  intros r d (p & Hp & Hrest). exists p. split; [ | exact Hrest ].
  simpl. apply in_or_app. left. exact Hp.
Qed.

(** C7.  After an accepted proof of a team for a tile, whatever requests
    are served in between, a second submission of the team for the same tile
    (the team is gated on that tile again and passes every other check)
    throws the constraint failure of the INSERT, on the columns (game_id,
    team_id, tile_index) when the new identifier is fresh, and leaves the
    database as it is: the record on file is not overwritten.  Every
    submission that throws leaves the database, hence the pair awaitingProof
    and pendingTile, unchanged.  A submission that returns has appended its
    record to the proofs and cleared the pair of the team. *)
Theorem duplicate_proof_is_conflict :
  forall (RT : Runtime) (gameId : string) (auth : jwt_user),
    (forall db0 db1 b0 now0 hex0 t0 tileIndex reqs b proofUrl g t now hex,
        ProofTs.proofRoute gameId auth b0 now0 hex0 db0 = (inr tt, db1) ->
        ProofTs.getTeamById db0 gameId (teamId auth) = Some t0 ->
        ProofTs.pendingTile t0 = Some tileIndex ->
        proof_expected (ServerTs.serve reqs db1) gameId auth b proofUrl g t tileIndex ->
        exists columns,
          ProofTs.proofRoute gameId auth b now hex (ServerTs.serve reqs db1)
          = (inl (SqlConstraint columns), ServerTs.serve reqs db1)
          /\ (proof_id_fresh (ServerTs.serve reqs db1) (rid "proof" hex) ->
              columns = "proofs.game_id, proofs.team_id, proofs.tile_index"))
    /\ (forall db db' b now hex e,
          ProofTs.proofRoute gameId auth b now hex db = (inl e, db') -> db' = db)
    /\ (forall db db' b now hex,
          ProofTs.proofRoute gameId auth b now hex db = (inr tt, db') ->
          exists proofUrl g t tileIndex,
            proof_expected db gameId auth b proofUrl g t tileIndex
            /\ proofs db' = proofs db ++ [proof_record gameId auth t tileIndex proofUrl now hex]
            /\ ProofTs.getTeamById db' gameId (teamId auth) = Some (ungated t)).
Proof.
  intros RT gameId auth.
  assert (Hreturned : forall db db' b now hex,
    ProofTs.proofRoute gameId auth b now hex db = (inr tt, db') ->
    exists proofUrl g t tileIndex,
      proof_expected db gameId auth b proofUrl g t tileIndex
      /\ proofs db' = proofs db ++ [proof_record gameId auth t tileIndex proofUrl now hex]
      /\ ProofTs.getTeamById db' gameId (teamId auth) = Some (ungated t)).
  { intros db db' b now hex Hrun.
    pose proof Hrun as Hexp. apply proofRoute_returned in Hexp.
    destruct Hexp as (proofUrl & g & t & tileIndex & Hexp).
    exists proofUrl, g, t, tileIndex. split; [ exact Hexp | ].
    rewrite (proofRoute_expected now hex Hexp) in Hrun.
    destruct (violated proofs_keys _ (proofs db)); [ discriminate | ].
    injection Hrun as <-. split; [ reflexivity | ].
    apply getTeamById_ungated. apply Hexp. }
  split; [ | split; [ | exact Hreturned ] ].
  - intros db0 db1 b0 now0 hex0 t0 tileIndex reqs b proofUrl g t now hex
      Hfirst Ht0 Hpending0 Hexp.
    destruct (Hreturned _ _ _ _ _ Hfirst)
      as (proofUrl0 & g0 & t0' & tile0 & Hexp0 & Hproofs & _).
    assert (Hsame : t0' = t0 /\ tile0 = tileIndex).
    { destruct Hexp0 as (_ & _ & _ & _ & Ht0' & _ & Hp0' & _).
      rewrite Ht0 in Ht0'. injection Ht0' as <-.
      rewrite Hpending0 in Hp0'. injection Hp0' as <-. split; reflexivity. }
    destruct Hsame as [-> ->].
    assert (Hrec1 : proof_recorded db1 gameId (teamId auth) tileIndex).
    { exists (proof_record gameId auth t0 tileIndex proofUrl0 now0 hex0).
      split; [ rewrite Hproofs; apply in_or_app; right; left; reflexivity | ].
      repeat split. simpl. eapply getTeamById_same_id. exact Ht0. }
    pose proof (recorded_serve reqs Hrec1) as Hrec.
    rewrite (proofRoute_expected now hex Hexp).
    assert (Hid : ProofTs.team_id t = teamId auth).
    { eapply getTeamById_same_id. apply Hexp. }
    destruct (@violated_proofs_recorded (ServerTs.serve reqs db1)
                (proof_record gameId auth t tileIndex proofUrl now hex))
      as (columns & Hviolated & Hcolumns).
    { simpl. rewrite Hid. exact Hrec. }
    rewrite Hviolated. exists columns. split; [ reflexivity | exact Hcolumns ].
  - intros db db' b now hex e. apply proofRoute_thrown.
Qed.

Lemma duplicate_proof_is_conflict_witness :
  @ProofTs.proofRoute example_runtime "game_01" example_auth example_body day1 "b1"
    example_gated = (inr tt, example_proved4)
  /\ @proof_expected example_runtime example_regated "game_01" example_auth example_body
       "https://example.org/proof.png" example_game_proof example_team_gated4 4
  /\ exists columns,
       @ProofTs.proofRoute example_runtime "game_01" example_auth example_body day1 "b2"
         example_regated
       = (inl (SqlConstraint columns), example_regated)
       /\ (proof_id_fresh example_regated (rid "proof" "b2") ->
           columns = "proofs.game_id, proofs.team_id, proofs.tile_index").
Proof.
  assert (Hfirst : @ProofTs.proofRoute example_runtime "game_01" example_auth example_body
                     day1 "b1" example_gated = (inr tt, example_proved4))
    by (vm_compute; reflexivity).
  assert (Hteam : ProofTs.getTeamById example_gated "game_01" (teamId example_auth)
                  = Some example_team_gated4)
    by (vm_compute; reflexivity).
  assert (Hexp : @proof_expected example_runtime example_regated "game_01" example_auth
                   example_body "https://example.org/proof.png" example_game_proof
                   example_team_gated4 4).
  { repeat split; try (vm_compute; reflexivity). vm_compute. discriminate. }
  split; [ exact Hfirst | split; [ exact Hexp | ] ].
  exact (proj1 (@duplicate_proof_is_conflict example_runtime "game_01" example_auth)
           example_gated example_proved4 example_body day1 "b1" example_team_gated4 4
           [ example_roll 2 ] example_body "https://example.org/proof.png"
           example_game_proof example_team_gated4 day1 "b2"
           Hfirst Hteam eq_refl Hexp).
Defined.

(** C9.  The proof route never looks at the time window.  In an active
    game whose end time has passed, a valid submission by a gated team
    (registered session, awaitingProof, pendingTile resolving to a task; no
    record yet for the tile and a fresh identifier) returns, appends the
    record and clears the pair of the team; submitted at any other instant,
    before the end included, it returns as well and leaves the same teams
    table. *)
Theorem proof_ignores_time_window :
  forall (RT : Runtime) (db : Db) (gameId : string) (auth : jwt_user) (b : ProofTs.body)
         (proofUrl : string) (g : ProofTs.game) (t : ProofTs.team) (tileIndex now : Z)
         (hex : string),
    proof_expected db gameId auth b proofUrl g t tileIndex ->
    past_end db gameId now ->
    proof_id_fresh db (rid "proof" hex) ->
    ~ proof_recorded db gameId (teamId auth) tileIndex ->
    exists db',
      ProofTs.proofRoute gameId auth b now hex db = (inr tt, db')
      /\ proofs db' = proofs db ++ [proof_record gameId auth t tileIndex proofUrl now hex]
      /\ ProofTs.getTeamById db' gameId (teamId auth) = Some (ungated t)
      /\ (forall other, exists db'',
            ProofTs.proofRoute gameId auth b other hex db = (inr tt, db'')
            /\ teams db'' = teams db').
Proof.
  intros RT db gameId auth b proofUrl g t tileIndex now hex Hexp _ Hfresh Hnew.
  assert (Hid : ProofTs.team_id t = teamId auth).
  { eapply getTeamById_same_id. apply Hexp. }
  assert (Hnone : forall instant,
            violated proofs_keys
              (proof_record gameId auth t tileIndex proofUrl instant hex) (proofs db) = None).
  { intros instant. apply violated_proofs_none; simpl.
    - exact Hfresh.
    - rewrite Hid. exact Hnew. }
  eexists. rewrite (proofRoute_expected now hex Hexp), Hnone.
  split; [ reflexivity | ].
  split; [ reflexivity | ].
  split; [ apply getTeamById_ungated; apply Hexp | ].
  intros other. eexists. rewrite (proofRoute_expected other hex Hexp), Hnone.
  split; reflexivity.
Qed.

Lemma proof_ignores_time_window_witness :
  @proof_expected example_runtime example_gated "game_01" example_auth example_body
    "https://example.org/proof.png" example_game_proof example_team_gated4 4
  /\ @past_end example_runtime example_gated "game_01" day3
  /\ exists db',
       @ProofTs.proofRoute example_runtime "game_01" example_auth example_body day3 "b1"
         example_gated = (inr tt, db')
       /\ proofs db'
          = proofs example_gated
            ++ [@proof_record example_runtime "game_01" example_auth example_team_gated4 4
                  "https://example.org/proof.png" day3 "b1"]
       /\ ProofTs.getTeamById db' "game_01" (teamId example_auth)
          = Some (ungated example_team_gated4)
       /\ (forall other, exists db'',
             @ProofTs.proofRoute example_runtime "game_01" example_auth example_body other
               "b1" example_gated = (inr tt, db'')
             /\ teams db'' = teams db').
Proof.
  assert (Hexp : @proof_expected example_runtime example_gated "game_01" example_auth
                   example_body "https://example.org/proof.png" example_game_proof
                   example_team_gated4 4).
  { repeat split; try (vm_compute; reflexivity). vm_compute. discriminate. }
  assert (Hend : @past_end example_runtime example_gated "game_01" day3).
  { exists example_game_read, "2024-01-02T00:00:00.000Z", 1704153600000.
    repeat split; try (vm_compute; reflexivity). vm_compute. discriminate. }
  assert (Hfresh : proof_id_fresh example_gated (rid "proof" "b1")).
  { intros p []. }
  assert (Hnew : ~ proof_recorded example_gated "game_01" (teamId example_auth) 4).
  { intros (p & [] & _). }
  split; [ exact Hexp | split; [ exact Hend | ] ].
  exact (@proof_ignores_time_window example_runtime example_gated "game_01" example_auth
           example_body "https://example.org/proof.png" example_game_proof
           example_team_gated4 4 day3 "b1" Hexp Hend Hfresh Hnew).
Defined.

(* ------------------------------------------------------------------ *)
(** ** The legacy kind boss *)

Section Boss.
Context {RT : Runtime}.

Lemma mapBoardTileToDbKind_kinds ty rp :
  BoardTs.mapBoardTileToDbKind ty rp = "jump"
  \/ BoardTs.mapBoardTileToDbKind ty rp = "task"
  \/ BoardTs.mapBoardTileToDbKind ty rp = "empty".
Proof.
  unfold BoardTs.mapBoardTileToDbKind.
  destruct (_ =? "jump"); [ now left | ].
  destruct (_ || _); [ | now right; right ].
  destruct rp as [[|] |]; auto.
Qed.

Lemma mapBoardTileToDbKind_boss rp :
  BoardTs.mapBoardTileToDbKind (Some (BoardTs.type_text BoardTs.T_boss)) rp = task_kind rp.
Proof. destruct rp as [[|] |]; reflexivity. Qed.

Lemma tile_rows_kind gameId hex ts : forall i r,
  In r (tile_rows gameId hex i ts) ->
  tt_game_id r = gameId /\ tt_kind r <> "boss".
Proof.
  induction ts as [| t ts IH]; intros i r; simpl.
  - intros [].
  - intros [<- | Hr]; [ | exact (IH _ _ Hr) ].
    split; [ reflexivity | ]. simpl.
    destruct (mapBoardTileToDbKind_kinds (option_map BoardTs.type_text (BoardTs.type t))
                (BoardTs.requiresProof t)) as [-> | [-> | ->]]; discriminate.
Qed.

Lemma tile_rows_nth gameId hex ts : forall i n t,
  nth_error ts n = Some t ->
  In (BoardTs.tile_row gameId (hex (i + n)%nat) t) (tile_rows gameId hex i ts).
Proof.
  induction ts as [| t0 ts IH]; intros i n t; simpl.
  - destruct n; discriminate.
  - destruct n as [| n]; simpl.
    + intros [= ->]. left. rewrite Nat.add_0_r. reflexivity.
    + intros H. right. replace (i + S n)%nat with (S i + n)%nat by lia.
      apply IH. exact H.
Qed.

(** When every INSERT of the rebuild succeeds, the rows are appended in the
    order of the document. *)
Lemma insert_tiles_returned gameId hex ts : forall i db db' u,
  BoardTs.insert_tiles gameId hex i ts db = (inr u, db') ->
  tile_tasks db' = tile_tasks db ++ tile_rows gameId hex i ts.
Proof.
  induction ts as [| t ts IH]; intros i db db' u; simpl.
  - intros [= _ <-]. rewrite app_nil_r. reflexivity.
  - unfold bind, insert_tile_task, insert.
    destruct (violated tile_tasks_keys _ (tile_tasks db)); [ discriminate | ].
    intros H. apply IH in H. rewrite H. simpl. rewrite <- app_assoc. reflexivity.
Qed.

(** A board save that answers { ok: true } has rebuilt the rows of the game
    from the parsed document. *)
Lemma putBoard_saved gameId hostPassword body now tileHex db db' updatedAt :
  BoardTs.putBoard gameId hostPassword body now tileHex db
  = (inr (BoardTs.Saved updatedAt), db') ->
  exists parsed,
    BoardTs.BoardSchema_parse body = Some parsed
    /\ tile_tasks db'
       = filter (fun r => negb (tt_game_id r =? gameId)) (tile_tasks db)
         ++ tile_rows gameId tileHex 0 (BoardTs.tiles parsed).
Proof.
  unfold BoardTs.putBoard, bind, query, ret, throw.
  destruct (negb (truthy _)); [ discriminate | ].
  destruct (BoardTs.getGame db gameId) as [g |]; [ | discriminate ].
  destruct (negb (_ =? _)); [ discriminate | ].
  destruct (match BoardTs.board_row db gameId with Some _ => _ | None => _ end);
    [ discriminate | ].
  destruct (BoardTs.BoardSchema_parse body) as [parsed |]; [ | discriminate ].
  destruct (negb (_ =? _)%Z); [ discriminate | ].
  destruct (BoardTs.validate_tiles _ _); [ discriminate | ].
  unfold upsert_game_board, run.
  match goal with
  | |- context [BoardTs.insert_tiles gameId tileHex 0 (BoardTs.tiles parsed) ?d] =>
      destruct (BoardTs.insert_tiles gameId tileHex 0 (BoardTs.tiles parsed) d)
        as [[e | u] db3] eqn:Hins; [ discriminate | ]
  end.
  intros [= _ <-]. exists parsed. split; [ reflexivity | ].
  apply insert_tiles_returned in Hins. exact Hins.
Qed.

End Boss.

(** C4, as the code has it.  A board save that succeeds leaves, for every
    tile of the document with the legacy type boss, a row of kind task, or
    of kind empty when the tile is marked requiresProof = false, and leaves
    no row of kind boss for the game.  (The tile seeding of POST /games is
    not covered: it stores the kind as it was sent.) *)
Theorem board_save_normalizes_boss :
  forall (RT : Runtime) (db db' : Db) (gameId : string) (hostPassword : option string)
         (body : BoardTs.board) (now : Z) (tileHex : nat -> string) (updatedAt : string),
    BoardTs.putBoard gameId hostPassword body now tileHex db
    = (inr (BoardTs.Saved updatedAt), db') ->
    (forall n t,
        nth_error (BoardTs.tiles body) n = Some t ->
        BoardTs.type t = Some BoardTs.T_boss ->
        exists r, In r (tile_tasks db')
                  /\ tt_game_id r = gameId
                  /\ tt_tile_index r = BoardTs.tile_id t
                  /\ tt_kind r = task_kind (BoardTs.requiresProof t))
    /\ (forall r, In r (tile_tasks db') -> tt_game_id r = gameId -> tt_kind r <> "boss").
Proof.
  intros RT db db' gameId hostPassword body now tileHex updatedAt Hsave.
  apply putBoard_saved in Hsave. destruct Hsave as (parsed & Hparse & Hrows).
  assert (Htiles : BoardTs.tiles parsed = map BoardTs.tile_defaults (BoardTs.tiles body)).
  { unfold BoardTs.BoardSchema_parse in Hparse.
    destruct (_ && _) in Hparse; [ | discriminate ].
    injection Hparse as <-. reflexivity. }
  split.
  - intros n t Hn Hboss.
    exists (BoardTs.tile_row gameId (tileHex (0 + n)%nat) (BoardTs.tile_defaults t)).
    split.
    + rewrite Hrows. apply in_or_app. right. apply tile_rows_nth.
      rewrite Htiles. apply map_nth_error. exact Hn.
    + split; [ reflexivity | split; [ reflexivity | ] ].
      simpl. rewrite Hboss. apply mapBoardTileToDbKind_boss.
  - intros r Hr Hgame. rewrite Hrows in Hr. apply in_app_or in Hr.
    destruct Hr as [Hold | Hnew].
    + apply filter_In in Hold. destruct Hold as [_ Hother].
      rewrite Hgame, String.eqb_refl in Hother. discriminate.
    + apply (tile_rows_kind _ _ _ _ _ Hnew).
Qed.

Lemma board_save_normalizes_boss_witness :
  @BoardTs.putBoard example_runtime "game_01" (Some "secret") example_board day1 example_hex
    (example_db [])
  = (inr (BoardTs.Saved "2024-01-01T00:00:00.000Z"), example_saved)
  /\ stored_kind example_saved "game_01" 5 = Some "task"
  /\ stored_kind example_saved "game_01" 7 = Some "empty"
  /\ (forall r, In r (tile_tasks example_saved) -> tt_game_id r = "game_01" ->
                tt_kind r <> "boss").
Proof.
  assert (Hsave : @BoardTs.putBoard example_runtime "game_01" (Some "secret") example_board
                    day1 example_hex (example_db [])
                  = (inr (BoardTs.Saved "2024-01-01T00:00:00.000Z"), example_saved))
    by (vm_compute; reflexivity).
  split; [ exact Hsave | ].
  split; [ vm_compute; reflexivity | ].
  split; [ vm_compute; reflexivity | ].
  exact (proj2 (@board_save_normalizes_boss example_runtime (example_db []) example_saved
                  "game_01" (Some "secret") example_board day1 example_hex
                  "2024-01-01T00:00:00.000Z" Hsave)).
Defined.

(** The claim as stated fails on both input paths: the seeding of
    POST /games stores the kind boss as it was sent, and the board save
    stores a boss tile that is marked requiresProof = false as empty. *)
Lemma boss_stored_as_task_counterexample :
  (In (example_seed 5 GamesTs.K_boss None) (orElse (GamesTs.tiles example_game) [])
   /\ stored_kind (example_db []) "game_01" 5 = Some "boss"
   /\ stored_kind (example_db []) "game_01" 5 <> Some "task")
  /\ (In (example_tile 7 BoardTs.T_boss (Some false)) (BoardTs.tiles example_board)
      /\ stored_kind example_saved "game_01" 7 = Some "empty"
      /\ stored_kind example_saved "game_01" 7 <> Some "task").
Proof.
  split; (split; [ simpl; tauto | split; [ vm_compute; reflexivity | ] ]);
    vm_compute; discriminate.
Qed.

(* ------------------------------------------------------------------ *)
(** ** The revision of the overlay *)

Lemma sql_max_nil l : sql_max l = None -> l = [].
Proof.
  destruct l as [| a l]; [ reflexivity | ]. simpl. destruct (sql_max l); discriminate.
Qed.

Lemma sql_max_bound l : forall m,
  sql_max l = Some m -> (forall x, In x l -> x <= m) /\ In m l.
Proof.
  induction l as [| a l IH]; intros m; simpl.
  - discriminate.
  - destruct (sql_max l) as [m' |] eqn:Hmax.
    + intros [= <-]. destruct (IH m' eq_refl) as [Hle Hin]. split.
      * intros x [<- | Hx]; [ lia | ]. specialize (Hle x Hx). lia.
      * destruct (Z.max_spec a m') as [[_ ->] | [_ ->]]; [ now right | now left ].
    + intros [= <-]. apply sql_max_nil in Hmax. subst l.
      split; [ intros x [<- | []]; lia | now left ].
Qed.

Lemma sql_max_snoc l x :
  sql_max (l ++ [x]) = Some (match sql_max l with
                             | Some m => Z.max m x
                             | None => x
                             end).
Proof.
  induction l as [| a l IH]; simpl.
  - reflexivity.
  - rewrite IH. destruct (sql_max l) as [m |]; f_equal; lia.
Qed.

Section Revision.
Context {RT : Runtime}.

Lemma game_exists_find db gameId :
  game_exists db gameId -> exists g, OverlayTs.getGame db gameId = Some g.
Proof.
  intros (g & Hg & Hid). unfold OverlayTs.getGame.
  destruct (find (fun g => g_id g =? gameId) (games db)) as [row |] eqn:Hfind.
  - eexists. reflexivity.
  - apply find_none with (x := g) in Hfind; [ | exact Hg ].
    rewrite Hid, String.eqb_refl in Hfind. discriminate.
Qed.

(** With a body, the revision of an existing game is maxSeq. *)
Lemma overlay_revision_maxSeq db gameId rsn_query ifNoneMatch now rev :
  game_exists db gameId ->
  overlay_revision db gameId rsn_query ifNoneMatch now = Some rev ->
  rev = OverlayTs.maxSeq (OverlayTs.getOverlayRevision db gameId).
Proof.
  intros Hg. apply game_exists_find in Hg. destruct Hg as [g Hg].
  unfold overlay_revision, OverlayTs.overlayRoute. rewrite Hg.
  destruct (truthy _ && _); simpl; [ discriminate | ].
  intros [= <-]. reflexivity.
Qed.

Lemma game_exists_serve reqs db gameId :
  game_exists db gameId -> game_exists (ServerTs.serve reqs db) gameId.
Proof.
  apply (frame_serve (fun db => game_exists db gameId)); try (intros f d H; exact H).
  intros r d (g & Hg & Hid). exists g. split; [ | exact Hid ].
  simpl. apply in_or_app. left. exact Hg.
Qed.

(** No route writes the events table. *)
Lemma events_serve reqs db : events (ServerTs.serve reqs db) = events db.
Proof.
  apply (frame_serve (fun d => events d = events db)); try (intros f d H; exact H).
  reflexivity.
Qed.

End Revision.

(** C6, as the code has it.  For an existing game the revision of the
    overlay body is the largest sequence number among the recorded events of
    the game, and 0 when it has none; the update timestamp of the board
    revision is no part of it (it enters the ETag only).  Two reads of the
    same state return the same revision; no request of the server, a board
    update included, changes it; and it does not decrease when an event with
    a sequence number that is not negative is recorded. *)
Theorem overlay_revision_is_max_seq :
  forall (RT : Runtime) (db : Db) (gameId : string) (rsn_query ifNoneMatch : option string)
         (now rev : Z),
    game_exists db gameId ->
    overlay_revision db gameId rsn_query ifNoneMatch now = Some rev ->
    (forall e, In e (events db) -> e_game_id e = gameId -> e_seq e <= rev)
    /\ ((rev = 0 /\ forall e, In e (events db) -> e_game_id e <> gameId)
        \/ exists e, In e (events db) /\ e_game_id e = gameId /\ e_seq e = rev)
    /\ (forall rsn_query' ifNoneMatch' now' rev',
          overlay_revision db gameId rsn_query' ifNoneMatch' now' = Some rev' -> rev' = rev)
    /\ (forall reqs rsn_query' ifNoneMatch' now' rev',
          overlay_revision (ServerTs.serve reqs db) gameId rsn_query' ifNoneMatch' now'
          = Some rev' ->
          rev' = rev)
    /\ (forall e db2 rsn_query' ifNoneMatch' now' rev',
          0 <= e_seq e ->
          insert_event e db = (inr tt, db2) ->
          overlay_revision db2 gameId rsn_query' ifNoneMatch' now' = Some rev' ->
          rev <= rev').
Proof.
  intros RT db gameId rsn_query ifNoneMatch now rev Hgame Hrev.
  apply overlay_revision_maxSeq in Hrev; [ | exact Hgame ].
  unfold OverlayTs.getOverlayRevision in Hrev. simpl in Hrev.
  set (seqs := map e_seq (filter (fun e => e_game_id e =? gameId) (events db))) in *.
  assert (Hseq : forall e, In e (events db) -> e_game_id e = gameId -> In (e_seq e) seqs).
  { intros e He Hid. apply in_map. apply filter_In. split; [ exact He | ].
    rewrite Hid. apply String.eqb_refl. }
  split; [ | split; [ | split; [ | split ] ] ].
  - intros e He Hid. destruct (sql_max seqs) as [m |] eqn:Hmax.
    + apply sql_max_bound in Hmax. simpl in Hrev. subst rev. apply Hmax. now apply Hseq.
    + apply sql_max_nil in Hmax. specialize (Hseq e He Hid). rewrite Hmax in Hseq.
      destruct Hseq.
  - destruct (sql_max seqs) as [m |] eqn:Hmax.
    + right. apply sql_max_bound in Hmax. destruct Hmax as [_ Hin].
      apply in_map_iff in Hin. destruct Hin as (e & He & Hin).
      apply filter_In in Hin. destruct Hin as [Hin Hid]. apply String.eqb_eq in Hid.
      exists e. simpl in Hrev. subst rev. repeat split; assumption.
    + left. split; [ exact Hrev | ]. apply sql_max_nil in Hmax.
      intros e He Hid. specialize (Hseq e He Hid). rewrite Hmax in Hseq. destruct Hseq.
  - intros rsn_query' ifNoneMatch' now' rev' Hrev'.
    apply overlay_revision_maxSeq in Hrev'; [ | exact Hgame ].
    rewrite Hrev'. symmetry. exact Hrev.
  - intros reqs rsn_query' ifNoneMatch' now' rev' Hrev'.
    apply overlay_revision_maxSeq in Hrev'; [ | apply game_exists_serve; exact Hgame ].
    unfold OverlayTs.getOverlayRevision in Hrev'. simpl in Hrev'.
    rewrite events_serve in Hrev'. fold seqs in Hrev'. rewrite Hrev'. symmetry. exact Hrev.
  - intros e db2 rsn_query' ifNoneMatch' now' rev' Hpos Hins Hrev'.
    unfold insert_event, insert in Hins.
    destruct (violated events_keys e (events db)); [ discriminate | ].
    injection Hins as <-.
    apply overlay_revision_maxSeq in Hrev'; [ | exact Hgame ].
    unfold OverlayTs.getOverlayRevision in Hrev'. simpl in Hrev'.
    rewrite filter_app, map_app in Hrev'. fold seqs in Hrev'. simpl in Hrev'.
    destruct (e_game_id e =? gameId); simpl in Hrev'.
    + rewrite sql_max_snoc in Hrev'. simpl in Hrev'.
      destruct (sql_max seqs) as [m |]; simpl in Hrev; lia.
    + rewrite app_nil_r in Hrev'. lia.
Qed.

Lemma overlay_revision_is_max_seq_witness :
  game_exists example_with_events "game_01"
  /\ @overlay_revision example_runtime example_with_events "game_01" (Some "Zezima") None day1
     = Some 7
  /\ forall reqs rsn_query' ifNoneMatch' now' rev',
       @overlay_revision example_runtime
         (@ServerTs.serve example_runtime reqs example_with_events) "game_01"
         rsn_query' ifNoneMatch' now' = Some rev' ->
       rev' = 7.
Proof.
  assert (Hgame : game_exists example_with_events "game_01").
  { eexists. split; [ left; reflexivity | vm_compute; reflexivity ]. }
  assert (Hrev : @overlay_revision example_runtime example_with_events "game_01"
                   (Some "Zezima") None day1 = Some 7)
    by (vm_compute; reflexivity).
  split; [ exact Hgame | split; [ exact Hrev | ] ].
  exact (proj1 (proj2 (proj2 (proj2
           (@overlay_revision_is_max_seq example_runtime example_with_events "game_01"
              (Some "Zezima") None day1 7 Hgame Hrev))))).
Defined.

(** The claim as stated fails after a board save: no event is on record, so
    the overlay answers revision 0, while the larger of the event count and
    the update timestamp of the board revision is that timestamp.  It also
    fails without a board revision when the sequence numbers on record are
    not 1, 2, ...: with the events 3 and 7 the overlay answers 7, not the
    count 2. *)
Lemma overlay_revision_counterexample :
  (game_exists example_saved "game_01"
   /\ @overlay_revision example_runtime example_saved "game_01" (Some "Zezima") None day1
      = Some 0
   /\ @claimed_revision example_runtime example_saved "game_01" = 1704067200000
   /\ @overlay_revision example_runtime example_saved "game_01" (Some "Zezima") None day1
      <> Some (@claimed_revision example_runtime example_saved "game_01"))
  /\ (game_exists example_events_only "game_01"
      /\ @overlay_revision example_runtime example_events_only "game_01" (Some "Zezima")
           None day1 = Some 7
      /\ @claimed_revision example_runtime example_events_only "game_01" = 2).
Proof.
  split.
  - split; [ eexists; split; [ left; reflexivity | vm_compute; reflexivity ] | ].
    split; [ vm_compute; reflexivity | ].
    split; [ vm_compute; reflexivity | ].
    vm_compute. discriminate.
  - split; [ eexists; split; [ left; reflexivity | vm_compute; reflexivity ] | ].
    split; vm_compute; reflexivity.
Qed.

(* ------------------------------------------------------------------ *)
(** ** Scenarios *)

(** A team gated on the seeded boss tile cannot clear its gate: the proof
    route accepts task tiles only. *)
Example boss_tile_proof_refused :
  @ProofTs.proofRoute example_runtime "game_01" example_auth example_body day1 "b1"
    example_on_boss
  = (inl (Thrown "Pending tile is not a proof tile"), example_on_boss).
Proof. vm_compute. reflexivity. Qed.

(** After the end of the game the roll route refuses a team that is not
    gated with the reason "ended". *)
Example roll_after_end_refused :
  RollTs.reason
    (match fst (@RollTs.rollRoute example_runtime "game_01" example_auth day3 3
                  example_proved4) with
     | inr resp => resp
     | inl _ => RollTs.NotFound
     end) = "ended".
Proof. vm_compute. reflexivity. Qed.

(** Board of 20, team on 15, die 6: the move stops on Finish, which gates
    nothing. *)
Example roll_clamps_to_finish :
  let t := example_team 15 false None in
  final_index (example_db []) "game_01" example_game_read t 6 = 20
  /\ needs_proof (example_db []) "game_01" example_game_read t 6 = false.
Proof. split; vm_compute; reflexivity. Qed.

(* ------------------------------------------------------------------ *)
(** * Further properties of the code *)

(** ** src/model/gameModel.ts *)

(** X1.  On a board whose size is not negative, clampTile lands in
    0..boardSize, leaves an index of that range as it is, is idempotent,
    and its result passes assertTileIndex. *)
Theorem clampTile_in_range :
  forall n boardSize : Z,
    0 <= boardSize ->
    0 <= GameModelTs.clampTile n boardSize <= boardSize
    /\ (0 <= n <= boardSize -> GameModelTs.clampTile n boardSize = n)
    /\ GameModelTs.clampTile (GameModelTs.clampTile n boardSize) boardSize
       = GameModelTs.clampTile n boardSize
    /\ GameModelTs.assertTileIndex (GameModelTs.clampTile n boardSize) boardSize = inr tt.
Proof.
  intros n boardSize Hsize.
  assert (Hrange : 0 <= GameModelTs.clampTile n boardSize <= boardSize).
  { unfold GameModelTs.clampTile.
    destruct (Z.ltb_spec n 0); [ lia | ]. destruct (Z.gtb_spec n boardSize); lia. }
  assert (Hfix : forall m, 0 <= m <= boardSize -> GameModelTs.clampTile m boardSize = m).
  { intros m Hm. unfold GameModelTs.clampTile.
    destruct (Z.ltb_spec m 0); [ lia | ]. destruct (Z.gtb_spec m boardSize); lia. }
  split; [ exact Hrange | split; [ apply Hfix | split; [ apply Hfix; exact Hrange | ] ] ].
  unfold GameModelTs.assertTileIndex.
  destruct (Z.ltb_spec (GameModelTs.clampTile n boardSize) 0); [ lia | ].
  destruct (Z.gtb_spec (GameModelTs.clampTile n boardSize) boardSize); [ lia | ].
  reflexivity.
Qed.

Lemma clampTile_in_range_witness :
  0 <= 20
  /\ GameModelTs.clampTile 21 20 = 20
  /\ GameModelTs.clampTile (-3) 20 = 0
  /\ GameModelTs.assertTileIndex (GameModelTs.clampTile 21 20) 20 = inr tt.
Proof.
  assert (H : 0 <= 20) by lia.
  split; [ exact H | ].
  split; [ reflexivity | split; [ reflexivity | ] ].
  exact (proj2 (proj2 (proj2 (clampTile_in_range 21 H)))).
Defined.

(** X2.  The pure helpers of the model file compute what the roll route
    does: fed the tiles that the route read, resolveRoll returns the
    position and the jump of the reply, and applyLanding returns the
    awaitingProof flag of the reply and the pendingTile that the route
    stored.  (from + roll and the board size are not negative.) *)
Theorem model_helpers_match_route :
  forall (RT : Runtime) (db db' : Db) (gameId : string) (auth : jwt_user) (now roll : Z)
         (g : RollTs.game) (from to : Z) (jump : option RollTs.jump_info)
         (needsProof : bool) (serverTime : string) (startsAt endsAt : option string),
    RollTs.rollRoute gameId auth now roll db
    = (inr (RollTs.Rolled roll from to jump needsProof serverTime startsAt endsAt), db') ->
    RollTs.getGame db gameId = Some g ->
    0 <= from + roll ->
    0 <= RollTs.boardSize g ->
    let landing := clamp (from + roll) 0 (RollTs.boardSize g) in
    GameModelTs.resolveRoll (RollTs.boardSize g) from roll
      (model_tile landing (RollTs.getTileWithDefaults db gameId landing (RollTs.boardSize g)))
    = (to, option_map model_jump jump)
    /\ GameModelTs.applyLanding to
         (model_tile to (RollTs.getTileWithDefaults db gameId to (RollTs.boardSize g)))
       = (needsProof,
          match RollTs.getTeamById db' gameId (teamId auth) with
          | Some t' => RollTs.pendingTile t'
          | None => None
          end).
Proof.
  intros RT db db' gameId auth now roll g from to jump needsProof serverTime startsAt endsAt
    Hroute Hg Hsum Hsize landing.
  destruct (rollRoute_rolled _ _ _ _ _ Hroute eq_refl)
    as (g0 & t & Hg0 & _ & _ & Ht & _ & Hres).
  clear Hroute. rewrite Hg in Hg0. injection Hg0 as <-.
  rewrite resolve_eq in Hres.
  injection Hres as Hfrom Hto Hjump Hneeds _ _ _ Hdb.
  assert (Hland : landing_index g t roll = landing).
  { unfold landing_index, landing. rewrite <- Hfrom. apply Math_clamp_high; lia. }
  rewrite Hland in Hjump.
  set (tile := RollTs.getTileWithDefaults db gameId landing (RollTs.boardSize g)) in *.
  assert (Hfinal : to = match (RollTs.kind tile =? "jump")%string, RollTs.jumpTo tile with
                        | true, Some target =>
                            Math_min (RollTs.boardSize g) (Math_max 0 target)
                        | _, _ => landing
                        end).
  { rewrite <- Hto. unfold final_index. rewrite Hland. reflexivity. }
  split.
  - unfold GameModelTs.resolveRoll. simpl.
    rewrite (clampTile_clamp _ Hsize). fold landing. fold tile.
    rewrite Hto in Hjump. rewrite <- Hjump.
    destruct (RollTs.kind tile =? "jump"); [ destruct (RollTs.jumpTo tile) as [target |] | ];
      simpl; rewrite Hfinal; try reflexivity.
    rewrite (clampTile_clamp _ Hsize), (Math_clamp_both _ Hsize). reflexivity.
  - pose proof (@getTeamById_after_update db gameId (teamId auth) t
                  (final_index db gameId g t roll) (needs_proof db gameId g t roll) Ht)
      as Hafter.
    unfold RollTs.update_team, run in Hafter. simpl in Hafter.
    rewrite <- Hdb, Hafter. simpl. rewrite <- Hneeds.
    unfold GameModelTs.applyLanding, GameModelTs.isProofTile, needs_proof. simpl.
    rewrite Hto. reflexivity.
Qed.

Lemma model_helpers_match_route_witness :
  @RollTs.rollRoute example_runtime "game_01" example_auth day1 2 example_at8
  = (inr example_jump_reply, example_after_jump)
  /\ GameModelTs.resolveRoll 20 8 2
       (model_tile (clamp (8 + 2) 0 20)
          (RollTs.getTileWithDefaults example_at8 "game_01" (clamp (8 + 2) 0 20) 20))
     = (3, Some {| GameModelTs.jump_from := 10; GameModelTs.jump_to := 3 |})
  /\ GameModelTs.applyLanding 3
       (model_tile 3 (RollTs.getTileWithDefaults example_at8 "game_01" 3 20))
     = (false, None).
Proof.
  assert (Hroute : @RollTs.rollRoute example_runtime "game_01" example_auth day1 2 example_at8
                   = (inr example_jump_reply, example_after_jump))
    by (vm_compute; reflexivity).
  assert (Hgame : RollTs.getGame example_at8 "game_01" = Some example_game_read)
    by (vm_compute; reflexivity).
  assert (Hsum : 0 <= 8 + 2) by lia.
  assert (Hsize : 0 <= RollTs.boardSize example_game_read) by (simpl; lia).
  split; [ exact Hroute | ].
  destruct (@model_helpers_match_route example_runtime example_at8 example_after_jump
              "game_01" example_auth day1 2 example_game_read 8 3
              (Some {| RollTs.jump_from := 10; RollTs.jump_to := 3 |}) false
              "2024-01-01T00:00:00.000Z" None (Some "2024-01-02T00:00:00.000Z")
              Hroute Hgame Hsum Hsize) as [Hresolve Hland].
  split; [ exact Hresolve | exact Hland ].
Defined.

(** X3.  For a team read by readTeam in any state that the server
    reaches, exactly one of the two guards of the model file passes:
    assertCanRoll when the team is not gated, assertCanSubmitProof when it
    is; and a pending tile is the position of the team. *)
Theorem model_guards_exclusive :
  forall (RT : Runtime) (reqs : list ServerTs.request) (gameId teamId : string)
         (team : GameModelTs.Team),
    GameModelTs.readTeam (ServerTs.serve reqs empty_db) gameId teamId = Some team ->
    (GameModelTs.assertCanRoll team = inr tt <->
     GameModelTs.assertCanSubmitProof team <> inr tt)
    /\ (GameModelTs.assertCanSubmitProof team = inr tt ->
        GameModelTs.pendingTile team = Some (GameModelTs.position team)).
Proof.
  intros RT reqs gameId teamId team Hread.
  unfold GameModelTs.readTeam in Hread.
  destruct (find _ (teams (ServerTs.serve reqs empty_db))) as [row |] eqn:Hfind;
    [ | discriminate ].
  apply find_some in Hfind. destruct Hfind as [Hin _].
  assert (Hpair : team_paired row).
  { assert (Hall : all_paired (ServerTs.serve reqs empty_db))
      by (apply paired_serve; constructor).
    unfold all_paired in Hall. rewrite Forall_forall in Hall. apply Hall. exact Hin. }
  destruct Hpair as [[Hto Hfrom] Hpos].
  injection Hread as <-.
  unfold GameModelTs.assertCanRoll, GameModelTs.assertCanSubmitProof. simpl.
  destruct (t_awaiting_proof row =? 1)%Z eqn:Hawait.
  - destruct (t_pending_tile row) as [p |] eqn:Hpending.
    + split.
      * split; [ discriminate | intros H; now elim H ].
      * intros _. f_equal. apply Hpos. reflexivity.
    + elim (Hto eq_refl). reflexivity.
  - split.
    + split; [ intros _; discriminate | reflexivity ].
    + destruct (t_pending_tile row); discriminate.
Qed.

Lemma model_guards_exclusive_witness :
  @GameModelTs.readTeam
    (@ServerTs.serve example_runtime (example_setup ++ [ example_roll 4 ]) empty_db)
    "game_01" "team_0a"
  = Some {| GameModelTs.team_id := "team_0a"; GameModelTs.name := "Red";
            GameModelTs.team_index := 0; GameModelTs.position := 4;
            GameModelTs.awaitingProof := true; GameModelTs.pendingTile := Some 4 |}
  /\ GameModelTs.assertCanRoll
       {| GameModelTs.team_id := "team_0a"; GameModelTs.name := "Red";
          GameModelTs.team_index := 0; GameModelTs.position := 4;
          GameModelTs.awaitingProof := true; GameModelTs.pendingTile := Some 4 |}
     <> inr tt.
Proof.
  assert (Hread : @GameModelTs.readTeam
            (@ServerTs.serve example_runtime (example_setup ++ [ example_roll 4 ]) empty_db)
            "game_01" "team_0a"
          = Some {| GameModelTs.team_id := "team_0a"; GameModelTs.name := "Red";
                    GameModelTs.team_index := 0; GameModelTs.position := 4;
                    GameModelTs.awaitingProof := true; GameModelTs.pendingTile := Some 4 |})
    by (vm_compute; reflexivity).
  split; [ exact Hread | ].
  intros Hroll.
  apply (proj1 (proj1 (@model_guards_exclusive example_runtime
                         (example_setup ++ [ example_roll 4 ]) "game_01" "team_0a" _ Hread))
           Hroll).
  reflexivity.
Defined.

(** X4.  readTile of the model file does not apply the default rule of the
    routes: with an override row it returns the stored kind and jump target,
    as the routes do, but without one it returns kind empty at every index,
    so that applyLanding never gates there, where the roll route reads a
    task at every index other than 0 and boardSize. *)
Theorem model_readTile_has_no_default_task :
  forall (db : Db) (gameId : string) (i boardSize : Z),
    (forall raw,
        RollTs.getTileRaw db gameId i = Some raw ->
        GameModelTs.kind (GameModelTs.readTile db gameId i) = RollTs.kind raw
        /\ GameModelTs.jumpTo (GameModelTs.readTile db gameId i) = RollTs.jumpTo raw
        /\ GameModelTs.title (GameModelTs.readTile db gameId i) = RollTs.title raw)
    /\ (no_override db gameId i ->
        GameModelTs.applyLanding i (GameModelTs.readTile db gameId i) = (false, None)
        /\ (i <> 0 -> i <> boardSize ->
            RollTs.kind (RollTs.getTileWithDefaults db gameId i boardSize) = "task")).
Proof.
  intros db gameId i boardSize. split.
  - intros raw. unfold RollTs.getTileRaw, GameModelTs.readTile.
    destruct (find _ (tile_tasks db)); [ | discriminate ].
    intros [= <-]. repeat split.
  - intros Hno. pose proof (no_override_find Hno) as Hfind.
    unfold GameModelTs.readTile, RollTs.getTileWithDefaults, RollTs.getTileRaw.
    rewrite Hfind. split; [ reflexivity | ].
    intros H0 Hb.
    destruct (Z.eqb_spec i 0); [ contradiction | ].
    destruct (Z.eqb_spec i boardSize); [ contradiction | ]. reflexivity.
Qed.

Lemma model_readTile_has_no_default_task_witness :
  no_override jump_board "game_1" 5
  /\ GameModelTs.applyLanding 5 (GameModelTs.readTile jump_board "game_1" 5) = (false, None)
  /\ RollTs.kind (RollTs.getTileWithDefaults jump_board "game_1" 5 20) = "task".
Proof.
  assert (Hno : no_override jump_board "game_1" 5).
  { intros r [<- | []] _. simpl. lia. }
  split; [ exact Hno | ].
  destruct (proj2 (model_readTile_has_no_default_task jump_board "game_1" 5 20) Hno)
    as [Hland Htask].
  split; [ exact Hland | ]. apply Htask; lia.
Defined.

(* ------------------------------------------------------------------ *)
(** ** src/routes/roll.ts *)

Section RollMore.
Context {RT : Runtime}.

Lemma getTeamById_team_id db gameId tid t :
  RollTs.getTeamById db gameId tid = Some t -> RollTs.team_id t = tid.
Proof.
  unfold RollTs.getTeamById.
  destruct (find _ (teams db)) as [row |] eqn:Hfind; [ | discriminate ].
  apply find_some in Hfind. destruct Hfind as [_ Hrow].
  apply andb_prop in Hrow. destruct Hrow as [_ Hid]. apply String.eqb_eq in Hid.
  intros [= <-]. exact Hid.
Qed.

(** The handler past the gate of the proof: the two time gates, then the
    roll. *)
Lemma rollRoute_time_gates db gameId auth now roll g t :
  RollTs.getGame db gameId = Some g ->
  RollTs.status g = "active" ->
  RollTs.session db gameId auth <> None ->
  RollTs.getTeamById db gameId (teamId auth) = Some t ->
  RollTs.awaitingProof t = false ->
  RollTs.rollRoute gameId auth now roll db =
    match OverlayTs.parseIso (RollTs.startsAt g), OverlayTs.parseIso (RollTs.endsAt g) with
    | Some s, e =>
        if (now <? s)%Z
        then (inr (RollTs.NotStarted (RollTs.brief t) (toISOString now) (RollTs.startsAt g)
                     (RollTs.endsAt g) (s - now)), db)
        else match e with
             | Some e =>
                 if (e <=? now)%Z
                 then (inr (RollTs.Ended (RollTs.brief t) (toISOString now)
                              (RollTs.startsAt g) (RollTs.endsAt g) (e - now)), db)
                 else RollTs.resolve gameId g t now roll db
             | None => RollTs.resolve gameId g t now roll db
             end
    | None, Some e =>
        if (e <=? now)%Z
        then (inr (RollTs.Ended (RollTs.brief t) (toISOString now)
                     (RollTs.startsAt g) (RollTs.endsAt g) (e - now)), db)
        else RollTs.resolve gameId g t now roll db
    | None, None => RollTs.resolve gameId g t now roll db
    end.
Proof.
  intros Hg Hactive Hsess Ht Hawait.
  unfold RollTs.rollRoute, bind, query, ret.
  rewrite Hg, Hactive, String.eqb_refl. cbn [negb].
  destruct (RollTs.session db gameId auth); [ | now elim Hsess ].
  rewrite Ht, Hawait.
  unfold OverlayTs.parseIso, RollTs.msUntil.
  destruct (truthy (RollTs.startsAt g));
    [ destruct (Date_parse (orElse (RollTs.startsAt g) "")) as [s |] | ];
    (destruct (truthy (RollTs.endsAt g));
     [ destruct (Date_parse (orElse (RollTs.endsAt g) "")) as [e |] | ]);
    repeat match goal with
           | |- context [(?a - now >? 0)%Z] =>
               replace (a - now >? 0)%Z with (now <? a)%Z
                 by (rewrite Z.gtb_ltb; apply eq_true_iff_eq;
                     rewrite !Z.ltb_lt; lia);
               destruct (now <? a)%Z
           | |- context [(?a - now <=? 0)%Z] =>
               replace (a - now <=? 0)%Z with (a <=? now)%Z
                 by (apply eq_true_iff_eq; rewrite !Z.leb_le; lia);
               destruct (a <=? now)%Z
           end; reflexivity.
Qed.

(** The handler always answers, and a refusal has written nothing. *)
Lemma rollRoute_returns gameId auth now roll db :
  exists resp db',
    RollTs.rollRoute gameId auth now roll db = (inr resp, db')
    /\ (RollTs.rollAllowed resp = false -> db' = db).
Proof.
  unfold RollTs.rollRoute, bind, query, ret.
  destruct (RollTs.getGame db gameId) as [g |];
    [ | do 2 eexists; split; [ reflexivity | reflexivity ] ].
  destruct (negb _); [ do 2 eexists; split; reflexivity | ].
  destruct (RollTs.session db gameId auth); [ | do 2 eexists; split; reflexivity ].
  destruct (RollTs.getTeamById db gameId (teamId auth)) as [t |];
    [ | do 2 eexists; split; reflexivity ].
  destruct (RollTs.awaitingProof t); [ do 2 eexists; split; reflexivity | ].
  repeat match goal with
         | |- context [match ?x with Some _ => _ | None => _ end] =>
             destruct x; [ do 2 eexists; split; reflexivity | ]
         end.
  rewrite resolve_eq. do 2 eexists. split; [ reflexivity | discriminate ].
Qed.

End RollMore.

(** X5.  The roll route never throws: it always answers a response; and a
    response that refuses the roll (rollAllowed false) leaves the database as
    it was. *)
Theorem roll_refusal_writes_nothing :
  forall (RT : Runtime) (db : Db) (gameId : string) (auth : jwt_user) (now roll : Z),
    exists resp db',
      RollTs.rollRoute gameId auth now roll db = (inr resp, db')
      /\ (RollTs.rollAllowed resp = false -> db' = db).
Proof.
  intros RT db gameId auth now roll. apply rollRoute_returns.
Qed.

Lemma roll_refusal_writes_nothing_witness :
  exists resp db',
    @RollTs.rollRoute example_runtime "game_01" example_auth day3 3 example_proved4
    = (inr resp, db')
    /\ (RollTs.rollAllowed resp = false -> db' = example_proved4).
Proof.
  exact (@roll_refusal_writes_nothing example_runtime example_proved4 "game_01"
           example_auth day3 3).
Defined.

(** X6.  A roll that is resolved writes the teams table only, and there
    only the row of the team that the token names: that row gets the
    position and the awaitingProof flag of the reply, and the position as
    pendingTile exactly when the flag is set; its identity, name, color,
    index and password, and every other row, stay as they are. *)
Theorem roll_writes_one_team_row :
  forall (RT : Runtime) (db db' : Db) (gameId : string) (auth : jwt_user) (now roll : Z)
         (from to : Z) (jump : option RollTs.jump_info) (needsProof : bool)
         (serverTime : string) (startsAt endsAt : option string),
    RollTs.rollRoute gameId auth now roll db
    = (inr (RollTs.Rolled roll from to jump needsProof serverTime startsAt endsAt), db') ->
    teams db' = map (fun row => if is_team gameId auth row then moved row to needsProof
                                else row) (teams db)
    /\ games db' = games db
    /\ registrations db' = registrations db
    /\ tile_tasks db' = tile_tasks db
    /\ proofs db' = proofs db
    /\ events db' = events db
    /\ game_boards db' = game_boards db.
Proof.
  intros RT db db' gameId auth now roll from to jump needsProof serverTime startsAt endsAt
    Hroute.
  destruct (rollRoute_rolled _ _ _ _ _ Hroute eq_refl)
    as (g & t & _ & _ & _ & Ht & _ & Hres).
  rewrite resolve_eq in Hres.
  injection Hres as _ Hto _ Hneeds _ _ _ Hdb.
  rewrite <- Hdb, Hto, Hneeds, (getTeamById_team_id _ _ _ Ht). simpl.
  repeat split.
Qed.

Lemma roll_writes_one_team_row_witness :
  @RollTs.rollRoute example_runtime "game_01" example_auth day1 2 example_at8
  = (inr example_jump_reply, example_after_jump)
  /\ teams example_after_jump
     = map (fun row => if is_team "game_01" example_auth row then moved row 3 false else row)
           (teams example_at8)
  /\ proofs example_after_jump = proofs example_at8.
Proof.
  assert (Hroute : @RollTs.rollRoute example_runtime "game_01" example_auth day1 2 example_at8
                   = (inr example_jump_reply, example_after_jump))
    by (vm_compute; reflexivity).
  split; [ exact Hroute | ].
  destruct (@roll_writes_one_team_row example_runtime example_at8 example_after_jump
              "game_01" example_auth day1 2 8 3
              (Some {| RollTs.jump_from := 10; RollTs.jump_to := 3 |}) false
              "2024-01-01T00:00:00.000Z" None (Some "2024-01-02T00:00:00.000Z") Hroute)
    as (Hteams & _ & _ & _ & Hproofs & _).
  split; [ exact Hteams | exact Hproofs ].
Defined.

(** X7.  The time window of the roll route, for a team that is not gated,
    in an active game, with a registered session.  A start time that parses
    and lies in the future refuses the roll as not_started with the
    remaining milliseconds; otherwise an end time that parses and is not in
    the future refuses it as ended; otherwise the roll is made.  A start or
    end time that is empty or does not parse blocks nothing.  Both refusals
    write nothing. *)
Theorem roll_time_window :
  forall (RT : Runtime) (db : Db) (gameId : string) (auth : jwt_user) (now roll : Z)
         (g : RollTs.game) (t : RollTs.team),
    RollTs.getGame db gameId = Some g ->
    RollTs.status g = "active" ->
    RollTs.session db gameId auth <> None ->
    RollTs.getTeamById db gameId (teamId auth) = Some t ->
    RollTs.awaitingProof t = false ->
    (forall s, OverlayTs.parseIso (RollTs.startsAt g) = Some s -> now < s ->
       RollTs.rollRoute gameId auth now roll db
       = (inr (RollTs.NotStarted (RollTs.brief t) (toISOString now) (RollTs.startsAt g)
                 (RollTs.endsAt g) (s - now)), db))
    /\ (forall e,
          (forall s, OverlayTs.parseIso (RollTs.startsAt g) = Some s -> s <= now) ->
          OverlayTs.parseIso (RollTs.endsAt g) = Some e -> e <= now ->
          RollTs.rollRoute gameId auth now roll db
          = (inr (RollTs.Ended (RollTs.brief t) (toISOString now) (RollTs.startsAt g)
                    (RollTs.endsAt g) (e - now)), db))
    /\ ((forall s, OverlayTs.parseIso (RollTs.startsAt g) = Some s -> s <= now) ->
        (forall e, OverlayTs.parseIso (RollTs.endsAt g) = Some e -> now < e) ->
        exists resp db',
          RollTs.rollRoute gameId auth now roll db = (inr resp, db')
          /\ RollTs.rollAllowed resp = true).
Proof.
  intros RT db gameId auth now roll g t Hg Hactive Hsess Ht Hawait.
  rewrite (@rollRoute_time_gates RT db gameId auth now roll g t Hg Hactive Hsess Ht Hawait).
  split; [ | split ].
  - intros s Hs Hlt. rewrite Hs.
    destruct (Z.ltb_spec now s); [ | lia ].
    destruct (OverlayTs.parseIso (RollTs.endsAt g)); reflexivity.
  - intros e Hstart He Hle. rewrite He.
    destruct (OverlayTs.parseIso (RollTs.startsAt g)) as [s |].
    + specialize (Hstart s eq_refl). destruct (Z.ltb_spec now s); [ lia | ].
      destruct (Z.leb_spec e now); [ reflexivity | lia ].
    + destruct (Z.leb_spec e now); [ reflexivity | lia ].
  - intros Hstart Hend.
    assert (Hresolve : exists resp db',
              RollTs.resolve gameId g t now roll db = (inr resp, db')
              /\ RollTs.rollAllowed resp = true).
    { rewrite resolve_eq. do 2 eexists. split; reflexivity. }
    destruct (OverlayTs.parseIso (RollTs.startsAt g)) as [s |];
      [ specialize (Hstart s eq_refl); destruct (Z.ltb_spec now s); [ lia | ] | ];
      (destruct (OverlayTs.parseIso (RollTs.endsAt g)) as [e |];
       [ specialize (Hend e eq_refl); destruct (Z.leb_spec e now); [ lia | ] | ]);
      exact Hresolve.
Qed.

Lemma roll_time_window_witness :
  RollTs.getGame example_proved4 "game_01" = Some example_game_read
  /\ RollTs.getTeamById example_proved4 "game_01" (teamId example_auth)
     = Some (example_team 4 false None)
  /\ @OverlayTs.parseIso example_runtime (RollTs.endsAt example_game_read)
     = Some 1704153600000
  /\ @RollTs.rollRoute example_runtime "game_01" example_auth day3 3 example_proved4
     = (inr (RollTs.Ended (RollTs.brief (example_team 4 false None))
               (@toISOString example_runtime day3) (RollTs.startsAt example_game_read)
               (RollTs.endsAt example_game_read) (1704153600000 - day3)),
        example_proved4).
Proof.
  assert (Hg : RollTs.getGame example_proved4 "game_01" = Some example_game_read)
    by (vm_compute; reflexivity).
  assert (Ht : RollTs.getTeamById example_proved4 "game_01" (teamId example_auth)
               = Some (example_team 4 false None))
    by (vm_compute; reflexivity).
  assert (He : @OverlayTs.parseIso example_runtime (RollTs.endsAt example_game_read)
               = Some 1704153600000)
    by (vm_compute; reflexivity).
  assert (Hsess : RollTs.session example_proved4 "game_01" example_auth <> None)
    by (vm_compute; discriminate).
  split; [ exact Hg | split; [ exact Ht | split; [ exact He | ] ] ].
  refine (proj1 (proj2 (@roll_time_window example_runtime example_proved4 "game_01"
                          example_auth day3 3 example_game_read
                          (example_team 4 false None) Hg eq_refl Hsess Ht eq_refl))
            1704153600000 _ He _).
  - intros s Hs. vm_compute in Hs. discriminate Hs.
  - vm_compute. discriminate.
Defined.

(* ------------------------------------------------------------------ *)
(** ** What each writing route does to the database *)

Section Effects.
Context {RT : Runtime}.

Lemma insert_effect A keys (table : Db -> list A) set (r : A) db :
  snd (insert keys table set r db) = db
  \/ (violated keys r (table db) = None
      /\ insert keys table set r db = (inr tt, set (fun t => t ++ [r]) db)).
Proof.
  unfold insert. destruct (violated keys r (table db)); [ left | right; split ]; reflexivity.
Qed.

(** A roll either writes nothing or moves the team of the token. *)
Lemma rollRoute_effect gameId auth now roll db :
  snd (RollTs.rollRoute gameId auth now roll db) = db
  \/ exists g t,
       RollTs.getGame db gameId = Some g
       /\ RollTs.getTeamById db gameId (teamId auth) = Some t
       /\ RollTs.awaitingProof t = false
       /\ snd (RollTs.rollRoute gameId auth now roll db)
          = set_teams (map (fun row =>
              if is_team gameId auth row
              then moved row (final_index db gameId g t roll) (needs_proof db gameId g t roll)
              else row)) db.
Proof.
  destruct (RollTs.rollRoute gameId auth now roll db) as [[e | resp] db'] eqn:Hroute.
  - exfalso. destruct (rollRoute_returns gameId auth now roll db) as (r & d & H & _).
    rewrite Hroute in H. discriminate.
  - destruct (RollTs.rollAllowed resp) eqn:Hallowed.
    + right. destruct (rollRoute_rolled _ _ _ _ _ Hroute Hallowed)
        as (g & t & Hg & _ & _ & Ht & Hawait & Hres).
      exists g, t. rewrite resolve_eq in Hres. injection Hres as _ <-.
      repeat split; try assumption. simpl.
      rewrite (getTeamById_team_id _ _ _ Ht). reflexivity.
    + left. destruct (rollRoute_returns gameId auth now roll db) as (r & d & H & Hsame).
      rewrite Hroute in H. injection H as <- <-. simpl. apply Hsame. exact Hallowed.
Qed.

(** A proof submission either writes nothing or appends its record and
    releases the team of the token. *)
Lemma proofRoute_effect gameId auth b now hex db :
  snd (ProofTs.proofRoute gameId auth b now hex db) = db
  \/ exists proofUrl g t tileIndex,
       proof_expected db gameId auth b proofUrl g t tileIndex
       /\ violated proofs_keys (proof_record gameId auth t tileIndex proofUrl now hex)
            (proofs db) = None
       /\ ProofTs.proofRoute gameId auth b now hex db
          = (inr tt,
             set_teams (map (fun row => if is_team gameId auth row then released row
                                        else row))
               (set_proofs (fun ps =>
                  ps ++ [proof_record gameId auth t tileIndex proofUrl now hex]) db)).
Proof.
  destruct (ProofTs.proofRoute gameId auth b now hex db) as [[e | u] db'] eqn:Hrun.
  - left. simpl. eapply proofRoute_thrown. exact Hrun.
  - right. pose proof Hrun as Hexp. apply proofRoute_returned in Hexp.
    destruct Hexp as (proofUrl & g & t & tileIndex & Hexp).
    exists proofUrl, g, t, tileIndex. split; [ exact Hexp | ].
    rewrite (proofRoute_expected now hex Hexp) in Hrun.
    destruct (violated proofs_keys _ (proofs db)); [ discriminate | ].
    split; [ reflexivity | ]. rewrite <- Hrun. f_equal.
    unfold ProofTs.unlock_rolling, run, is_team, released. simpl.
    assert (Hid : ProofTs.team_id t = teamId auth).
    { eapply getTeamById_same_id. apply Hexp. }
    rewrite Hid. reflexivity.
Qed.

(** Team creation either writes nothing or appends the row of the new team,
    in a game that exists and has no team of that name, with the next index
    of the game. *)
Lemma createTeam_effect gameId body teamHex db :
  snd (GamesTs.createTeam gameId body teamHex db) = db
  \/ (GamesTs.getGame db gameId <> None
      /\ existsb (fun t => (t_game_id t =? gameId)
                           && (t_name t =? GamesTs.normName (GamesTs.ct_name body)))
                 (teams db) = false
      /\ violated teams_keys
           (new_team_row gameId body teamHex (GamesTs.nextTeamIndex db gameId)) (teams db)
         = None
      /\ snd (GamesTs.createTeam gameId body teamHex db)
         = set_teams (fun t =>
             t ++ [new_team_row gameId body teamHex (GamesTs.nextTeamIndex db gameId)]) db).
Proof.
  unfold GamesTs.createTeam, bind, query, ret, throw.
  destruct (negb _); [ now left | ].
  destruct (GamesTs.getGame db gameId) as [g |] eqn:Hg; [ | now left ].
  destruct (existsb _ (teams db)) eqn:Hname; [ now left | ].
  unfold insert_team, insert.
  fold (new_team_row gameId body teamHex (GamesTs.nextTeamIndex db gameId)).
  destruct (violated teams_keys _ (teams db)) eqn:Hkeys; [ now left | ].
  right. repeat split; try assumption. discriminate.
Qed.

(** A registration either writes nothing or appends its row, for a team of
    the game whose password matched and a player name that the game did not
    have; the token carries the session of that row. *)
Lemma register_effect gameId body now sessHex regHex db :
  snd (GamesTs.register gameId body now sessHex regHex db) = db
  \/ exists row resp,
       In row (teams db)
       /\ t_game_id row = gameId
       /\ t_password_hash row = sha256 (GamesTs.rb_teamPassword body)
       /\ existsb (fun r => (r_game_id r =? gameId) && (r_rsn r =? GamesTs.rb_rsn body))
                  (registrations db) = false
       /\ violated registrations_keys
            (new_registration_row gameId body now sessHex regHex (t_id row))
            (registrations db) = None
       /\ GamesTs.token resp
          = {| gameId := gameId; teamId := t_id row; rsn := GamesTs.rb_rsn body;
               jti := rid "sess" sessHex |}
       /\ GamesTs.register gameId body now sessHex regHex db
          = (inr resp,
             set_registrations (fun t =>
               t ++ [new_registration_row gameId body now sessHex regHex (t_id row)]) db).
Proof.
  unfold GamesTs.register, bind, query, ret, throw.
  destruct (negb _); [ now left | ].
  destruct (GamesTs.getGame db gameId) as [g |]; [ | now left ].
  destruct (negb _); [ now left | ].
  match goal with
  | |- context [match ?x with Some _ => _ | None => _ end] => destruct x as [t |] eqn:Hteam
  end; [ | now left ].
  destruct (String.eqb_spec (GamesTs.passwordHash t) (sha256 (GamesTs.rb_teamPassword body)))
    as [Hpw | _]; simpl; [ | now left ].
  destruct (existsb _ (registrations db)) eqn:Hrsn; [ now left | ].
  unfold insert_registration, insert.
  fold (new_registration_row gameId body now sessHex regHex (GamesTs.team_id t)).
  destruct (violated registrations_keys _ (registrations db)) eqn:Hkeys; [ now left | ].
  right.
  assert (Hrow : exists row, In row (teams db) /\ t_game_id row = gameId
                             /\ t = GamesTs.team_of_row row).
  { unfold GamesTs.getTeamById, GamesTs.getTeamByName in Hteam.
    destruct (truthy (GamesTs.rb_teamId body));
      (destruct (find _ (teams db)) as [row |] eqn:Hfind; [ | discriminate ];
       apply find_some in Hfind; destruct Hfind as [Hin Hrow];
       apply andb_prop in Hrow; destruct Hrow as [Hgame _];
       apply String.eqb_eq in Hgame;
       injection Hteam as <-; exists row; repeat split; assumption). }
  destruct Hrow as (row & Hin & Hgame & ->). simpl in *.
  exists row. eexists. repeat split; try eassumption; reflexivity.
Qed.

(** The same, with the thrown case told apart. *)
Lemma register_cases gameId body now sessHex regHex db :
  (exists e, GamesTs.register gameId body now sessHex regHex db = (inl e, db))
  \/ exists row resp,
       In row (teams db)
       /\ t_game_id row = gameId
       /\ t_password_hash row = sha256 (GamesTs.rb_teamPassword body)
       /\ existsb (fun r => (r_game_id r =? gameId) && (r_rsn r =? GamesTs.rb_rsn body))
                  (registrations db) = false
       /\ violated registrations_keys
            (new_registration_row gameId body now sessHex regHex (t_id row))
            (registrations db) = None
       /\ GamesTs.token resp
          = {| gameId := gameId; teamId := t_id row; rsn := GamesTs.rb_rsn body;
               jti := rid "sess" sessHex |}
       /\ GamesTs.register gameId body now sessHex regHex db
          = (inr resp,
             set_registrations (fun t =>
               t ++ [new_registration_row gameId body now sessHex regHex (t_id row)]) db).
Proof.
  unfold GamesTs.register, bind, query, ret, throw.
  destruct (negb _); [ left; eexists; reflexivity | ].
  destruct (GamesTs.getGame db gameId) as [g |]; [ | left; eexists; reflexivity ].
  destruct (negb _); [ left; eexists; reflexivity | ].
  match goal with
  | |- context [match ?x with Some _ => _ | None => _ end] => destruct x as [t |] eqn:Hteam
  end; [ | left; eexists; reflexivity ].
  destruct (String.eqb_spec (GamesTs.passwordHash t) (sha256 (GamesTs.rb_teamPassword body)))
    as [Hpw | _]; simpl; [ | left; eexists; reflexivity ].
  destruct (existsb _ (registrations db)) eqn:Hrsn; [ left; eexists; reflexivity | ].
  unfold insert_registration, insert.
  fold (new_registration_row gameId body now sessHex regHex (GamesTs.team_id t)).
  destruct (violated registrations_keys _ (registrations db)) eqn:Hkeys; [ left; eexists; reflexivity | ].
  right.
  assert (Hrow : exists row, In row (teams db) /\ t_game_id row = gameId
                             /\ t = GamesTs.team_of_row row).
  { unfold GamesTs.getTeamById, GamesTs.getTeamByName in Hteam.
    destruct (truthy (GamesTs.rb_teamId body));
      (destruct (find _ (teams db)) as [row |] eqn:Hfind; [ | discriminate ];
       apply find_some in Hfind; destruct Hfind as [Hin Hrow];
       apply andb_prop in Hrow; destruct Hrow as [Hgame _];
       apply String.eqb_eq in Hgame;
       injection Hteam as <-; exists row; repeat split; assumption). }
  destruct Hrow as (row & Hin & Hgame & ->). simpl in *.
  exists row. eexists. repeat split; try eassumption; reflexivity.
Qed.

End Effects.

Section TileEffects.
Context {RT : Runtime}.

Lemma tiles_apart_refl db : tiles_apart db db.
Proof. repeat split. Qed.

Lemma tiles_apart_trans db1 db2 db3 :
  tiles_apart db1 db2 -> tiles_apart db2 db3 -> tiles_apart db1 db3.
Proof.
  unfold tiles_apart. intros (A1 & A2 & A3 & A4 & A5 & A6) (B1 & B2 & B3 & B4 & B5 & B6).
  repeat split; congruence.
Qed.

Lemma violated_tile_key r t :
  violated tile_tasks_keys r t = None -> ~ In (tile_key r) (map tile_key t).
Proof.
  simpl. destruct (existsb (fun b => tt_id r =? tt_id b) t); [ discriminate | ].
  destruct (existsb _ t) eqn:Hdup; [ discriminate | ].
  intros _ Hin. apply in_map_iff in Hin. destruct Hin as (x & Hkey & Hx).
  assert (Htrue : existsb (fun b => (tt_game_id r =? tt_game_id b)
                                    && (tt_tile_index r =? tt_tile_index b)%Z) t = true).
  { apply existsb_exists. exists x. split; [ exact Hx | ].
    unfold tile_key in Hkey. injection Hkey as -> ->.
    rewrite String.eqb_refl, Z.eqb_refl. reflexivity. }
  rewrite Htrue in Hdup. discriminate.
Qed.

Lemma NoDup_snoc A (l : list A) (x : A) : NoDup l -> ~ In x l -> NoDup (l ++ [x]).
Proof.
  intros Hl Hx. apply NoDup_app; [ exact Hl | constructor; [ intros [] | constructor ] | ].
  intros y Hy [<- | []]. exact (Hx Hy).
Qed.

(** The seeding of POST /games appends rows of the game that lie on the
    board, have one of the four kinds, and keep the key of tile_tasks
    unique; it stops at the first INSERT that fails. *)
Lemma seed_tiles_effect gameId boardSize hex ts : forall i db,
  exists extra,
    tile_tasks (snd (GamesTs.seed_tiles gameId boardSize hex i ts db))
    = tile_tasks db ++ extra
    /\ tiles_apart db (snd (GamesTs.seed_tiles gameId boardSize hex i ts db))
    /\ Forall (on_board gameId boardSize) extra
    /\ (NoDup (map tile_key (tile_tasks db)) ->
        NoDup (map tile_key (tile_tasks db ++ extra))).
Proof.
  induction ts as [| tile ts IH]; intros i db; simpl.
  - exists []. rewrite app_nil_r. repeat split; auto.
  - unfold bind.
    destruct ((GamesTs.tileIndex tile <? 0)%Z || (GamesTs.tileIndex tile >? boardSize)%Z)
      eqn:Hout.
    + apply IH.
    + unfold insert_tile_task, insert.
      destruct (violated tile_tasks_keys _ (tile_tasks db)) eqn:Hkeys.
      * exists []. rewrite app_nil_r. simpl. repeat split; auto.
      * match goal with
        | |- context [set_tile_tasks ?f db] =>
            destruct (IH (S i) (set_tile_tasks f db)) as (extra & Htiles & Hapart & Hon & Huniq)
        end.
        simpl in Htiles, Huniq.
        eexists (_ :: extra). rewrite Htiles, <- app_assoc. simpl.
        split; [ reflexivity | ]. split; [ | split ].
        -- destruct Hapart as (A1 & A2 & A3 & A4 & A5 & A6). repeat split; assumption.
        -- constructor; [ | exact Hon ].
           apply orb_false_elim in Hout. destruct Hout as [Hlo Hhi].
           apply Z.ltb_ge in Hlo. rewrite Z.gtb_ltb in Hhi. apply Z.ltb_ge in Hhi.
           repeat split; simpl; try lia.
           unfold stored_kinds. destruct (GamesTs.kind tile); simpl; tauto.
        -- intros Hnd. rewrite <- app_assoc in Huniq. apply Huniq.
           rewrite map_app. apply NoDup_snoc; [ exact Hnd | ].
           apply violated_tile_key. exact Hkeys.
Qed.

(** POST /games either writes nothing or appends one game row, with a fresh
    identifier, active, turn pointer 0 and the board size of the body, and
    after it the seeded tiles. *)
Lemma createGame_effect body now gameHex joinCode tileHex db :
  snd (GamesTs.createGame body now gameHex joinCode tileHex db) = db
  \/ exists row extra,
       fresh_game row
       /\ g_id row = rid "game" gameHex
       /\ g_board_size row = GamesTs.boardSize body
       /\ violated games_keys row (games db) = None
       /\ games (snd (GamesTs.createGame body now gameHex joinCode tileHex db))
          = games db ++ [row]
       /\ tile_tasks (snd (GamesTs.createGame body now gameHex joinCode tileHex db))
          = tile_tasks db ++ extra
       /\ Forall (on_board (rid "game" gameHex) (GamesTs.boardSize body)) extra
       /\ (NoDup (map tile_key (tile_tasks db)) ->
           NoDup (map tile_key (tile_tasks db ++ extra)))
       /\ teams (snd (GamesTs.createGame body now gameHex joinCode tileHex db)) = teams db
       /\ registrations (snd (GamesTs.createGame body now gameHex joinCode tileHex db))
          = registrations db
       /\ proofs (snd (GamesTs.createGame body now gameHex joinCode tileHex db)) = proofs db
       /\ events (snd (GamesTs.createGame body now gameHex joinCode tileHex db)) = events db
       /\ game_boards (snd (GamesTs.createGame body now gameHex joinCode tileHex db))
          = game_boards db.
Proof.
  unfold GamesTs.createGame, bind, ret, throw.
  destruct (GamesTs.CreateGameBody_ok body) eqn:Hok; cbn [negb]; [ | now left ].
  destruct (GamesTs.parseIsoOrThrow "startsAt" (GamesTs.startsAt body)) as [e | startsAtIso];
    cbn [GamesTs.lift]; unfold throw, ret; [ now left | ].
  destruct (GamesTs.parseIsoOrThrow "endsAt" (GamesTs.endsAt body)) as [e | endsAtIso];
    cbn [GamesTs.lift]; unfold throw, ret; [ now left | ].
  match goal with
  | |- context [if ?c then _ else _] => destruct c
  end; [ now left | ].
  unfold insert_game, insert.
  fold (new_game_row body now gameHex joinCode startsAtIso endsAtIso).
  destruct (violated games_keys _ (games db)) eqn:Hkeys; [ now left | ].
  right. exists (new_game_row body now gameHex joinCode startsAtIso endsAtIso).
  match goal with
  | |- context [GamesTs.seed_tiles ?g ?b ?h ?i ?ts ?d] =>
      destruct (seed_tiles_effect g b h ts i d)
        as (extra & Htiles & (A1 & A2 & A3 & A4 & A5 & A6) & Hon & Huniq);
      set (seeded := GamesTs.seed_tiles g b h i ts d) in *
  end.
  assert (Hsnd : forall (resp : GamesTs.create_game_response),
            snd (let (s, db') := seeded in
                 match s with
                 | inl e => (inl e, db')
                 | inr _ => (inr resp, db')
                 end) = snd seeded).
  { intros resp. destruct seeded as [[e | u] db']; reflexivity. }
  rewrite Hsnd. exists extra.
  split.
  { unfold fresh_game. simpl.
    unfold GamesTs.CreateGameBody_ok in Hok.
    repeat (apply andb_prop in Hok; destruct Hok as [Hok ?]).
    repeat split; try reflexivity; lia. }
  repeat split; assumption.
Qed.

End TileEffects.

(* ------------------------------------------------------------------ *)
(** ** Invariants of the states that the server reaches *)

Section Reach.
Context {RT : Runtime}.

Lemma serve_keeps (P : Db -> Prop) (ok : ServerTs.request -> bool) :
  (forall req db, ok req = true -> P db -> P (ServerTs.handle req db)) ->
  forall reqs db, forallb ok reqs = true -> P db -> P (ServerTs.serve reqs db).
Proof.
  intros Hstep. induction reqs as [| req reqs IH]; intros db Hok H; simpl.
  - exact H.
  - simpl in Hok. apply andb_prop in Hok. destruct Hok as [Hreq Hreqs].
    apply IH; [ exact Hreqs | ]. apply Hstep; assumption.
Qed.

Lemma forallb_all_true A (l : list A) : forallb (fun _ => true) l = true.
Proof. induction l; simpl; auto. Qed.

Lemma violated_games_key row t :
  violated games_keys row t = None -> ~ In (g_id row) (map g_id t).
Proof.
  simpl. destruct (existsb (fun b => g_id row =? g_id b) t) eqn:Hdup; [ discriminate | ].
  intros _ Hin. apply in_map_iff in Hin. destruct Hin as (x & Hid & Hx).
  assert (Htrue : existsb (fun b => g_id row =? g_id b) t = true).
  { apply existsb_exists. exists x. split; [ exact Hx | ]. rewrite Hid.
    apply String.eqb_refl. }
  rewrite Htrue in Hdup. discriminate.
Qed.

Lemma games_ok_handle req db : games_ok db -> games_ok (ServerTs.handle req db).
Proof.
  destruct req; simpl.
  - intros [Hfresh Hnodup].
    destruct (createGame_effect body now gameHex joinCode tileHex db)
      as [-> | (row & extra & Hrow & _ & _ & Hkeys & Hgames & _)];
      [ split; assumption | ].
    unfold games_ok. rewrite Hgames. split.
    + apply Forall_app. split; [ exact Hfresh | constructor; [ exact Hrow | constructor ] ].
    + rewrite map_app. apply NoDup_snoc; [ exact Hnodup | ].
      apply violated_games_key. exact Hkeys.
  - apply (frame_createTeam games_ok). intros f d H. exact H.
  - apply (frame_register games_ok). intros r d H. exact H.
  - apply (frame_rollRoute games_ok). intros f d H. exact H.
  - apply (frame_proofRoute games_ok); intros f d H; exact H.
  - apply (frame_putBoard games_ok); intros f d H; exact H.
  - apply (frame_setLock games_ok). intros f d H. exact H.
  - apply (frame_setLock games_ok). intros f d H. exact H.
Qed.

Lemma games_ok_serve reqs : games_ok (ServerTs.serve reqs empty_db).
Proof.
  apply (serve_keeps games_ok (fun _ => true)).
  - intros req db _. apply games_ok_handle.
  - apply forallb_all_true.
  - split; constructor.
Qed.

Lemma game_of_grows db gid row g :
  game_of db gid = Some g ->
  find (fun x => g_id x =? gid) (games db ++ [row]) = Some g.
Proof.
  unfold game_of. induction (games db) as [| a l IH]; simpl; [ discriminate | ].
  destruct (g_id a =? gid); [ auto | exact IH ].
Qed.

Lemma game_of_fresh l gid row :
  ~ In gid (map g_id l) -> g_id row = gid ->
  find (fun x => g_id x =? gid) (l ++ [row]) = Some row.
Proof.
  intros Hfresh Hid. induction l as [| a l IH]; simpl.
  - rewrite Hid, String.eqb_refl. reflexivity.
  - destruct (String.eqb_spec (g_id a) gid) as [E | _].
    + elim Hfresh. left. exact E.
    + apply IH. intros H. apply Hfresh. right. exact H.
Qed.

Lemma final_index_range db gameId g t roll :
  0 <= RollTs.boardSize g -> 0 <= RollTs.position t + roll ->
  0 <= final_index db gameId g t roll <= RollTs.boardSize g.
Proof.
  intros Hsize Hsum. unfold final_index, landing_index, Math_min, Math_max.
  destruct (RollTs.kind _ =? "jump"); [ destruct (RollTs.jumpTo _) | ]; lia.
Qed.

Lemma teams_on_board_handle req db :
  die_ok req = true -> teams_on_board db -> teams_on_board (ServerTs.handle req db).
Proof.
  intros Hdie [Hgames Hteams].
  split; [ apply games_ok_handle; exact Hgames | ].
  destruct req as [ body now gameHex joinCode tileHex | gid body teamHex
                  | gid body now sessHex regHex | gid auth now roll | gid auth body now hex
                  | gid hostPassword body now tileHex | gid hostPassword now
                  | gid hostPassword now ]; simpl.
  - destruct (createGame_effect body now gameHex joinCode tileHex db)
      as [-> | (row & extra & _ & _ & _ & _ & Hg & _ & _ & _ & Ht & _)];
      [ exact Hteams | ].
    rewrite Ht. eapply Forall_impl; [ | exact Hteams ].
    intros t (g & Hfound & Hpos). exists g. split; [ | exact Hpos ].
    unfold game_of. rewrite Hg. apply game_of_grows. exact Hfound.
  - destruct (createTeam_effect gid body teamHex db)
      as [-> | (Hgame & _ & _ & ->)]; [ exact Hteams | ].
    simpl. apply Forall_app. split; [ exact Hteams | ].
    constructor; [ | constructor ].
    unfold GamesTs.getGame in Hgame.
    destruct (find (fun g => g_id g =? gid) (games db)) as [g |] eqn:Hfind;
      [ | now elim Hgame ].
    exists g. split; [ exact Hfind | ]. simpl.
    destruct Hgames as [Hfresh _]. rewrite Forall_forall in Hfresh.
    destruct (Hfresh g) as (_ & _ & Hsize); [ apply find_some in Hfind; apply Hfind | lia ].
  - apply (frame_register (fun d => Forall (team_on_board d) (teams d)));
      [ intros r d H; exact H | exact Hteams ].
  - destruct (rollRoute_effect gid auth now roll db)
      as [-> | (g & t & Hg & Ht & _ & ->)]; [ exact Hteams | ].
    simpl. apply Forall_map. rewrite Forall_forall in Hteams |- *.
    intros row Hrow.
    destruct (is_team gid auth row) eqn:Hteam; [ | exact (Hteams row Hrow) ].
    unfold RollTs.getGame in Hg.
    destruct (find (fun g => g_id g =? gid) (games db)) as [grow |] eqn:Hfind;
      [ | discriminate ].
    injection Hg as <-.
    unfold is_team in Hteam. apply andb_prop in Hteam. destruct Hteam as [_ Hgid].
    apply String.eqb_eq in Hgid.
    exists grow. split; [ unfold game_of; simpl; rewrite Hgid; exact Hfind | ].
    simpl.
    assert (Hsize : 0 <= g_board_size grow).
    { destruct Hgames as [Hfresh _]. rewrite Forall_forall in Hfresh.
      destruct (Hfresh grow) as (_ & _ & Hs); [ apply find_some in Hfind; apply Hfind | lia ]. }
    assert (Hfrom : 0 <= RollTs.position t).
    { unfold RollTs.getTeamById in Ht.
      destruct (find _ (teams db)) as [trow |] eqn:Hfindt; [ | discriminate ].
      injection Ht as <-. simpl. apply find_some in Hfindt. destruct Hfindt as [Hin _].
      destruct (Hteams trow Hin) as (g0 & _ & Hp). lia. }
    simpl in Hdie. apply andb_prop in Hdie. destruct Hdie as [Hlo Hhi].
    apply Z.leb_le in Hlo, Hhi.
    match goal with
    | |- 0 <= final_index db gid ?g t roll <= _ =>
        exact (@final_index_range db gid g t roll Hsize ltac:(lia))
    end.
  - destruct (proofRoute_effect gid auth body now hex db)
      as [-> | (proofUrl & g & t & tileIndex & _ & _ & ->)]; [ exact Hteams | ].
    simpl. apply Forall_map. eapply Forall_impl; [ | exact Hteams ].
    intros row Hrow. destruct (is_team gid auth row); exact Hrow.
  - apply (frame_putBoard (fun d => Forall (team_on_board d) (teams d)));
      [ intros f d H; exact H | intros f d H; exact H | exact Hteams ].
  - apply (frame_setLock (fun d => Forall (team_on_board d) (teams d)));
      [ intros f d H; exact H | exact Hteams ].
  - apply (frame_setLock (fun d => Forall (team_on_board d) (teams d)));
      [ intros f d H; exact H | exact Hteams ].
Qed.

End Reach.

Section ReachTeams.
Context {RT : Runtime}.

Lemma sql_max_count n :
  orElse (sql_max (map Z.of_nat (seq 0 n))) (-1) = Z.of_nat n - 1.
Proof.
  induction n as [| n IH].
  - reflexivity.
  - rewrite seq_S, map_app.
    change (map Z.of_nat [(0 + n)%nat]) with [Z.of_nat n].
    rewrite sql_max_snoc.
    destruct (sql_max (map Z.of_nat (seq 0 n))) as [m |]; cbn [orElse] in *; lia.
Qed.

Lemma filter_snoc A (p : A -> bool) l x :
  filter p (l ++ [x]) = filter p l ++ (if p x then [x] else []).
Proof. rewrite filter_app. reflexivity. Qed.

(** The UPDATE of a roll or of a proof keeps the identity of every row. *)
Lemma updated_rows_identity (c : team_row -> bool) (f : team_row -> team_row) l :
  (forall row, t_id (f row) = t_id row /\ t_game_id (f row) = t_game_id row
               /\ t_name (f row) = t_name row /\ t_team_index (f row) = t_team_index row) ->
  map t_id (map (fun row => if c row then f row else row) l) = map t_id l
  /\ map (fun t => (t_game_id t, t_name t)) (map (fun row => if c row then f row else row) l)
     = map (fun t => (t_game_id t, t_name t)) l
  /\ forall gameId,
       map t_team_index (filter (fun t => t_game_id t =? gameId)
                           (map (fun row => if c row then f row else row) l))
       = map t_team_index (filter (fun t => t_game_id t =? gameId) l)
       /\ List.length (filter (fun t => t_game_id t =? gameId)
                         (map (fun row => if c row then f row else row) l))
          = List.length (filter (fun t => t_game_id t =? gameId) l).
Proof.
  intros Hf.
  assert (Hrow : forall row,
            t_id (if c row then f row else row) = t_id row
            /\ t_game_id (if c row then f row else row) = t_game_id row
            /\ t_name (if c row then f row else row) = t_name row
            /\ t_team_index (if c row then f row else row) = t_team_index row).
  { intros row. destruct (c row); [ apply Hf | repeat split ]. }
  split; [ | split ].
  - rewrite map_map. apply map_ext. intros row. apply Hrow.
  - rewrite map_map. apply map_ext. intros row.
    destruct (Hrow row) as (_ & -> & -> & _). reflexivity.
  - intros gameId. induction l as [| a l [IH1 IH2]]; simpl; [ split; reflexivity | ].
    destruct (Hrow a) as (_ & Hg & _ & Hi). rewrite Hg.
    destruct (t_game_id a =? gameId); simpl; [ rewrite Hi, IH1, IH2 | ]; split; auto.
Qed.

Lemma teams_ok_updated (c : team_row -> bool) (f : team_row -> team_row) db :
  (forall row, t_id (f row) = t_id row /\ t_game_id (f row) = t_game_id row
               /\ t_name (f row) = t_name row /\ t_team_index (f row) = t_team_index row) ->
  teams_ok db ->
  teams_ok (set_teams (map (fun row => if c row then f row else row)) db).
Proof.
  intros Hf (Hid & Hname & Hindex).
  destruct (updated_rows_identity c f (teams db) Hf) as (Eid & Ename & Eidx).
  unfold teams_ok, teams_of. simpl. rewrite Eid, Ename.
  split; [ exact Hid | split; [ exact Hname | ] ].
  intros gameId. destruct (Eidx gameId) as [-> ->]. apply Hindex.
Qed.

Lemma violated_teams_key row t :
  violated teams_keys row t = None -> ~ In (t_id row) (map t_id t).
Proof.
  simpl. destruct (existsb (fun b => t_id row =? t_id b) t) eqn:Hdup; [ discriminate | ].
  intros _ Hin. apply in_map_iff in Hin. destruct Hin as (x & Hid & Hx).
  assert (Htrue : existsb (fun b => t_id row =? t_id b) t = true).
  { apply existsb_exists. exists x. split; [ exact Hx | ]. rewrite Hid.
    apply String.eqb_refl. }
  rewrite Htrue in Hdup. discriminate.
Qed.

Lemma teams_ok_handle req db : teams_ok db -> teams_ok (ServerTs.handle req db).
Proof.
  destruct req as [ body now gameHex joinCode tileHex | gid body teamHex
                  | gid body now sessHex regHex | gid auth now roll | gid auth body now hex
                  | gid hostPassword body now tileHex | gid hostPassword now
                  | gid hostPassword now ]; simpl.
  - apply (frame_createGame teams_ok); intros f d H; exact H.
  - intros (Hid & Hname & Hindex).
    destruct (createTeam_effect gid body teamHex db)
      as [-> | (_ & Hfree & Hkeys & ->)]; [ repeat split; assumption | ].
    unfold teams_ok, teams_of. cbn [teams set_teams]. rewrite !map_app. cbn [map].
    split; [ | split ].
    + apply NoDup_snoc; [ exact Hid | ]. apply violated_teams_key. exact Hkeys.
    + apply NoDup_snoc; [ exact Hname | ].
      intros Hin. apply in_map_iff in Hin. destruct Hin as (x & Hx & Hin).
      cbn [new_team_row t_game_id t_name] in Hx. injection Hx as Hg Hn.
      assert (Htrue : existsb (fun t => (t_game_id t =? gid)
                                 && (t_name t =? GamesTs.normName (GamesTs.ct_name body)))
                        (teams db) = true).
      { apply existsb_exists. exists x. split; [ exact Hin | ].
        rewrite Hg, Hn, !String.eqb_refl. reflexivity. }
      rewrite Htrue in Hfree. discriminate.
    + intros gameId. rewrite filter_snoc. cbn [new_team_row t_game_id].
      destruct (String.eqb_spec gid gameId) as [-> | _].
      * rewrite map_app, length_app. cbn [map List.length t_team_index].
        rewrite Nat.add_1_r, seq_S, map_app. cbn [map plus].
        f_equal; [ apply Hindex | ].
        unfold GamesTs.nextTeamIndex. fold (teams_of db gameId).
        rewrite Hindex, sql_max_count. cbn [new_team_row t_team_index]. f_equal. lia.
      * rewrite app_nil_r. apply Hindex.
  - apply (frame_register teams_ok). intros r d H. exact H.
  - intros H. destruct (rollRoute_effect gid auth now roll db)
      as [-> | (g & t & _ & _ & _ & ->)]; [ exact H | ].
    apply teams_ok_updated; [ intros row; repeat split | exact H ].
  - intros H. destruct (proofRoute_effect gid auth body now hex db)
      as [-> | (proofUrl & g & t & tileIndex & _ & _ & ->)]; [ exact H | ].
    apply (@teams_ok_updated (is_team gid auth) released
             (set_proofs (fun ps => ps ++ [proof_record gid auth t tileIndex proofUrl now hex])
                db));
      [ intros row; repeat split | exact H ].
  - apply (frame_putBoard teams_ok); intros f d H; exact H.
  - apply (frame_setLock teams_ok). intros f d H. exact H.
  - apply (frame_setLock teams_ok). intros f d H. exact H.
Qed.

Lemma teams_ok_serve reqs : teams_ok (ServerTs.serve reqs empty_db).
Proof.
  apply (serve_keeps teams_ok (fun _ => true)).
  - intros req db _. apply teams_ok_handle.
  - apply forallb_all_true.
  - repeat split; try constructor.
Qed.

End ReachTeams.

Section ReachRecords.
Context {RT : Runtime}.

Lemma violated_proof_key row t :
  violated proofs_keys row t = None -> ~ In (proof_key row) (map proof_key t).
Proof.
  simpl. destruct (existsb (fun b => p_id row =? p_id b) t); [ discriminate | ].
  destruct (existsb _ t) eqn:Hdup; [ discriminate | ].
  intros _ Hin. apply in_map_iff in Hin. destruct Hin as (x & Hkey & Hx).
  assert (Htrue : existsb (fun b => (p_game_id row =? p_game_id b)
                                    && (p_team_id row =? p_team_id b)
                                    && (p_tile_index row =? p_tile_index b)%Z) t = true).
  { apply existsb_exists. exists x. split; [ exact Hx | ].
    unfold proof_key in Hkey. injection Hkey as -> -> ->.
    rewrite !String.eqb_refl, Z.eqb_refl. reflexivity. }
  rewrite Htrue in Hdup. discriminate.
Qed.

Lemma violated_registration_key row t :
  violated registrations_keys row t = None ->
  ~ In (registration_key row) (map registration_key t).
Proof.
  simpl. destruct (existsb (fun b => r_id row =? r_id b) t); [ discriminate | ].
  destruct (existsb _ t) eqn:Hdup; [ discriminate | ].
  intros _ Hin. apply in_map_iff in Hin. destruct Hin as (x & Hkey & Hx).
  assert (Htrue : existsb (fun b => (r_game_id row =? r_game_id b)
                                    && (r_rsn row =? r_rsn b)) t = true).
  { apply existsb_exists. exists x. split; [ exact Hx | ].
    unfold registration_key in Hkey. injection Hkey as -> ->.
    rewrite !String.eqb_refl. reflexivity. }
  rewrite Htrue in Hdup. discriminate.
Qed.

Lemma proofs_unique_handle req db :
  NoDup (map proof_key (proofs db)) ->
  NoDup (map proof_key (proofs (ServerTs.handle req db))).
Proof.
  destruct req as [ body now gameHex joinCode tileHex | gid body teamHex
                  | gid body now sessHex regHex | gid auth now roll | gid auth body now hex
                  | gid hostPassword body now tileHex | gid hostPassword now
                  | gid hostPassword now ]; simpl.
  - apply (frame_createGame (fun d => NoDup (map proof_key (proofs d))));
      intros f d H; exact H.
  - apply (frame_createTeam (fun d => NoDup (map proof_key (proofs d)))).
    intros f d H. exact H.
  - apply (frame_register (fun d => NoDup (map proof_key (proofs d)))).
    intros f d H. exact H.
  - apply (frame_rollRoute (fun d => NoDup (map proof_key (proofs d)))).
    intros f d H. exact H.
  - intros H. destruct (proofRoute_effect gid auth body now hex db)
      as [-> | (proofUrl & g & t & tileIndex & _ & Hkeys & ->)]; [ exact H | ].
    cbn [snd proofs set_teams set_proofs]. rewrite map_app. apply NoDup_snoc; [ exact H | ].
    apply violated_proof_key. exact Hkeys.
  - apply (frame_putBoard (fun d => NoDup (map proof_key (proofs d))));
      intros f d H; exact H.
  - apply (frame_setLock (fun d => NoDup (map proof_key (proofs d)))).
    intros f d H. exact H.
  - apply (frame_setLock (fun d => NoDup (map proof_key (proofs d)))).
    intros f d H. exact H.
Qed.

Lemma registered_team_updated (c : team_row -> bool) (f : team_row -> team_row) l r :
  (forall row, t_id (f row) = t_id row /\ t_game_id (f row) = t_game_id row) ->
  (exists t, In t l /\ t_id t = r_team_id r /\ t_game_id t = r_game_id r) ->
  exists t, In t (map (fun row => if c row then f row else row) l)
            /\ t_id t = r_team_id r /\ t_game_id t = r_game_id r.
Proof.
  intros Hf (t & Hin & Hid & Hg).
  exists (if c t then f t else t).
  split; [ exact (in_map (fun row => if c row then f row else row) l t Hin) | ].
  destruct (c t); [ | split; assumption ].
  destruct (Hf t) as [-> ->]. split; assumption.
Qed.

Lemma registrations_ok_handle req db :
  registrations_ok db -> registrations_ok (ServerTs.handle req db).
Proof.
  destruct req as [ body now gameHex joinCode tileHex | gid body teamHex
                  | gid body now sessHex regHex | gid auth now roll | gid auth body now hex
                  | gid hostPassword body now tileHex | gid hostPassword now
                  | gid hostPassword now ]; simpl.
  - apply (frame_createGame registrations_ok); intros f d H; exact H.
  - intros [Hkeys Hteams]. destruct (createTeam_effect gid body teamHex db)
      as [-> | (_ & _ & _ & ->)]; [ split; assumption | ].
    split; [ exact Hkeys | ]. cbn [registrations set_teams].
    eapply Forall_impl; [ | exact Hteams ].
    intros r (t & Hin & Hrest). exists t. split; [ | exact Hrest ].
    cbn [teams set_teams]. apply in_or_app. left. exact Hin.
  - intros [Hkeys Hteams].
    destruct (register_effect gid body now sessHex regHex db)
      as [-> | (row & resp & Hin & Hg & _ & _ & Hfresh & _ & Hrun)];
      [ split; assumption | ].
    rewrite Hrun. cbn [snd]. split; cbn [registrations set_registrations].
    + rewrite map_app. apply NoDup_snoc; [ exact Hkeys | ].
      apply violated_registration_key. exact Hfresh.
    + apply Forall_app. split; [ exact Hteams | ].
      constructor; [ | constructor ]. exists row. repeat split; assumption.
  - intros [Hkeys Hteams]. destruct (rollRoute_effect gid auth now roll db)
      as [-> | (g & t & _ & _ & _ & ->)]; [ split; assumption | ].
    split; [ exact Hkeys | ]. cbn [registrations set_teams].
    eapply Forall_impl; [ | exact Hteams ].
    intros r Hr. unfold registered_team. cbn [teams set_teams].
    apply registered_team_updated; [ intros row; split; reflexivity | exact Hr ].
  - intros [Hkeys Hteams]. destruct (proofRoute_effect gid auth body now hex db)
      as [-> | (proofUrl & g & t & tileIndex & _ & _ & ->)]; [ split; assumption | ].
    cbn [snd]. split; [ exact Hkeys | ]. cbn [registrations set_teams set_proofs].
    eapply Forall_impl; [ | exact Hteams ].
    intros r Hr. unfold registered_team. cbn [teams set_teams set_proofs].
    apply registered_team_updated; [ intros row; split; reflexivity | exact Hr ].
  - apply (frame_putBoard registrations_ok); intros f d H; exact H.
  - apply (frame_setLock registrations_ok). intros f d H. exact H.
  - apply (frame_setLock registrations_ok). intros f d H. exact H.
Qed.

Lemma registrations_ok_serve reqs : registrations_ok (ServerTs.serve reqs empty_db).
Proof.
  apply (serve_keeps registrations_ok (fun _ => true)).
  - intros req db _. apply registrations_ok_handle.
  - apply forallb_all_true.
  - split; constructor.
Qed.

End ReachRecords.

(** X8.  In every state that the server reaches with dice in 1..6, the
    game of every team exists and the position of the team lies on its
    board, between 0 and the board size. *)
Theorem team_positions_on_board :
  forall (RT : Runtime) (reqs : list ServerTs.request) (t : team_row),
    forallb die_ok reqs = true ->
    In t (teams (ServerTs.serve reqs empty_db)) ->
    exists g,
      game_of (ServerTs.serve reqs empty_db) (t_game_id t) = Some g
      /\ 0 <= t_position t <= g_board_size g.
Proof.
  intros RT reqs t Hdice Hin.
  assert (Hok : teams_on_board (ServerTs.serve reqs empty_db)).
  { apply (serve_keeps teams_on_board die_ok).
    - intros req db. apply teams_on_board_handle.
    - exact Hdice.
    - repeat split; constructor. }
  destruct Hok as [_ Hteams]. rewrite Forall_forall in Hteams. apply Hteams. exact Hin.
Qed.

(** X9.  No route ends a game or moves its turn pointer: in every state
    that the server reaches, every game row is active, has its turn pointer
    on 0 and a board size between 10 and 500, and the identifiers of the
    games are distinct. *)
Theorem games_stay_as_created :
  forall (RT : Runtime) (reqs : list ServerTs.request),
    (forall g, In g (games (ServerTs.serve reqs empty_db)) ->
       g_status g = "active" /\ g_turn_team_index g = 0 /\ 10 <= g_board_size g <= 500)
    /\ NoDup (map g_id (games (ServerTs.serve reqs empty_db))).
Proof.
  intros RT reqs. destruct (games_ok_serve reqs) as [Hfresh Hnodup].
  split; [ | exact Hnodup ]. rewrite Forall_forall in Hfresh. exact Hfresh.
Qed.

(** X10.  Turn-order indices are dense: in every state that the server
    reaches, the indices of the teams of a game, in the order of their
    creation, are 0, 1, 2, ... *)
Theorem team_indices_count_up :
  forall (RT : Runtime) (reqs : list ServerTs.request) (gameId : string),
    map t_team_index (teams_of (ServerTs.serve reqs empty_db) gameId)
    = map Z.of_nat (seq 0 (List.length (teams_of (ServerTs.serve reqs empty_db) gameId))).
Proof.
  intros RT reqs gameId. destruct (teams_ok_serve reqs) as (_ & _ & Hindex). apply Hindex.
Qed.

(** X11.  In every state that the server reaches, no two team rows share
    an identifier, and no two teams of one game share a name. *)
Theorem team_names_unique :
  forall (RT : Runtime) (reqs : list ServerTs.request),
    NoDup (map t_id (teams (ServerTs.serve reqs empty_db)))
    /\ NoDup (map (fun t => (t_game_id t, t_name t)) (teams (ServerTs.serve reqs empty_db))).
Proof.
  intros RT reqs. destruct (teams_ok_serve reqs) as (Hid & Hname & _). split; assumption.
Qed.

(** X12.  In every state that the server reaches, the proofs table holds
    at most one record for a game, a team and a tile. *)
Theorem one_proof_per_tile :
  forall (RT : Runtime) (reqs : list ServerTs.request),
    NoDup (map proof_key (proofs (ServerTs.serve reqs empty_db))).
Proof.
  intros RT reqs.
  apply (serve_keeps (fun d => NoDup (map proof_key (proofs d))) (fun _ => true)).
  - intros req db _. apply proofs_unique_handle.
  - apply forallb_all_true.
  - constructor.
Qed.

(** X13.  In every state that the server reaches, a player name is
    registered at most once in a game, and every registration names a team
    of its own game. *)
Theorem registrations_unique_and_attached :
  forall (RT : Runtime) (reqs : list ServerTs.request),
    NoDup (map registration_key (registrations (ServerTs.serve reqs empty_db)))
    /\ (forall r, In r (registrations (ServerTs.serve reqs empty_db)) ->
          exists t, In t (teams (ServerTs.serve reqs empty_db))
                    /\ t_id t = r_team_id r /\ t_game_id t = r_game_id r).
Proof.
  intros RT reqs. destruct (registrations_ok_serve reqs) as [Hkeys Hteams].
  split; [ exact Hkeys | ]. rewrite Forall_forall in Hteams. exact Hteams.
Qed.

Lemma team_positions_on_board_witness :
  forallb die_ok (example_setup ++ [ example_roll 4; example_proof day1 "b1"; example_roll 2 ])
  = true
  /\ In {| t_id := "team_0a"; t_game_id := "game_01"; t_team_index := 0; t_name := "Red";
           t_color := "#ff0000"; t_password_hash := "sha256:pw"; t_position := 4;
           t_awaiting_proof := 1; t_pending_tile := Some 4 |}
        (teams example_regated)
  /\ exists g, game_of example_regated "game_01" = Some g /\ 0 <= 4 <= g_board_size g.
Proof.
  assert (Hdice : forallb die_ok
            (example_setup ++ [ example_roll 4; example_proof day1 "b1"; example_roll 2 ])
          = true) by reflexivity.
  assert (Hin : In {| t_id := "team_0a"; t_game_id := "game_01"; t_team_index := 0;
                      t_name := "Red"; t_color := "#ff0000";
                      t_password_hash := "sha256:pw"; t_position := 4;
                      t_awaiting_proof := 1; t_pending_tile := Some 4 |}
                   (teams (@ServerTs.serve example_runtime
                             (example_setup
                              ++ [ example_roll 4; example_proof day1 "b1"; example_roll 2 ])
                             empty_db)))
    by (vm_compute; left; reflexivity).
  split; [ exact Hdice | split; [ vm_compute; left; reflexivity | ] ].
  destruct (@team_positions_on_board example_runtime _ _ Hdice Hin) as (g & Hg & Hpos).
  exists g. split; [ | exact Hpos ].
  unfold example_regated, example_proved4, example_db.
  unfold ServerTs.serve in *. rewrite fold_left_app in Hg. rewrite fold_left_app.
  exact Hg.
Defined.

Lemma games_stay_as_created_witness :
  In (@new_game_row example_runtime example_game day1 "01" "ABCDEF12" None
        (Some "2024-01-02T00:00:00.000Z"))
     (games example_at8)
  /\ g_status (@new_game_row example_runtime example_game day1 "01" "ABCDEF12" None
                 (Some "2024-01-02T00:00:00.000Z")) = "active"
  /\ g_turn_team_index (@new_game_row example_runtime example_game day1 "01" "ABCDEF12" None
                          (Some "2024-01-02T00:00:00.000Z")) = 0.
Proof.
  assert (Hin : In (@new_game_row example_runtime example_game day1 "01" "ABCDEF12" None
                      (Some "2024-01-02T00:00:00.000Z"))
                   (games example_at8))
    by (vm_compute; left; reflexivity).
  split; [ exact Hin | ].
  destruct (proj1 (@games_stay_as_created example_runtime _) _ Hin) as (Hs & Ht & _).
  split; assumption.
Defined.

Lemma registrations_unique_and_attached_witness :
  In {| r_id := "reg_4e"; r_game_id := "game_01"; r_team_id := "team_0a";
        r_rsn := "Zezima"; r_token_jti := "sess_5e";
        r_created_at := "2024-01-01T00:00:00.000Z" |}
     (registrations example_at8)
  /\ exists t, In t (teams example_at8) /\ t_id t = "team_0a" /\ t_game_id t = "game_01".
Proof.
  assert (Hin : In {| r_id := "reg_4e"; r_game_id := "game_01"; r_team_id := "team_0a";
                      r_rsn := "Zezima"; r_token_jti := "sess_5e";
                      r_created_at := "2024-01-01T00:00:00.000Z" |}
                   (registrations example_at8))
    by (vm_compute; left; reflexivity).
  split; [ exact Hin | ].
  exact (proj2 (@registrations_unique_and_attached example_runtime _) _ Hin).
Defined.

(** X14.  In the states that the server reaches, two refusals of the roll
    route cannot occur: a game that exists is never inactive, and a
    registered session always finds its team. *)
Theorem roll_never_inactive_or_team_missing :
  forall (RT : Runtime) (reqs : list ServerTs.request) (gameId : string) (auth : jwt_user)
         (now roll : Z) (resp : RollTs.response) (db' : Db),
    RollTs.rollRoute gameId auth now roll (ServerTs.serve reqs empty_db) = (inr resp, db') ->
    RollTs.reason resp <> "inactive" /\ RollTs.reason resp <> "team_missing".
Proof.
  intros RT reqs gameId auth now roll resp db'.
  set (db := ServerTs.serve reqs empty_db).
  destruct (games_ok_serve reqs) as [Hfresh _]. fold db in Hfresh.
  destruct (registrations_ok_serve reqs) as [_ Hregs]. fold db in Hregs.
  rewrite Forall_forall in Hfresh, Hregs.
  unfold RollTs.rollRoute, bind, query, ret.
  destruct (RollTs.getGame db gameId) as [g |] eqn:Hg;
    [ | intros [= <- _]; split; discriminate ].
  assert (Hactive : RollTs.status g = "active").
  { unfold RollTs.getGame in Hg.
    destruct (find (fun g => g_id g =? gameId) (games db)) as [row |] eqn:Hfind;
      [ | discriminate ].
    injection Hg as <-. simpl. apply find_some in Hfind. apply (Hfresh row). apply Hfind. }
  rewrite Hactive, String.eqb_refl. cbn [negb].
  destruct (RollTs.session db gameId auth) as [reg |] eqn:Hsess;
    [ | intros [= <- _]; split; discriminate ].
  assert (Hteam : RollTs.getTeamById db gameId (teamId auth) <> None).
  { unfold RollTs.session in Hsess. apply find_some in Hsess. destruct Hsess as [Hin Hreg].
    repeat (apply andb_prop in Hreg; destruct Hreg as [Hreg ?]).
    destruct (Hregs reg Hin) as (t & Ht & Hid & Hgame).
    unfold RollTs.getTeamById.
    destruct (find _ (teams db)) as [row |] eqn:Hfind; [ discriminate | ].
    apply find_none with (x := t) in Hfind; [ | exact Ht ].
    apply String.eqb_eq in Hreg. 
    match goal with H : (r_team_id reg =? teamId auth) = true |- _ =>
      apply String.eqb_eq in H; rewrite Hid, Hgame, Hreg, H, !String.eqb_refl in Hfind
    end. discriminate. }
  destruct (RollTs.getTeamById db gameId (teamId auth)) as [t |]; [ | now elim Hteam ].
  destruct (RollTs.awaitingProof t); [ intros [= <- _]; split; discriminate | ].
  repeat match goal with
         | |- context [match ?x with Some _ => _ | None => _ end] =>
             destruct x; [ intros [= <- _]; split; discriminate | ]
         end.
  rewrite resolve_eq. intros [= <- _]. split; discriminate.
Qed.

Lemma roll_never_inactive_or_team_missing_witness :
  @RollTs.rollRoute example_runtime "game_01" example_auth day1 2
    (@ServerTs.serve example_runtime
       (example_setup ++ [ example_roll 4; example_proof day1 "b1";
                           example_roll 4; example_proof day1 "b2" ]) empty_db)
  = (inr example_jump_reply, example_after_jump)
  /\ RollTs.reason example_jump_reply <> "inactive".
Proof.
  assert (Hroute : @RollTs.rollRoute example_runtime "game_01" example_auth day1 2
                     (@ServerTs.serve example_runtime
                        (example_setup ++ [ example_roll 4; example_proof day1 "b1";
                                            example_roll 4; example_proof day1 "b2" ])
                        empty_db)
                   = (inr example_jump_reply, example_after_jump))
    by (vm_compute; reflexivity).
  split; [ exact Hroute | ].
  exact (proj1 (@roll_never_inactive_or_team_missing example_runtime _ _ _ _ _ _ _ Hroute)).
Defined.

(* ------------------------------------------------------------------ *)
(** ** src/routes/proof.ts and src/routes/games.ts against the roll route *)

Lemma find_app_some A (p : A -> bool) (l l' : list A) (x : A) :
  find p l = Some x -> find p (l ++ l') = Some x.
Proof.
  induction l as [| a l IH]; simpl; [ discriminate | ].
  destruct (p a); [ auto | exact IH ].
Qed.

Section Bridges.
Context {RT : Runtime}.

(** The roll route and the proof route read the same game, session and
    team. *)
Lemma roll_reads_proof_game db gameId g :
  ProofTs.getGame db gameId = Some g ->
  exists g', RollTs.getGame db gameId = Some g'
             /\ RollTs.status g' = ProofTs.status g
             /\ RollTs.boardSize g' = ProofTs.boardSize g.
Proof.
  unfold ProofTs.getGame, RollTs.getGame.
  destruct (find _ (games db)) as [row |]; [ | discriminate ].
  intros [= <-]. eexists. repeat split.
Qed.

Lemma roll_reads_proof_team db gameId tid t :
  ProofTs.getTeamById db gameId tid = Some t ->
  exists t', RollTs.getTeamById db gameId tid = Some t'
             /\ RollTs.awaitingProof t' = ProofTs.awaitingProof t
             /\ RollTs.pendingTile t' = ProofTs.pendingTile t
             /\ RollTs.position t' = ProofTs.position t.
Proof.
  unfold ProofTs.getTeamById, RollTs.getTeamById.
  destruct (find _ (teams db)) as [row |]; [ | discriminate ].
  intros [= <-]. eexists. repeat split.
Qed.

Lemma roll_proof_same_session db gameId auth :
  RollTs.session db gameId auth = ProofTs.session db gameId auth.
Proof. reflexivity. Qed.

Lemma roll_proof_same_tile db gameId i boardSize :
  RollTs.kind (RollTs.getTileWithDefaults db gameId i boardSize)
  = ProofTs.kind (ProofTs.getTileWithDefaults db gameId i boardSize).
Proof.
  unfold RollTs.getTileWithDefaults, ProofTs.getTileWithDefaults,
    RollTs.getTileRaw, ProofTs.getTileRaw.
  destruct (find _ (tile_tasks db)); [ reflexivity | ].
  destruct (i =? 0)%Z; [ reflexivity | ]. destruct (i =? boardSize)%Z; reflexivity.
Qed.

(** A roll for a gated team is refused and writes nothing. *)
Lemma rollRoute_gated db gameId auth now roll t :
  RollTs.getTeamById db gameId (teamId auth) = Some t ->
  RollTs.awaitingProof t = true ->
  exists resp,
    RollTs.rollRoute gameId auth now roll db = (inr resp, db)
    /\ RollTs.rollAllowed resp = false.
Proof.
  intros Ht Hawait. unfold RollTs.rollRoute, bind, query, ret.
  destruct (RollTs.getGame db gameId) as [g |]; [ | eexists; split; reflexivity ].
  destruct (negb _); [ eexists; split; reflexivity | ].
  destruct (RollTs.session db gameId auth); [ | eexists; split; reflexivity ].
  rewrite Ht, Hawait. eexists. split; reflexivity.
Qed.

(** A session that a state accepts is accepted by every later state. *)
Lemma session_serve reqs db gameId auth :
  RollTs.session db gameId auth <> None ->
  RollTs.session (ServerTs.serve reqs db) gameId auth <> None.
Proof.
  apply (frame_serve (fun d => RollTs.session d gameId auth <> None));
    try (intros f d H; exact H).
  intros r d H. unfold RollTs.session in *. cbn [registrations set_registrations].
  destruct (find _ (registrations d)) as [reg |] eqn:Hfind; [ | now elim H ].
  rewrite (find_app_some _ _ [r] Hfind). discriminate.
Qed.

End Bridges.

Lemma find_app_hit A (p : A -> bool) (l : list A) (x : A) :
  p x = true -> find p (l ++ [x]) <> None.
Proof.
  intros Hx. induction l as [| a l IH]; simpl.
  - rewrite Hx. discriminate.
  - destruct (p a); [ discriminate | exact IH ].
Qed.

Section Lasting.
Context {RT : Runtime}.

(** A team that a state finds is found by every later state. *)
Lemma team_found_serve reqs db gameId tid :
  RollTs.getTeamById db gameId tid <> None ->
  RollTs.getTeamById (ServerTs.serve reqs db) gameId tid <> None.
Proof.
  assert (Hupdated : forall (c : team_row -> bool) f (d : Db),
            (forall row, t_id (f row) = t_id row /\ t_game_id (f row) = t_game_id row) ->
            RollTs.getTeamById d gameId tid <> None ->
            RollTs.getTeamById (set_teams (map (fun row => if c row then f row else row)) d)
              gameId tid <> None).
  { intros c f d Hf. unfold RollTs.getTeamById. cbn [teams set_teams].
    rewrite find_map_stable.
    - destruct (find _ (teams d)); [ discriminate | intros H; exact H ].
    - intros row. destruct (c row); [ | reflexivity ].
      destruct (Hf row) as [-> ->]. reflexivity. }
  apply (serve_keeps (fun d => RollTs.getTeamById d gameId tid <> None) (fun _ => true));
    [ | apply forallb_all_true ].
  intros req d _.
  destruct req as [ body now gameHex joinCode tileHex | gid body teamHex
                  | gid body now sessHex regHex | gid auth now roll | gid auth body now hex
                  | gid hostPassword body now tileHex | gid hostPassword now
                  | gid hostPassword now ]; simpl.
  - apply (frame_createGame (fun d => RollTs.getTeamById d gameId tid <> None));
      intros f x H; exact H.
  - intros H. destruct (createTeam_effect gid body teamHex d)
      as [-> | (_ & _ & _ & ->)]; [ exact H | ].
    unfold RollTs.getTeamById in *. cbn [teams set_teams].
    destruct (find _ (teams d)) as [row |] eqn:Hfind; [ | now elim H ].
    rewrite (find_app_some _ _ _ Hfind). discriminate.
  - apply (frame_register (fun d => RollTs.getTeamById d gameId tid <> None)).
    intros f x H. exact H.
  - intros H. destruct (rollRoute_effect gid auth now roll d)
      as [-> | (g & t & _ & _ & _ & ->)]; [ exact H | ].
    apply Hupdated; [ intros row; split; reflexivity | exact H ].
  - intros H. destruct (proofRoute_effect gid auth body now hex d)
      as [-> | (proofUrl & g & t & tileIndex & _ & _ & ->)]; [ exact H | ].
    cbn [snd].
    apply (Hupdated (is_team gid auth) released
             (set_proofs (fun ps => ps ++ [proof_record gid auth t tileIndex proofUrl now hex])
                d));
      [ intros row; split; reflexivity | exact H ].
  - apply (frame_putBoard (fun d => RollTs.getTeamById d gameId tid <> None));
      intros f x H; exact H.
  - apply (frame_setLock (fun d => RollTs.getTeamById d gameId tid <> None)).
    intros f x H. exact H.
  - apply (frame_setLock (fun d => RollTs.getTeamById d gameId tid <> None)).
    intros f x H. exact H.
Qed.

End Lasting.

(** X15.  An accepted proof unlocks rolling: in the state that the proof
    route leaves, a roll request with the same token passes the gates of the
    game, the session, the team and the proof, so that its reply is the roll
    or one of the two refusals of the time window. *)
Theorem accepted_proof_unlocks_roll :
  forall (RT : Runtime) (db db' : Db) (gameId : string) (auth : jwt_user) (b : ProofTs.body)
         (now : Z) (hex : string),
    ProofTs.proofRoute gameId auth b now hex db = (inr tt, db') ->
    forall now' roll,
    exists resp db'',
      RollTs.rollRoute gameId auth now' roll db' = (inr resp, db'')
      /\ (RollTs.reason resp = "not_started" \/ RollTs.reason resp = "ended"
          \/ RollTs.reason resp = "rolled").
Proof.
  intros RT db db' gameId auth b now hex Hrun now' roll.
  pose proof Hrun as Hexp. apply proofRoute_returned in Hexp.
  destruct Hexp as (proofUrl & g & t & tileIndex & Hexp).
  rewrite (proofRoute_expected now hex Hexp) in Hrun.
  destruct (violated proofs_keys _ (proofs db)); [ discriminate | ].
  injection Hrun as <-.
  destruct Hexp as (_ & Hg & Hactive & Hsess & Ht & _).
  destruct (roll_reads_proof_game _ _ Hg) as (g' & Hg' & Hstatus & _).
  pose proof (getTeamById_ungated _ _ _ Ht
                (fun ps => ps ++ [proof_record gameId auth t tileIndex proofUrl now hex]))
    as Hafter.
  destruct (roll_reads_proof_team _ _ _ Hafter) as (t' & Ht' & Hawait & _).
  match goal with
  | |- context [RollTs.rollRoute gameId auth now' roll ?d] =>
      rewrite (@rollRoute_time_gates RT d gameId auth now' roll g' t');
        [ | exact Hg' | rewrite Hstatus; exact Hactive | exact Hsess | exact Ht'
          | exact Hawait ]
  end.
  destruct (OverlayTs.parseIso (RollTs.startsAt g')) as [s |];
    [ destruct (now' <? s)%Z; [ do 2 eexists; split; [ reflexivity | auto ] | ] | ];
    (destruct (OverlayTs.parseIso (RollTs.endsAt g')) as [e |];
     [ destruct (e <=? now')%Z; [ do 2 eexists; split; [ reflexivity | auto ] | ] | ]);
    rewrite resolve_eq; do 2 eexists; (split; [ reflexivity | auto ]).
Qed.

Lemma accepted_proof_unlocks_roll_witness :
  @ProofTs.proofRoute example_runtime "game_01" example_auth example_body day1 "b1"
    example_gated = (inr tt, example_proved4)
  /\ exists resp db'',
       @RollTs.rollRoute example_runtime "game_01" example_auth day1 2 example_proved4
       = (inr resp, db'')
       /\ (RollTs.reason resp = "not_started" \/ RollTs.reason resp = "ended"
           \/ RollTs.reason resp = "rolled").
Proof.
  assert (Hfirst : @ProofTs.proofRoute example_runtime "game_01" example_auth example_body
                     day1 "b1" example_gated = (inr tt, example_proved4))
    by (vm_compute; reflexivity).
  split; [ exact Hfirst | ].
  exact (@accepted_proof_unlocks_roll example_runtime example_gated example_proved4
           "game_01" example_auth example_body day1 "b1" Hfirst day1 2).
Defined.

(** X16.  A team that is gated on a tile which the proof route does not
    read as a task is stuck: every roll of the team is refused, every proof
    submission throws, and neither writes anything, so the gate stays. *)
Theorem gate_on_non_task_tile_is_stuck :
  forall (RT : Runtime) (db : Db) (gameId : string) (auth : jwt_user) (t : ProofTs.team)
         (tileIndex : Z),
    ProofTs.getTeamById db gameId (teamId auth) = Some t ->
    ProofTs.awaitingProof t = true ->
    ProofTs.pendingTile t = Some tileIndex ->
    (forall g, ProofTs.getGame db gameId = Some g ->
       ProofTs.kind (ProofTs.getTileWithDefaults db gameId tileIndex (ProofTs.boardSize g))
       <> "task") ->
    (forall now roll, exists resp,
        RollTs.rollRoute gameId auth now roll db = (inr resp, db)
        /\ RollTs.rollAllowed resp = false)
    /\ (forall b now hex, exists e,
          ProofTs.proofRoute gameId auth b now hex db = (inl e, db)).
Proof.
  intros RT db gameId auth t tileIndex Ht Hawait Hpending Hkind. split.
  - intros now roll.
    destruct (roll_reads_proof_team _ _ _ Ht) as (t' & Ht' & Hawait' & _).
    apply (rollRoute_gated db gameId auth now roll Ht'). rewrite Hawait'. exact Hawait.
  - intros b now hex. unfold ProofTs.proofRoute, bind, query, throw.
    destruct (ProofTs.ProofBody_parse b); [ | eexists; reflexivity ].
    destruct (ProofTs.getGame db gameId) as [g |] eqn:Hg; [ | eexists; reflexivity ].
    destruct (negb _); [ eexists; reflexivity | ].
    destruct (ProofTs.session db gameId auth); [ | eexists; reflexivity ].
    rewrite Ht, Hawait, Hpending.
    destruct (String.eqb_spec
                (ProofTs.kind (ProofTs.getTileWithDefaults db gameId tileIndex
                                 (ProofTs.boardSize g))) "task") as [Htask | _].
    + elim (Hkind g eq_refl Htask).
    + eexists. reflexivity.
Qed.

Lemma gate_on_non_task_tile_is_stuck_witness :
  ProofTs.getTeamById example_on_boss "game_01" (teamId example_auth)
  = Some {| ProofTs.team_id := "team_0a"; ProofTs.name := "Red"; ProofTs.position := 5;
            ProofTs.awaitingProof := true; ProofTs.pendingTile := Some 5 |}
  /\ ProofTs.kind (ProofTs.getTileWithDefaults example_on_boss "game_01" 5 20) = "boss"
  /\ exists e,
       @ProofTs.proofRoute example_runtime "game_01" example_auth example_body day1 "b1"
         example_on_boss = (inl e, example_on_boss).
Proof.
  assert (Ht : ProofTs.getTeamById example_on_boss "game_01" (teamId example_auth)
               = Some {| ProofTs.team_id := "team_0a"; ProofTs.name := "Red";
                         ProofTs.position := 5; ProofTs.awaitingProof := true;
                         ProofTs.pendingTile := Some 5 |})
    by (vm_compute; reflexivity).
  split; [ exact Ht | split; [ vm_compute; reflexivity | ] ].
  refine (proj2 (@gate_on_non_task_tile_is_stuck example_runtime example_on_boss "game_01"
                   example_auth _ 5 Ht eq_refl eq_refl _) example_body day1 "b1").
  intros g Hg. vm_compute in Hg. injection Hg as <-. vm_compute. discriminate.
Defined.

(** X17.  A registration that returns opens a session that lasts: in the
    state it leaves and in every later state, the session check of the roll
    and proof routes accepts the token, and the team of the token is
    found. *)
Theorem registration_opens_lasting_session :
  forall (RT : Runtime) (db db' : Db) (gameId : string) (body : GamesTs.register_body)
         (now : Z) (sessHex regHex : string) (resp : GamesTs.register_response)
         (reqs : list ServerTs.request),
    GamesTs.register gameId body now sessHex regHex db = (inr resp, db') ->
    RollTs.session (ServerTs.serve reqs db') gameId (GamesTs.token resp) <> None
    /\ ProofTs.session (ServerTs.serve reqs db') gameId (GamesTs.token resp) <> None
    /\ RollTs.getTeamById (ServerTs.serve reqs db') gameId (teamId (GamesTs.token resp))
       <> None.
Proof.
  intros RT db db' gameId body now sessHex regHex resp reqs Hrun.
  destruct (register_cases gameId body now sessHex regHex db)
    as [[e He] | (row & resp' & Hin & Hg & _ & _ & _ & Htoken & Hrun')].
  - rewrite He in Hrun. discriminate.
  - rewrite Hrun' in Hrun. injection Hrun as <- <-.
    assert (Hsess : RollTs.session
              (set_registrations (fun t =>
                 t ++ [new_registration_row gameId body now sessHex regHex (t_id row)]) db)
              gameId (GamesTs.token resp') <> None).
    { unfold RollTs.session. cbn [registrations set_registrations].
      apply find_app_hit. rewrite Htoken. simpl. rewrite !String.eqb_refl. reflexivity. }
    assert (Hteam : RollTs.getTeamById
              (set_registrations (fun t =>
                 t ++ [new_registration_row gameId body now sessHex regHex (t_id row)]) db)
              gameId (teamId (GamesTs.token resp')) <> None).
    { unfold RollTs.getTeamById. cbn [teams set_registrations]. rewrite Htoken. simpl.
      destruct (find _ (teams db)) as [found |] eqn:Hfind; [ discriminate | ].
      apply find_none with (x := row) in Hfind; [ | exact Hin ].
      rewrite Hg, !String.eqb_refl in Hfind. discriminate. }
    split; [ | split ].
    + apply session_serve. exact Hsess.
    + rewrite <- roll_proof_same_session. apply session_serve. exact Hsess.
    + apply team_found_serve. exact Hteam.
Qed.

Lemma registration_opens_lasting_session_witness :
  @GamesTs.register example_runtime "game_01" example_register_body day1 "5e" "4e"
    example_unregistered = (inr example_register_reply, example_db [])
  /\ RollTs.session (example_db [ example_roll 4 ]) "game_01" example_auth <> None.
Proof.
  assert (Hrun : @GamesTs.register example_runtime "game_01" example_register_body day1
                   "5e" "4e" example_unregistered
                 = (inr example_register_reply, example_db []))
    by (vm_compute; reflexivity).
  split; [ exact Hrun | ].
  pose proof (proj1 (@registration_opens_lasting_session example_runtime
                       example_unregistered (example_db []) "game_01"
                       example_register_body day1 "5e" "4e" example_register_reply
                       [ example_roll 4 ] Hrun)) as Hsess.
  unfold example_db at 1. unfold ServerTs.serve. rewrite fold_left_app. exact Hsess.
Defined.

(* ------------------------------------------------------------------ *)
(** ** src/routes/games.ts *)

Section GamesMore.
Context {RT : Runtime}.

(** The seeding throws nothing but the constraint failures of tile_tasks. *)
Lemma seed_tiles_thrown gameId boardSize hex ts : forall i db e db',
  GamesTs.seed_tiles gameId boardSize hex i ts db = (inl e, db') ->
  e = SqlConstraint "tile_tasks.id"
  \/ e = SqlConstraint "tile_tasks.game_id, tile_tasks.tile_index".
Proof.
  induction ts as [| tile ts IH]; intros i db e db'; simpl.
  - discriminate.
  - unfold bind.
    destruct (_ || _).
    + apply IH.
    + unfold insert_tile_task, insert.
      destruct (violated tile_tasks_keys _ (tile_tasks db)) as [columns |] eqn:Hkeys.
      * intros [= <- _]. simpl in Hkeys.
        destruct (existsb _ (tile_tasks db)); [ left; congruence | ].
        destruct (existsb _ (tile_tasks db)); [ right; congruence | discriminate ].
      * apply IH.
Qed.

End GamesMore.

(** X18.  POST /games is not atomic.  When it throws, either nothing was
    written, or the INSERT of a seeded tile failed on a constraint of
    tile_tasks and the new game row, active and with a fresh identifier,
    stays in the database although the caller got no game identifier. *)
Theorem createGame_throw_may_keep_game :
  forall (RT : Runtime) (db db' : Db) (body : GamesTs.create_game_body) (now : Z)
         (gameHex joinCode : string) (tileHex : nat -> string) (e : failure),
    GamesTs.createGame body now gameHex joinCode tileHex db = (inl e, db') ->
    db' = db
    \/ ((e = SqlConstraint "tile_tasks.id"
         \/ e = SqlConstraint "tile_tasks.game_id, tile_tasks.tile_index")
        /\ ~ In (rid "game" gameHex) (map g_id (games db))
        /\ exists row, games db' = games db ++ [row]
                       /\ g_id row = rid "game" gameHex
                       /\ g_status row = "active").
Proof.
  intros RT db db' body now gameHex joinCode tileHex e Hrun.
  destruct (createGame_effect body now gameHex joinCode tileHex db)
    as [Hsame | (row & extra & (Hstatus & _) & Hid & _ & Hkeys & Hgames & _)].
  - left. rewrite Hrun in Hsame. exact Hsame.
  - right. rewrite Hrun in Hgames. cbn [snd] in Hgames.
    split; [ | split; [ rewrite <- Hid; apply violated_games_key; exact Hkeys
                      | exists row; repeat split; assumption ] ].
    unfold GamesTs.createGame, bind, ret, throw in Hrun.
    destruct (negb _) in Hrun; [ injection Hrun as _ Hdb | ].
    { exfalso. rewrite <- Hdb in Hgames.
      apply (f_equal (@List.length _)) in Hgames. rewrite length_app in Hgames.
      simpl in Hgames. lia. }
    destruct (GamesTs.parseIsoOrThrow "startsAt" _) in Hrun; cbn [GamesTs.lift] in Hrun;
      unfold throw, ret in Hrun.
    { exfalso. injection Hrun as _ Hdb. rewrite <- Hdb in Hgames.
      apply (f_equal (@List.length _)) in Hgames. rewrite length_app in Hgames.
      simpl in Hgames. lia. }
    destruct (GamesTs.parseIsoOrThrow "endsAt" _) in Hrun; cbn [GamesTs.lift] in Hrun;
      unfold throw, ret in Hrun.
    { exfalso. injection Hrun as _ Hdb. rewrite <- Hdb in Hgames.
      apply (f_equal (@List.length _)) in Hgames. rewrite length_app in Hgames.
      simpl in Hgames. lia. }
    match type of Hrun with
    | context [if ?c then _ else _] => destruct c
    end.
    { exfalso. injection Hrun as _ Hdb. rewrite <- Hdb in Hgames.
      apply (f_equal (@List.length _)) in Hgames. rewrite length_app in Hgames.
      simpl in Hgames. lia. }
    unfold insert_game, insert in Hrun.
    destruct (violated games_keys _ (games db)) in Hrun.
    { exfalso. injection Hrun as _ Hdb. rewrite <- Hdb in Hgames.
      apply (f_equal (@List.length _)) in Hgames. rewrite length_app in Hgames.
      simpl in Hgames. lia. }
    match type of Hrun with
    | context [GamesTs.seed_tiles ?g ?b ?h ?i ?ts ?d] =>
        destruct (GamesTs.seed_tiles g b h i ts d) as [[e0 | u] d'] eqn:Hseed
    end; [ | discriminate ].
    injection Hrun as <- _. eapply seed_tiles_thrown. exact Hseed.
Qed.

Lemma createGame_throw_may_keep_game_witness :
  @GamesTs.createGame example_runtime example_twice day1 "02" "ABCDEF34" example_hex_b
    (example_db [])
  = (inl (SqlConstraint "tile_tasks.game_id, tile_tasks.tile_index"),
     @ServerTs.serve example_runtime
       [ ServerTs.PostGames example_twice day1 "02" "ABCDEF34" example_hex_b ] (example_db []))
  /\ exists row,
       games (@ServerTs.serve example_runtime
                [ ServerTs.PostGames example_twice day1 "02" "ABCDEF34" example_hex_b ]
                (example_db []))
       = games (example_db []) ++ [row]
       /\ g_id row = rid "game" "02"
       /\ g_status row = "active".
Proof.
  assert (Hrun : @GamesTs.createGame example_runtime example_twice day1 "02" "ABCDEF34"
                   example_hex_b (example_db [])
                 = (inl (SqlConstraint "tile_tasks.game_id, tile_tasks.tile_index"),
                    @ServerTs.serve example_runtime
                      [ ServerTs.PostGames example_twice day1 "02" "ABCDEF34" example_hex_b ]
                      (example_db [])))
    by (vm_compute; reflexivity).
  split; [ exact Hrun | ].
  destruct (@createGame_throw_may_keep_game example_runtime _ _ _ _ _ _ _ _ Hrun)
    as [Hsame | (_ & _ & Hrow)].
  - exfalso. apply (f_equal games) in Hsame. vm_compute in Hsame. discriminate Hsame.
  - exact Hrow.
Defined.

(* ------------------------------------------------------------------ *)
(** ** src/routes/board.ts *)

Lemma find_app_none A (p : A -> bool) (l l' : list A) :
  find p l = None -> find p (l ++ l') = find p l'.
Proof.
  induction l as [| a l IH]; simpl; [ reflexivity | ].
  destruct (p a); [ discriminate | exact IH ].
Qed.

Lemma existsb_find A (p : A -> bool) (l : list A) :
  existsb p l = match find p l with Some _ => true | None => false end.
Proof.
  induction l as [| a l IH]; simpl; [ reflexivity | ].
  destruct (p a); [ reflexivity | exact IH ].
Qed.

Lemma Forall_firstn A (P : A -> Prop) (n : nat) (l : list A) :
  Forall P l -> Forall P (firstn n l).
Proof.
  intros H. rewrite <- (firstn_skipn n l) in H. apply Forall_app in H. tauto.
Qed.

Section BoardMore.
Context {RT : Runtime}.

(** Only the type jump is stored as the kind jump. *)
Lemma kind_jump_type ty rp :
  BoardTs.mapBoardTileToDbKind (option_map BoardTs.type_text ty) rp = "jump" ->
  ty = Some BoardTs.T_jump.
Proof.
  destruct ty as [[] |], rp as [[|] |]; vm_compute; intros H;
    first [ reflexivity | discriminate H ].
Qed.

(** The rows of a document that passed the validation of PUT board. *)
Lemma validated_rows gameId hex boardSize ts : forall i,
  BoardTs.validate_tiles boardSize ts = None ->
  Forall (saved_row_ok gameId boardSize) (tile_rows gameId hex i ts).
Proof.
  induction ts as [| t ts IH]; intros i; simpl.
  - constructor.
  - destruct (_ || _) eqn:Hrange; [ discriminate | ].
    apply orb_false_elim in Hrange. destruct Hrange as [Hlo Hhi].
    apply Z.ltb_ge in Hlo. rewrite Z.gtb_ltb in Hhi. apply Z.ltb_ge in Hhi.
    intros Hrest.
    assert (Hjump : BoardTs.type t = Some BoardTs.T_jump ->
                    exists j, BoardTs.jumpTo t = Some j /\ 0 <= j <= boardSize).
    { intros Hty. rewrite Hty in Hrest. cbn in Hrest.
      destruct (BoardTs.jumpTo t) as [j |]; [ | discriminate ].
      destruct (_ || _) eqn:Hj in Hrest; [ discriminate | ].
      apply orb_false_elim in Hj. destruct Hj as [Hjlo Hjhi].
      apply Z.ltb_ge in Hjlo. rewrite Z.gtb_ltb in Hjhi. apply Z.ltb_ge in Hjhi.
      exists j. split; [ reflexivity | lia ]. }
    assert (Hrest' : BoardTs.validate_tiles boardSize ts = None).
    { destruct (_ =? "jump") in Hrest; [ | exact Hrest ].
      destruct (BoardTs.jumpTo t); [ | discriminate ].
      destruct (_ || _) in Hrest; [ discriminate | exact Hrest ]. }
    constructor; [ | apply IH; exact Hrest' ].
    unfold saved_row_ok, BoardTs.tile_row.
    cbn [tt_game_id tt_tile_index tt_kind tt_jump_to].
    split; [ reflexivity | ]. split; [ lia | ].
    destruct (mapBoardTileToDbKind_kinds (option_map BoardTs.type_text (BoardTs.type t))
                (BoardTs.requiresProof t)) as [Hk | [Hk | Hk]].
    + destruct (Hjump (kind_jump_type _ _ Hk)) as (j & Hj & Hin).
      rewrite Hk, Hj. cbn. split; [ tauto | split; [ reflexivity | exact Hin ] ].
    + rewrite Hk. cbn. split; [ tauto | discriminate ].
    + rewrite Hk. cbn. split; [ tauto | discriminate ].
Qed.

(** The rebuild appends the rows of the document in order and stops at the
    first INSERT that fails. *)
Lemma insert_tiles_effect gameId hex ts : forall i db,
  exists n,
    tile_tasks (snd (BoardTs.insert_tiles gameId hex i ts db))
    = tile_tasks db ++ firstn n (tile_rows gameId hex i ts)
    /\ tiles_apart db (snd (BoardTs.insert_tiles gameId hex i ts db))
    /\ (NoDup (map tile_key (tile_tasks db)) ->
        NoDup (map tile_key (tile_tasks (snd (BoardTs.insert_tiles gameId hex i ts db)))))
    /\ ((fst (BoardTs.insert_tiles gameId hex i ts db) = inr tt /\ n = List.length ts)
        \/ ((exists columns, fst (BoardTs.insert_tiles gameId hex i ts db)
                             = inl (SqlConstraint columns))
            /\ (n < List.length ts)%nat)).
Proof.
  induction ts as [| t ts IH]; intros i db; simpl.
  - exists 0%nat. simpl. rewrite app_nil_r. repeat split; auto.
  - unfold bind, insert_tile_task, insert.
    destruct (violated tile_tasks_keys _ (tile_tasks db)) as [columns |] eqn:Hkeys.
    + exists 0%nat. simpl. rewrite app_nil_r. repeat split; auto.
      right. split; [ eexists; reflexivity | lia ].
    + match goal with
      | |- context [set_tile_tasks ?f db] =>
          destruct (IH (S i) (set_tile_tasks f db)) as (n & Htiles & Hapart & Huniq & Hend)
      end.
      simpl in Htiles, Huniq.
      exists (S n).
      split; [ rewrite Htiles, <- app_assoc; reflexivity | ]. split; [ | split ].
      * destruct Hapart as (A1 & A2 & A3 & A4 & A5 & A6). repeat split; assumption.
      * intros Hnd. apply Huniq. rewrite map_app. apply NoDup_snoc; [ exact Hnd | ].
        apply violated_tile_key. exact Hkeys.
      * destruct Hend as [[Hfst ->] | [Hfst Hn]]; [ left | right ]; split;
          first [ exact Hfst | reflexivity | lia ].
Qed.

End BoardMore.

Lemma NoDup_map_filter A B (key : A -> B) (p : A -> bool) (l : list A) :
  NoDup (map key l) -> NoDup (map key (filter p l)).
Proof.
  induction l as [| a l IH]; simpl; [ auto | ].
  intros H. inversion H as [| x xs Hnotin Hrest]; subst.
  destruct (p a); [ | auto ].
  simpl. constructor; [ | auto ].
  intros Hin. apply Hnotin. apply in_map_iff in Hin. destruct Hin as (y & Hy & Hin).
  apply filter_In in Hin. apply in_map_iff. exists y. tauto.
Qed.

Lemma filter_all A (p : A -> bool) (l : list A) :
  Forall (fun x => p x = true) l -> filter p l = l.
Proof.
  induction 1 as [| x l Hx _ IH]; simpl; [ reflexivity | ].
  rewrite Hx, IH. reflexivity.
Qed.

Lemma filter_none A (p : A -> bool) (l : list A) :
  Forall (fun x => p x = false) l -> filter p l = [].
Proof.
  induction 1 as [| x l Hx _ IH]; simpl; [ reflexivity | ].
  rewrite Hx, IH. reflexivity.
Qed.

Lemma filter_filter_negb A (p : A -> bool) (l : list A) :
  filter p (filter (fun x => negb (p x)) l) = [].
Proof.
  apply filter_none. apply Forall_forall. intros x Hx. apply filter_In in Hx.
  destruct Hx as [_ Hx]. destruct (p x); [ discriminate | reflexivity ].
Qed.

Lemma filter_idem A (p : A -> bool) (l : list A) : filter p (filter p l) = filter p l.
Proof.
  apply filter_all. apply Forall_forall. intros x Hx. apply filter_In in Hx. tauto.
Qed.

(** INSERT ... ON CONFLICT(game_id) DO UPDATE leaves one row for the game:
    the updated old row, or the new one. *)
Lemma upsert_found (r : game_board_row) (f : game_board_row -> game_board_row)
    (t : list game_board_row) :
  (forall b, gb_game_id (f b) = gb_game_id b) ->
  find (fun b => gb_game_id b =? gb_game_id r)
    (if existsb (fun b => gb_game_id b =? gb_game_id r) t
     then map (fun b => if gb_game_id b =? gb_game_id r then f b else b) t
     else t ++ [r])
  = Some (match find (fun b => gb_game_id b =? gb_game_id r) t with
          | Some old => f old
          | None => r
          end).
Proof.
  intros Hf. rewrite existsb_find.
  destruct (find (fun b => gb_game_id b =? gb_game_id r) t) as [old |] eqn:Hfind.
  - rewrite find_map_stable.
    + rewrite Hfind. simpl. apply find_some in Hfind. destruct Hfind as [_ ->].
      reflexivity.
    + intros x. destruct (gb_game_id x =? gb_game_id r) eqn:Hx; [ | exact Hx ].
      rewrite Hf. exact Hx.
  - rewrite find_app_none by exact Hfind. simpl. rewrite String.eqb_refl. reflexivity.
Qed.

Section BoardCases.
Context {RT : Runtime}.

(** The outcomes of PUT board.  A refusal and a body that the schema
    rejects write nothing.  Otherwise the document is stored, the tile rows
    of the game are deleted, and the rows of the document are inserted one
    by one until the end ([Saved]) or until an INSERT fails (thrown). *)
Lemma putBoard_cases gameId hostPassword body now tileHex db r db' :
  BoardTs.putBoard gameId hostPassword body now tileHex db = (r, db') ->
  (db' = db
   /\ (r = inl ZodError
       \/ exists code error,
            r = inr (BoardTs.Refused code error)
            /\ ((code = 401 /\ truthy (Some (BoardTs.host_header hostPassword)) = false)
                \/ (code = 404 /\ BoardTs.getGame db gameId = None)
                \/ (code = 403
                    /\ exists g, BoardTs.getGame db gameId = Some g
                                 /\ sha256 (BoardTs.host_header hostPassword)
                                    <> BoardTs.hostPasswordHash g)
                \/ (code = 409 /\ board_locked db gameId = true)
                \/ code = 400)))
  \/ exists g parsed n row,
       BoardTs.getGame db gameId = Some g
       /\ BoardTs.BoardSchema_parse body = Some parsed
       /\ BoardTs.validate_tiles (BoardTs.g_boardSize g) (BoardTs.tiles parsed) = None
       /\ tile_tasks db'
          = other_tiles db gameId ++ firstn n (tile_rows gameId tileHex 0 (BoardTs.tiles parsed))
       /\ (NoDup (map tile_key (tile_tasks db)) -> NoDup (map tile_key (tile_tasks db')))
       /\ games db' = games db /\ teams db' = teams db
       /\ registrations db' = registrations db /\ proofs db' = proofs db
       /\ events db' = events db
       /\ BoardTs.board_row db' gameId = Some row
       /\ gb_board_json row = JSON_stringify (BoardTs.board_to_json parsed)
       /\ gb_updated_at row = toISOString now
       /\ ((r = inr (BoardTs.Saved (toISOString now))
            /\ n = List.length (BoardTs.tiles parsed))
           \/ ((exists columns, r = inl (SqlConstraint columns))
               /\ (n < List.length (BoardTs.tiles parsed))%nat)).
Proof.
  unfold BoardTs.putBoard, bind, query, ret, throw.
  destruct (truthy (Some (BoardTs.host_header hostPassword))) eqn:Hheader; cbn [negb];
    [ | intros [= <- <-]; left; split; [ reflexivity | right ];
        do 2 eexists; split; [ reflexivity | left; split; reflexivity ] ].
  destruct (BoardTs.getGame db gameId) as [g |] eqn:Hgame;
    [ | intros [= <- <-]; left; split; [ reflexivity | right ];
        do 2 eexists; split; [ reflexivity | right; left; split; reflexivity ] ].
  destruct (String.eqb_spec (sha256 (BoardTs.host_header hostPassword))
              (BoardTs.hostPasswordHash g)) as [Hpw | Hpw]; cbn [negb];
    [ | intros [= <- <-]; left; split; [ reflexivity | right ];
        do 2 eexists; split; [ reflexivity | right; right; left; split; [ reflexivity | ] ];
        exists g; split; [ reflexivity | exact Hpw ] ].
  fold (board_locked db gameId).
  destruct (board_locked db gameId) eqn:Hlocked;
    [ intros [= <- <-]; left; split; [ reflexivity | right ];
      do 2 eexists; split; [ reflexivity | right; right; right; left; split; reflexivity ] | ].
  destruct (BoardTs.BoardSchema_parse body) as [parsed |] eqn:Hparse;
    [ | intros [= <- <-]; left; split; [ reflexivity | left; reflexivity ] ].
  destruct (negb (_ =? _)%Z);
    [ intros [= <- <-]; left; split; [ reflexivity | right ];
      do 2 eexists; split; [ reflexivity | do 4 right; reflexivity ] | ].
  destruct (BoardTs.validate_tiles _ _) eqn:Hvalid;
    [ intros [= <- <-]; left; split; [ reflexivity | right ];
      do 2 eexists; split; [ reflexivity | do 4 right; reflexivity ] | ].
  unfold upsert_game_board, run.
  match goal with
  | |- context [BoardTs.insert_tiles gameId tileHex 0 (BoardTs.tiles parsed) ?d] =>
      destruct (insert_tiles_effect gameId tileHex (BoardTs.tiles parsed) 0 d)
        as (n & Htiles & (A1 & A2 & A3 & A4 & A5 & A6) & Huniq & Hend);
      destruct (BoardTs.insert_tiles gameId tileHex 0 (BoardTs.tiles parsed) d)
        as [res db3] eqn:Hins
  end.
  cbn [snd fst] in *.
  cbn [tile_tasks set_tile_tasks set_game_boards games teams registrations proofs events
       game_boards] in Htiles, A1, A2, A3, A4, A5, A6, Huniq.
  intros Hrun. right.
  assert (Hdb : db' = db3) by (destruct res; injection Hrun as _ <-; reflexivity).
  subst db'.
  match type of A6 with
  | _ = (if existsb _ ?t then map (fun b => if _ then @?f b else b) _ else _ ++ [?row]) =>
      pose proof (@upsert_found row f t (fun b => eq_refl)) as Hfound
  end.
  cbn [gb_game_id] in Hfound, A6. rewrite <- A6 in Hfound.
  eexists g, parsed, n, _.
  split; [ reflexivity | ]. split; [ reflexivity | ]. split; [ exact Hvalid | ].
  split; [ exact Htiles | ].
  split; [ intros Hnd; apply Huniq; apply NoDup_map_filter; exact Hnd | ].
  do 5 (split; [ assumption | ]).
  split; [ exact Hfound | ].
  split; [ destruct (find _ (game_boards db)); reflexivity | ].
  split; [ destruct (find _ (game_boards db)); reflexivity | ].
  destruct Hend as [[-> ->] | [[columns ->] Hn]].
  - left. injection Hrun as <-. split; reflexivity.
  - right. injection Hrun as <-. split; [ eexists; reflexivity | exact Hn ].
Qed.

(** The outcomes of the lock and unlock routes. *)
Lemma setLock_cases locked gameId hostPassword now db r db' :
  BoardTs.setLock locked gameId hostPassword now db = (r, db') ->
  (db' = db /\ exists code error, r = inr (BoardTs.Refused code error)
                                   /\ In code [401; 403; 404])
  \/ exists g row,
       truthy (Some (BoardTs.host_header hostPassword)) = true
       /\ BoardTs.getGame db gameId = Some g
       /\ sha256 (BoardTs.host_header hostPassword) = BoardTs.hostPasswordHash g
       /\ r = inr (BoardTs.LockState (locked =? 1)%Z (toISOString now))
       /\ games db' = games db /\ teams db' = teams db
       /\ registrations db' = registrations db /\ proofs db' = proofs db
       /\ events db' = events db /\ tile_tasks db' = tile_tasks db
       /\ BoardTs.board_row db' gameId = Some row
       /\ gb_locked row = locked
       /\ gb_updated_at row = toISOString now
       /\ gb_board_json row
          = match BoardTs.board_row db gameId with
            | Some old => gb_board_json old
            | None => JSON_stringify (BoardTs.minimal gameId (BoardTs.g_boardSize g))
            end.
Proof.
  unfold BoardTs.setLock, bind, query, ret, throw.
  destruct (negb (truthy _)) eqn:Hheader;
    [ intros [= <- <-]; left; split; [ reflexivity | ];
      do 2 eexists; split; [ reflexivity | simpl; tauto ] | ].
  apply negb_false_iff in Hheader.
  destruct (BoardTs.getGame db gameId) as [g |] eqn:Hgame;
    [ | intros [= <- <-]; left; split; [ reflexivity | ];
        do 2 eexists; split; [ reflexivity | simpl; tauto ] ].
  destruct (String.eqb_spec (sha256 (BoardTs.host_header hostPassword))
              (BoardTs.hostPasswordHash g)) as [Hpw | _]; cbn [negb];
    [ | intros [= <- <-]; left; split; [ reflexivity | ];
        do 2 eexists; split; [ reflexivity | simpl; tauto ] ].
  destruct (truthy (option_map gb_board_json (BoardTs.board_row db gameId))) eqn:Hold.
  - intros H. right. exists g. unfold run in H. injection H as <- <-.
    destruct (BoardTs.board_row db gameId) as [old |] eqn:Hrow; [ | discriminate ].
    eexists. repeat (split; [ first [ assumption | reflexivity ] | ]).
    unfold BoardTs.board_row. cbn [game_boards set_game_boards].
    split; [ rewrite find_map_stable;
             [ unfold BoardTs.board_row in Hrow; rewrite Hrow; cbn [option_map];
               apply find_some in Hrow; destruct Hrow as [_ ->]; reflexivity
             | intros x; destruct (gb_game_id x =? gameId) eqn:Hx; [ exact Hx | exact Hx ] ]
           | ].
    repeat split.
  - intros H. right. exists g. unfold upsert_game_board, run in H. injection H as <- <-.
    eexists. repeat (split; [ first [ assumption | reflexivity ] | ]).
    unfold BoardTs.board_row. cbn [game_boards set_game_boards gb_game_id].
    match goal with
    | |- context [if existsb _ ?t then map (fun b => if _ then @?f b else b) _ else _ ++ [?row]] =>
        pose proof (@upsert_found row f t (fun b => eq_refl)) as Hfound
    end.
    cbn [gb_game_id] in Hfound.
    split; [ exact Hfound | ].
    destruct (find _ (game_boards db)); repeat split.
Qed.

End BoardCases.

Section BoardTheorems.
Context {RT : Runtime}.

Lemma getGame_game_of db gameId g :
  BoardTs.getGame db gameId = Some g ->
  exists row, game_of db gameId = Some row /\ g_board_size row = BoardTs.g_boardSize g.
Proof.
  unfold BoardTs.getGame, game_of.
  destruct (find _ (games db)) as [row |]; [ | discriminate ].
  intros [= <-]. exists row. split; reflexivity.
Qed.

Lemma tile_rows_length gameId hex ts : forall i,
  List.length (tile_rows gameId hex i ts) = List.length ts.
Proof. induction ts as [| t ts IH]; intros i; simpl; [ | rewrite IH ]; reflexivity. Qed.

Lemma tile_rows_game gameId hex ts : forall i,
  Forall (fun r => (tt_game_id r =? gameId) = true) (tile_rows gameId hex i ts).
Proof.
  induction ts as [| t ts IH]; intros i; simpl; constructor; [ | apply IH ].
  simpl. apply String.eqb_refl.
Qed.

(** PUT board on a locked board. *)
Lemma putBoard_locked gameId hostPassword body now tileHex db g :
  truthy (Some (BoardTs.host_header hostPassword)) = true ->
  BoardTs.getGame db gameId = Some g ->
  sha256 (BoardTs.host_header hostPassword) = BoardTs.hostPasswordHash g ->
  board_locked db gameId = true ->
  BoardTs.putBoard gameId hostPassword body now tileHex db
  = (inr (BoardTs.Refused 409 "Board is locked"), db).
Proof.
  intros Hheader Hgame Hpw Hlocked.
  unfold BoardTs.putBoard, bind, query, ret.
  rewrite Hheader. cbn [negb]. cbv beta. rewrite Hgame. cbv beta iota.
  rewrite Hpw, String.eqb_refl. cbn [negb]. cbv beta.
  fold (board_locked db gameId). rewrite Hlocked. reflexivity.
Qed.

End BoardTheorems.

(** X19.  A board route that answers with an error status (PUT board:
    400, 401, 403, 404 or 409; lock and unlock: 401, 403 or 404) has written
    nothing. *)
Theorem board_refusal_writes_nothing :
  forall (RT : Runtime) (db db' : Db) (gameId : string) (hostPassword : option string)
         (body : BoardTs.board) (now : Z) (tileHex : nat -> string) (locked code : Z)
         (error : string),
    BoardTs.putBoard gameId hostPassword body now tileHex db
    = (inr (BoardTs.Refused code error), db')
    \/ BoardTs.setLock locked gameId hostPassword now db
       = (inr (BoardTs.Refused code error), db') ->
    db' = db /\ In code [400; 401; 403; 404; 409].
Proof.
  intros RT db db' gameId hostPassword body now tileHex locked code error [Hrun | Hrun].
  - destruct (putBoard_cases _ _ _ _ _ _ Hrun)
      as [[Hdb [Hr | (c & e & Hr & Hcode)]]
         | (g & parsed & n & row & _ & _ & _ & _ & _ & _ & _ & _ & _ & _ & _ & _ & _ & Hend)].
    + discriminate Hr.
    + injection Hr as -> ->. split; [ exact Hdb | ].
      destruct Hcode as [[-> _] | [[-> _] | [[-> _] | [[-> _] | ->]]]]; simpl; tauto.
    + destruct Hend as [[Hr _] | [[columns Hr] _]]; discriminate Hr.
  - destruct (setLock_cases _ _ _ _ _ Hrun)
      as [[Hdb (c & e & Hr & Hcode)] | (g & row & _ & _ & _ & Hr & _)].
    + injection Hr as -> ->. split; [ exact Hdb | ]. simpl in Hcode. simpl. tauto.
    + discriminate Hr.
Qed.

Lemma board_refusal_writes_nothing_witness :
  @ServerTs.handle example_runtime
    (ServerTs.PutBoard "game_01" (Some "guess") example_board day1 example_hex)
    (example_db [])
  = example_db [].
Proof.
  assert (Hrun : @BoardTs.putBoard example_runtime "game_01" (Some "guess") example_board
                   day1 example_hex (example_db [])
                 = (inr (BoardTs.Refused 403 "Invalid host password"),
                    @ServerTs.handle example_runtime
                      (ServerTs.PutBoard "game_01" (Some "guess") example_board day1
                         example_hex) (example_db [])))
    by (vm_compute; reflexivity).
  exact (proj1 (@board_refusal_writes_nothing example_runtime _ _ _ _ _ _ _ 0 _ _
                  (or_introl Hrun))).
Defined.

(** X20.  POST board/lock that succeeds answers locked: true, keeps the tile
    rows and the stored document of the game, and from then on PUT board
    with the same host password is refused with 409 "Board is locked" and
    writes nothing, whatever the body. *)
Theorem lock_refuses_later_saves :
  forall (RT : Runtime) (db db' : Db) (gameId : string) (hostPassword : option string)
         (now : Z) (locked : bool) (updatedAt : string),
    BoardTs.lock gameId hostPassword now db
    = (inr (BoardTs.LockState locked updatedAt), db') ->
    locked = true
    /\ tile_tasks db' = tile_tasks db
    /\ (forall old, BoardTs.board_row db gameId = Some old ->
          exists row, BoardTs.board_row db' gameId = Some row
                      /\ gb_board_json row = gb_board_json old)
    /\ forall (body : BoardTs.board) (now' : Z) (tileHex : nat -> string),
         BoardTs.putBoard gameId hostPassword body now' tileHex db'
         = (inr (BoardTs.Refused 409 "Board is locked"), db').
Proof.
  intros RT db db' gameId hostPassword now locked updatedAt Hrun.
  unfold BoardTs.lock in Hrun.
  destruct (setLock_cases _ _ _ _ _ Hrun)
    as [[_ (c & e & Hr & _)]
       | (g & row & Hheader & Hgame & Hpw & Hr & Hgames & _ & _ & _ & _ & Htiles & Hrow
          & Hlocked & _ & Hjson)]; [ discriminate Hr | ].
  injection Hr as -> _.
  split; [ reflexivity | ]. split; [ exact Htiles | ]. split.
  - intros old Hold. rewrite Hold in Hjson. exists row. split; assumption.
  - intros body now' tileHex.
    apply putBoard_locked with (g := g); try assumption.
    + unfold BoardTs.getGame in *. rewrite Hgames. exact Hgame.
    + unfold board_locked. rewrite Hrow, Hlocked. reflexivity.
Qed.

Lemma lock_refuses_later_saves_witness :
  @BoardTs.putBoard example_runtime "game_01" (Some "secret") example_board day3 example_hex
    (example_db [ example_lock ])
  = (inr (BoardTs.Refused 409 "Board is locked"), example_db [ example_lock ]).
Proof.
  assert (Hrun : @BoardTs.lock example_runtime "game_01" (Some "secret") day1 (example_db [])
                 = (inr (BoardTs.LockState true "2024-01-01T00:00:00.000Z"),
                    example_db [ example_lock ]))
    by (vm_compute; reflexivity).
  exact (proj2 (proj2 (proj2 (@lock_refuses_later_saves example_runtime _ _ _ _ _ _ _ Hrun)))
           example_board day3 example_hex).
Defined.

(** X21.  POST board/unlock that succeeds answers locked: false and leaves
    the board unlocked: PUT board with the same host password then gets
    past the password and lock checks, so the only error status it can
    still answer is 400. *)
Theorem unlock_reopens_board :
  forall (RT : Runtime) (db db' : Db) (gameId : string) (hostPassword : option string)
         (now : Z) (locked : bool) (updatedAt : string),
    BoardTs.unlock gameId hostPassword now db
    = (inr (BoardTs.LockState locked updatedAt), db') ->
    locked = false
    /\ board_locked db' gameId = false
    /\ forall (body : BoardTs.board) (now' : Z) (tileHex : nat -> string) (code : Z)
              (error : string) (after : Db),
         BoardTs.putBoard gameId hostPassword body now' tileHex db'
         = (inr (BoardTs.Refused code error), after) ->
         code = 400.
Proof.
  intros RT db db' gameId hostPassword now locked updatedAt Hrun.
  unfold BoardTs.unlock in Hrun.
  destruct (setLock_cases _ _ _ _ _ Hrun)
    as [[_ (c & e & Hr & _)]
       | (g & row & Hheader & Hgame & Hpw & Hr & Hgames & _ & _ & _ & _ & Htiles & Hrow
          & Hlocked & _ & Hjson)]; [ discriminate Hr | ].
  injection Hr as -> _.
  assert (Hopen : board_locked db' gameId = false)
    by (unfold board_locked; rewrite Hrow, Hlocked; reflexivity).
  assert (Hgame' : BoardTs.getGame db' gameId = Some g)
    by (unfold BoardTs.getGame in *; rewrite Hgames; exact Hgame).
  split; [ reflexivity | ]. split; [ exact Hopen | ].
  intros body now' tileHex code error after Hput.
  destruct (putBoard_cases _ _ _ _ _ _ Hput)
    as [[_ [Hr | (c & e & Hr & Hcode)]]
       | (g0 & parsed & n & row0 & _ & _ & _ & _ & _ & _ & _ & _ & _ & _ & _ & _ & _ & Hend)].
  - discriminate Hr.
  - injection Hr as -> ->.
    destruct Hcode as [[_ Hc] | [[_ Hc] | [[_ (g1 & Hg1 & Hc)] | [[_ Hc] | Hc]]]].
    + rewrite Hheader in Hc. discriminate Hc.
    + rewrite Hgame' in Hc. discriminate Hc.
    + rewrite Hgame' in Hg1. injection Hg1 as <-. elim Hc. exact Hpw.
    + rewrite Hopen in Hc. discriminate Hc.
    + exact Hc.
  - destruct Hend as [[Hr _] | [[columns Hr] _]]; discriminate Hr.
Qed.

Lemma unlock_reopens_board_witness :
  board_locked (example_db [ example_lock ]) "game_01" = true
  /\ board_locked (example_db [ example_lock; example_unlock ]) "game_01" = false.
Proof.
  assert (Hrun : @BoardTs.unlock example_runtime "game_01" (Some "secret") day3
                   (example_db [ example_lock ])
                 = (inr (BoardTs.LockState false "2024-01-03T00:00:00.000Z"),
                    example_db [ example_lock; example_unlock ]))
    by (vm_compute; reflexivity).
  split; [ vm_compute; reflexivity | ].
  exact (proj1 (proj2 (@unlock_reopens_board example_runtime _ _ _ _ _ _ _ Hrun))).
Defined.

(** X22.  PUT board is not atomic.  When it throws, either the schema
    rejected the body and nothing was written, or an INSERT of the rebuild
    failed on a constraint: then the new document is already stored, the
    former tile rows of the game are deleted, and only the rows of the
    tiles before the failing one are in place. *)
Theorem putBoard_throw_may_keep_document :
  forall (RT : Runtime) (db db' : Db) (gameId : string) (hostPassword : option string)
         (body : BoardTs.board) (now : Z) (tileHex : nat -> string) (e : failure),
    BoardTs.putBoard gameId hostPassword body now tileHex db = (inl e, db') ->
    (e = ZodError /\ db' = db)
    \/ exists parsed n row columns,
         e = SqlConstraint columns
         /\ BoardTs.BoardSchema_parse body = Some parsed
         /\ (n < List.length (BoardTs.tiles parsed))%nat
         /\ tiles_of db' gameId
            = firstn n (tile_rows gameId tileHex 0 (BoardTs.tiles parsed))
         /\ other_tiles db' gameId = other_tiles db gameId
         /\ BoardTs.board_row db' gameId = Some row
         /\ gb_board_json row = JSON_stringify (BoardTs.board_to_json parsed).
Proof.
  intros RT db db' gameId hostPassword body now tileHex e Hrun.
  destruct (putBoard_cases _ _ _ _ _ _ Hrun)
    as [[Hdb [Hr | (c & err & Hr & _)]]
       | (g & parsed & n & row & _ & Hparse & _ & Htiles & _ & _ & _ & _ & _ & _ & Hrow
          & Hjson & _ & Hend)].
  - left. injection Hr as ->. split; [ reflexivity | exact Hdb ].
  - discriminate Hr.
  - right. destruct Hend as [[Hr _] | [[columns Hr] Hn]]; [ discriminate Hr | ].
    injection Hr as ->. exists parsed, n, row, columns.
    assert (Hrows : Forall (fun r => (tt_game_id r =? gameId) = true)
                      (firstn n (tile_rows gameId tileHex 0 (BoardTs.tiles parsed))))
      by (apply Forall_firstn; apply tile_rows_game).
    repeat split; try assumption.
    + unfold tiles_of. rewrite Htiles, filter_app. unfold other_tiles.
      rewrite filter_filter_negb. simpl. apply filter_all. exact Hrows.
    + unfold other_tiles at 1. rewrite Htiles, filter_app.
      fold (other_tiles db gameId). unfold other_tiles at 1.
      rewrite (filter_idem (fun r => negb (tt_game_id r =? gameId))).
      fold (other_tiles db gameId).
      rewrite (@filter_none _ (fun r => negb (tt_game_id r =? gameId))).
      * apply app_nil_r.
      * eapply Forall_impl; [ | exact Hrows ]. intros r Hr. simpl in Hr. rewrite Hr.
        reflexivity.
Qed.

Lemma putBoard_throw_may_keep_document_witness :
  exists row,
    BoardTs.board_row (example_db [ example_save_twice ]) "game_01" = Some row
    /\ gb_board_json row
       = @JSON_stringify example_runtime
           (BoardTs.board_to_json
              {| BoardTs.schemaVersion := Some 1; BoardTs.board_id := None;
                 BoardTs.board_title := None; BoardTs.board_description := None;
                 BoardTs.boardSize := 20; BoardTs.tilesBasePath := None;
                 BoardTs.tiles := BoardTs.tiles example_board_twice |}).
Proof.
  assert (Hrun : @BoardTs.putBoard example_runtime "game_01" (Some "secret")
                   example_board_twice day1 example_hex (example_db [])
                 = (inl (SqlConstraint "tile_tasks.game_id, tile_tasks.tile_index"),
                    example_db [ example_save_twice ]))
    by (vm_compute; reflexivity).
  destruct (@putBoard_throw_may_keep_document example_runtime _ _ _ _ _ _ _ _ Hrun)
    as [[He _] | (parsed & n & row & columns & _ & Hparse & _ & _ & _ & Hrow & Hjson)].
  - discriminate He.
  - exists row. split; [ exact Hrow | ]. rewrite Hjson.
    vm_compute in Hparse. injection Hparse as <-. reflexivity.
Defined.

(** X23.  A board save that answers { ok: true } leaves, for the game, the
    rows of the tiles of the document and no others, in the order of the
    document: each on the board of the game, of kind jump, task or empty,
    with a target on the board exactly when the kind is jump.  The rows of
    the other games are as before. *)
Theorem saved_board_rebuilds_tiles :
  forall (RT : Runtime) (db db' : Db) (gameId : string) (hostPassword : option string)
         (body : BoardTs.board) (now : Z) (tileHex : nat -> string) (updatedAt : string),
    BoardTs.putBoard gameId hostPassword body now tileHex db
    = (inr (BoardTs.Saved updatedAt), db') ->
    exists g parsed,
      BoardTs.getGame db gameId = Some g
      /\ BoardTs.BoardSchema_parse body = Some parsed
      /\ tiles_of db' gameId = tile_rows gameId tileHex 0 (BoardTs.tiles parsed)
      /\ List.length (tiles_of db' gameId) = List.length (BoardTs.tiles body)
      /\ Forall (saved_row_ok gameId (BoardTs.g_boardSize g)) (tiles_of db' gameId)
      /\ other_tiles db' gameId = other_tiles db gameId.
Proof.
  intros RT db db' gameId hostPassword body now tileHex updatedAt Hrun.
  destruct (putBoard_cases _ _ _ _ _ _ Hrun)
    as [[_ [Hr | (c & err & Hr & _)]]
       | (g & parsed & n & row & Hgame & Hparse & Hvalid & Htiles & _ & _ & _ & _ & _ & _
          & _ & _ & _ & Hend)]; try discriminate Hr.
  destruct Hend as [[_ ->] | [[columns Hr] _]]; [ | discriminate Hr ].
  rewrite <- (tile_rows_length gameId tileHex (BoardTs.tiles parsed) 0), firstn_all in Htiles.
  assert (Hrows : Forall (fun r => (tt_game_id r =? gameId) = true)
                    (tile_rows gameId tileHex 0 (BoardTs.tiles parsed)))
    by apply tile_rows_game.
  assert (Hof : tiles_of db' gameId = tile_rows gameId tileHex 0 (BoardTs.tiles parsed)).
  { unfold tiles_of. rewrite Htiles, filter_app. unfold other_tiles.
    rewrite filter_filter_negb. simpl. apply filter_all. exact Hrows. }
  exists g, parsed. split; [ exact Hgame | ]. split; [ exact Hparse | ].
  split; [ exact Hof | ]. split; [ | split ].
  - rewrite Hof, tile_rows_length.
    unfold BoardTs.BoardSchema_parse in Hparse.
    destruct (_ && _) in Hparse; [ | discriminate ].
    injection Hparse as <-. simpl. apply length_map.
  - rewrite Hof. apply validated_rows. exact Hvalid.
  - unfold other_tiles at 1. rewrite Htiles, filter_app.
    fold (other_tiles db gameId). unfold other_tiles at 1.
    rewrite (filter_idem (fun r => negb (tt_game_id r =? gameId))).
    fold (other_tiles db gameId).
    rewrite (@filter_none _ (fun r => negb (tt_game_id r =? gameId))).
    + apply app_nil_r.
    + eapply Forall_impl; [ | exact Hrows ]. intros r Hr. simpl in Hr. rewrite Hr.
      reflexivity.
Qed.

Lemma saved_board_rebuilds_tiles_witness :
  List.length (tiles_of example_saved "game_01") = 2%nat
  /\ other_tiles example_saved "game_01" = other_tiles (example_db []) "game_01".
Proof.
  assert (Hrun : @BoardTs.putBoard example_runtime "game_01" (Some "secret") example_board
                   day1 example_hex (example_db [])
                 = (inr (BoardTs.Saved "2024-01-01T00:00:00.000Z"), example_saved))
    by (vm_compute; reflexivity).
  destruct (@saved_board_rebuilds_tiles example_runtime _ _ _ _ _ _ _ _ Hrun)
    as (g & parsed & _ & _ & _ & Hlen & _ & Hother).
  split; [ exact Hlen | exact Hother ].
Defined.

Section ReachTiles.
Context {RT : Runtime}.

Lemma tiles_ok_handle req db : tiles_ok db -> tiles_ok (ServerTs.handle req db).
Proof.
  destruct req as [ body now gameHex joinCode tileHex | gid body teamHex
                  | gid body now sessHex regHex | gid auth now roll | gid auth body now hex
                  | gid hostPassword body now tileHex | gid hostPassword now
                  | gid hostPassword now ]; simpl.
  - intros [Hnd Hall].
    destruct (createGame_effect body now gameHex joinCode tileHex db)
      as [-> | (row & extra & _ & Hid & Hsize & Hkeys & Hgames & Htiles & Hon & Huniq & _)];
      [ split; assumption | ].
    unfold tiles_ok. rewrite Htiles. split; [ apply Huniq; exact Hnd | ].
    apply Forall_app. split.
    + eapply Forall_impl; [ | exact Hall ].
      intros r (g & Hfound & Hr). exists g. split; [ | exact Hr ].
      unfold game_of. rewrite Hgames. apply game_of_grows. exact Hfound.
    + eapply Forall_impl; [ | exact Hon ].
      intros r Hr. exists row.
      assert (Hgame : tt_game_id r = rid "game" gameHex) by apply Hr.
      rewrite Hgame, Hsize. split; [ | exact Hr ].
      unfold game_of. rewrite Hgames. apply game_of_fresh; [ | exact Hid ].
      rewrite <- Hid. apply violated_games_key. exact Hkeys.
  - apply (frame_createTeam tiles_ok). intros f d H. exact H.
  - apply (frame_register tiles_ok). intros r d H. exact H.
  - apply (frame_rollRoute tiles_ok). intros f d H. exact H.
  - apply (frame_proofRoute tiles_ok); intros f d H; exact H.
  - intros [Hnd Hall].
    destruct (BoardTs.putBoard gid hostPassword body now tileHex db) as [r db'] eqn:Hrun.
    cbn [snd].
    destruct (putBoard_cases _ _ _ _ _ _ Hrun)
      as [[-> _]
         | (g & parsed & n & row & Hgame & _ & Hvalid & Htiles & Huniq & Hgames & _)];
      [ split; assumption | ].
    split; [ apply Huniq; exact Hnd | ].
    rewrite Htiles. apply Forall_app. split.
    + unfold other_tiles. apply Forall_forall. intros r0 Hr0. apply filter_In in Hr0.
      rewrite Forall_forall in Hall. destruct (Hall r0 (proj1 Hr0)) as (g0 & Hfound & Hon).
      exists g0. split; [ | exact Hon ]. unfold game_of in *. rewrite Hgames. exact Hfound.
    + apply Forall_firstn.
      destruct (getGame_game_of _ _ Hgame) as (grow & Hfound & Hsize).
      eapply Forall_impl; [ | apply validated_rows; exact Hvalid ].
      intros r0 (Hg0 & Hidx & Hkind & _). exists grow. rewrite Hg0, Hsize.
      split; [ unfold game_of in *; rewrite Hgames; exact Hfound | ].
      repeat split; try assumption; try lia.
      unfold board_kinds in Hkind. unfold stored_kinds. simpl in *. tauto.
  - apply (frame_setLock tiles_ok). intros f d H. exact H.
  - apply (frame_setLock tiles_ok). intros f d H. exact H.
Qed.

End ReachTiles.

(** X24.  In every state that the server reaches from the empty database,
    each row of tile_tasks belongs to an existing game, lies on its board
    (0..boardSize), has one of the kinds empty, task, jump and boss, and no
    two rows configure the same tile of a game. *)
Theorem tiles_stay_on_board :
  forall (RT : Runtime) (reqs : list ServerTs.request),
    tiles_ok (ServerTs.serve reqs empty_db).
Proof.
  intros RT reqs.
  apply (serve_keeps tiles_ok (fun _ => true)).
  - intros req db _. apply tiles_ok_handle.
  - apply forallb_all_true.
  - split; constructor.
Qed.

(* ------------------------------------------------------------------ *)
(** ** src/routes/overlay.ts *)

Section OverlayMore.
Context {RT : Runtime}.

Lemma overlayRoute_found db gameId rsn_query ifNoneMatch now g :
  OverlayTs.getGame db gameId = Some g ->
  OverlayTs.overlayRoute db gameId rsn_query ifNoneMatch now
  = if truthy (Some (orElse ifNoneMatch ""))
       && (orElse ifNoneMatch "" =? overlay_etag db gameId)
    then not_modified
    else
      let team := if truthy (Some (trim (orElse rsn_query "")))
                  then OverlayTs.getTeamByRsn db gameId (trim (orElse rsn_query ""))
                  else None in
      let activeIndex := match team with
                         | Some t => orElse (OverlayTs.pendingTile t) (OverlayTs.position t)
                         | None => 0
                         end in
      let t := OverlayTs.getTileFull db gameId activeIndex (OverlayTs.boardSize g) in
      let img := orElse (OverlayTs.images_get (OverlayTs.getBoardTileImages db gameId)
                           activeIndex)
                   {| OverlayTs.imageUrl := None; OverlayTs.imageCacheKey := None |} in
      let awaitingProof := match team with
                           | Some t => OverlayTs.awaitingProof t
                           | None => false
                           end in
      {| OverlayTs.code := 200;
         OverlayTs.ETag := Some (overlay_etag db gameId);
         OverlayTs.payload := Some
           {| OverlayTs.revision := OverlayTs.maxSeq (OverlayTs.getOverlayRevision db gameId);
              OverlayTs.serverTime := toISOString now;
              OverlayTs.startTime := OverlayTs.startsAt g;
              OverlayTs.endTime := OverlayTs.endsAt g;
              OverlayTs.body_phase :=
                OverlayTs.phase_text (OverlayTs.phaseFrom (Some g) now);
              OverlayTs.body_team :=
                option_map (fun tm => {| OverlayTs.tv_name := OverlayTs.name tm;
                                         OverlayTs.tv_position := OverlayTs.position tm |})
                  team;
              OverlayTs.body_tile :=
                {| OverlayTs.v_tileIndex := activeIndex;
                   OverlayTs.v_kind := OverlayTs.kind t;
                   OverlayTs.v_title := orElse (OverlayTs.title t) "";
                   OverlayTs.v_description := orElse (OverlayTs.description t) "";
                   OverlayTs.v_imageUrl := orElse (OverlayTs.imageUrl img) "";
                   OverlayTs.v_imageCacheKey := orElse (OverlayTs.imageCacheKey img) "" |};
              OverlayTs.flag_awaitingProof := awaitingProof;
              OverlayTs.flag_canRoll :=
                match team with
                | Some tm =>
                    true && negb awaitingProof
                    && (OverlayTs.phase_text (OverlayTs.phaseFrom (Some g) now) =? "running")
                    && (toLowerCase (OverlayTs.status g) =? "active")
                    && (OverlayTs.index tm =? OverlayTs.turnTeamIndex g)%Z
                | None => false
                end |} |}.
Proof.
  intros Hgame. unfold OverlayTs.overlayRoute. rewrite Hgame. reflexivity.
Qed.

Lemma truthy_etag db gameId : truthy (Some (overlay_etag db gameId)) = true.
Proof. reflexivity. Qed.

(** The overlay of an existing game answers 304 to its own ETag. *)
Lemma overlayRoute_not_modified db gameId rsn_query now :
  OverlayTs.getGame db gameId <> None ->
  OverlayTs.overlayRoute db gameId rsn_query (Some (overlay_etag db gameId)) now
  = not_modified.
Proof.
  destruct (OverlayTs.getGame db gameId) as [g |] eqn:Hgame; [ intros _ | congruence ].
  rewrite overlayRoute_found with (g := g) by exact Hgame. cbn [orElse].
  rewrite truthy_etag, String.eqb_refl. reflexivity.
Qed.

Lemma overlayRoute_etag db gameId rsn_query ifNoneMatch now e :
  OverlayTs.getGame db gameId <> None ->
  OverlayTs.ETag (OverlayTs.overlayRoute db gameId rsn_query ifNoneMatch now) = Some e ->
  e = overlay_etag db gameId.
Proof.
  destruct (OverlayTs.getGame db gameId) as [g |] eqn:Hgame; [ intros _ | congruence ].
  rewrite overlayRoute_found with (g := g) by exact Hgame.
  destruct (_ && _); cbn; congruence.
Qed.

(** The games are never deleted. *)
Lemma overlay_game_serve reqs db gameId :
  OverlayTs.getGame db gameId <> None ->
  OverlayTs.getGame (ServerTs.serve reqs db) gameId <> None.
Proof.
  apply (frame_serve (fun d => OverlayTs.getGame d gameId <> None));
    try (intros f d H; exact H).
  intros r d H. unfold OverlayTs.getGame in *. cbn [games set_games].
  destruct (find _ (games d)) as [row |] eqn:Hfind; [ | now elim H ].
  rewrite (find_app_some _ _ [r] Hfind). discriminate.
Qed.

(** Only the board routes write game_boards. *)
Lemma game_boards_serve reqs db :
  forallb (fun req => negb (board_write req)) reqs = true ->
  game_boards (ServerTs.serve reqs db) = game_boards db.
Proof.
  intros Hreqs.
  apply (serve_keeps (fun d => game_boards d = game_boards db)
           (fun req => negb (board_write req))); [ | exact Hreqs | reflexivity ].
  intros req d Hreq.
  destruct req as [ body now gameHex joinCode tileHex | gid body teamHex
                  | gid body now sessHex regHex | gid auth now roll | gid auth body now hex
                  | gid hostPassword body now tileHex | gid hostPassword now
                  | gid hostPassword now ]; simpl; try discriminate Hreq.
  - apply (frame_createGame (fun d => game_boards d = game_boards db));
      intros f x H; exact H.
  - apply (frame_createTeam (fun d => game_boards d = game_boards db)).
    intros f x H. exact H.
  - apply (frame_register (fun d => game_boards d = game_boards db)).
    intros f x H. exact H.
  - apply (frame_rollRoute (fun d => game_boards d = game_boards db)).
    intros f x H. exact H.
  - apply (frame_proofRoute (fun d => game_boards d = game_boards db));
      intros f x H; exact H.
Qed.

End OverlayMore.

(** X25.  No route writes the events table, so in every state that the
    server reaches from the empty database the revision that the overlay
    reports is 0. *)
Theorem overlay_revision_stays_zero :
  forall (RT : Runtime) (reqs : list ServerTs.request) (gameId : string)
         (rsn_query ifNoneMatch : option string) (now : Z) (body : OverlayTs.body),
    OverlayTs.payload
      (OverlayTs.overlayRoute (ServerTs.serve reqs empty_db) gameId rsn_query ifNoneMatch now)
    = Some body ->
    OverlayTs.revision body = 0.
Proof.
  intros RT reqs gameId rsn_query ifNoneMatch now body.
  pose proof (events_serve reqs empty_db) as Hevents.
  set (db := ServerTs.serve reqs empty_db) in *.
  destruct (OverlayTs.getGame db gameId) as [g |] eqn:Hgame.
  - rewrite overlayRoute_found with (g := g) by exact Hgame.
    destruct (_ && _); cbn; [ discriminate | ].
    intros [= <-]. cbn. rewrite Hevents. reflexivity.
  - unfold OverlayTs.overlayRoute. rewrite Hgame. cbn. intros [= <-]. reflexivity.
Qed.

Lemma overlay_revision_stays_zero_witness :
  @overlay_revision example_runtime
    (@ServerTs.serve example_runtime (example_setup ++ [ example_roll 4; example_save ])
       empty_db)
    "game_01" (Some "Zezima") None day3 = Some 0.
Proof.
  unfold overlay_revision.
  destruct (OverlayTs.payload
              (@OverlayTs.overlayRoute example_runtime
                 (@ServerTs.serve example_runtime (example_setup ++ [ example_roll 4; example_save ])
       empty_db)
                 "game_01" (Some "Zezima") None day3)) as [body |] eqn:Hbody.
  - cbn [option_map]. f_equal.
    exact (@overlay_revision_stays_zero example_runtime
             (example_setup ++ [ example_roll 4; example_save ]) "game_01" (Some "Zezima")
             None day3 body Hbody).
  - vm_compute in Hbody. discriminate Hbody.
Defined.

(** X26.  The ETag of the overlay of an existing game is made of the event
    revision and the update time of the board only.  A client that sends
    it back as If-None-Match gets 304 with no body, for any rsn and at any
    time, as long as no board route has been served since: rolls, proofs,
    new teams and registrations in between do not change the answer. *)
Theorem overlay_validator_survives_play :
  forall (RT : Runtime) (db : Db) (gameId : string) (rsn_query ifNoneMatch : option string)
         (now : Z) (etag : string) (reqs : list ServerTs.request)
         (rsn_query' : option string) (now' : Z),
    OverlayTs.getGame db gameId <> None ->
    OverlayTs.ETag (OverlayTs.overlayRoute db gameId rsn_query ifNoneMatch now) = Some etag ->
    forallb (fun req => negb (board_write req)) reqs = true ->
    OverlayTs.overlayRoute (ServerTs.serve reqs db) gameId rsn_query' (Some etag) now'
    = not_modified.
Proof.
  intros RT db gameId rsn_query ifNoneMatch now etag reqs rsn_query' now' Hgame Hetag Hreqs.
  apply overlayRoute_etag in Hetag; [ | exact Hgame ]. subst etag.
  assert (Hsame : overlay_etag db gameId = overlay_etag (ServerTs.serve reqs db) gameId).
  { unfold overlay_etag, OverlayTs.getOverlayRevision.
    rewrite events_serve, (game_boards_serve _ db Hreqs). reflexivity. }
  rewrite Hsame. apply overlayRoute_not_modified. apply overlay_game_serve. exact Hgame.
Qed.

Lemma overlay_validator_survives_play_witness :
  @OverlayTs.overlayRoute example_runtime
    (@ServerTs.serve example_runtime [ example_roll 4 ] (example_db []))
    "game_01" (Some "Zezima") (Some (overlay_etag (example_db []) "game_01")) day3
  = not_modified.
Proof.
  assert (Hgame : @OverlayTs.getGame (example_db []) "game_01" <> None)
    by (vm_compute; discriminate).
  assert (Hetag : OverlayTs.ETag
                    (@OverlayTs.overlayRoute example_runtime (example_db []) "game_01"
                       (Some "Zezima") None day1)
                  = Some (overlay_etag (example_db []) "game_01"))
    by (vm_compute; reflexivity).
  assert (Hreqs : forallb (fun req => negb (board_write req)) [ example_roll 4 ] = true)
    by reflexivity.
  exact (@overlay_validator_survives_play example_runtime (example_db []) "game_01"
           (Some "Zezima") None day1 (overlay_etag (example_db []) "game_01")
           [ example_roll 4 ] (Some "Zezima") day3 Hgame Hetag Hreqs).
Defined.

Section OverlayRoll.
Context {RT : Runtime}.





End OverlayRoll.





(* ------------------------------------------------------------------ *)
(** ** src/routes/state.ts *)

Section Sorting.
Variables (A : Type) (key : A -> Z).

Lemma insert_sorted_last (x : A) (acc : list A) :
  Forall (fun y => (key y <=? key x)%Z = true) acc ->
  insert_sorted Z.leb key x acc = acc ++ [x].
Proof.
  induction 1 as [| y acc Hy _ IH]; simpl; [ reflexivity | ].
  rewrite Hy, IH. reflexivity.
Qed.

Lemma order_by_from (l : list A) : forall acc,
  ascending key (acc ++ l) ->
  fold_left (fun acc x => insert_sorted Z.leb key x acc) l acc = acc ++ l.
Proof.
  induction l as [| x l IH]; intros acc Hsorted; simpl.
  - rewrite app_nil_r. reflexivity.
  - rewrite insert_sorted_last.
    + rewrite IH; rewrite <- app_assoc; [ reflexivity | exact Hsorted ].
    + clear IH. induction acc as [| y acc IHacc]; [ constructor | ].
      simpl in Hsorted. apply StronglySorted_inv in Hsorted.
      destruct Hsorted as [Hrest Hy]. constructor; [ | apply IHacc; exact Hrest ].
      rewrite Forall_forall in Hy. apply Hy. apply in_or_app. right. left. reflexivity.
Qed.

(** ORDER BY on rows that are already in ascending order returns them as
    they are. *)
Lemma order_by_ascending (l : list A) :
  ascending key l -> order_by Z.leb key l = l.
Proof. intros H. unfold order_by. apply (order_by_from l []). exact H. Qed.

Lemma ascending_count (l : list A) : forall start,
  map key l = map Z.of_nat (seq start (List.length l)) -> ascending key l.
Proof.
  induction l as [| a l IH]; intros start Hkeys; [ constructor | ].
  simpl in Hkeys. injection Hkeys as Ha Hrest.
  constructor; [ apply (IH (S start)); exact Hrest | ].
  apply Forall_forall. intros b Hb.
  assert (Hin : In (key b) (map Z.of_nat (seq (S start) (List.length l))))
    by (rewrite <- Hrest; apply in_map; exact Hb).
  apply in_map_iff in Hin. destruct Hin as (k & Hk & Hin). apply in_seq in Hin.
  apply Z.leb_le. lia.
Qed.

End Sorting.

Section StateMore.
Context {RT : Runtime}.

Lemma view_of_paired db gameId g r :
  team_paired r ->
  StateTs.activeTile (StateTs.team_view_of db gameId g r)
  = StateTs.positionTile (StateTs.team_view_of db gameId g r)
  /\ (StateTs.awaitingProof (StateTs.team_view_of db gameId g r) = true
      <-> StateTs.pendingTile (StateTs.team_view_of db gameId g r)
          = Some (StateTs.position (StateTs.team_view_of db gameId g r))).
Proof.
  intros [Hiff Hpos]. unfold StateTs.team_view_of.
  cbn [StateTs.activeTile StateTs.positionTile StateTs.awaitingProof StateTs.pendingTile
       StateTs.position].
  destruct (t_pending_tile r) as [p |] eqn:Hpending.
  - rewrite (Hpos p eq_refl). cbn [orElse]. split; [ reflexivity | ].
    split; [ reflexivity | ]. intros _. apply Hiff. discriminate.
  - cbn [orElse]. split; [ reflexivity | ].
    split; [ | discriminate ]. intros H. apply Hiff in H. now elim H.
Qed.

End StateMore.

(** X29.  In every state that the server reaches from the empty database,
    the state view of an existing game lists the teams of the game in the
    order of their creation, with the indices 0, 1, 2, ...: the ORDER BY
    team_index changes nothing.  For every listed team the active tile is
    the tile of its position, and awaitingProof holds exactly when
    pendingTile is the position. *)
Theorem state_lists_teams_in_creation_order :
  forall (RT : Runtime) (reqs : list ServerTs.request) (gameId : string) (now : Z)
         (g : StateTs.game),
    StateTs.getGame (ServerTs.serve reqs empty_db) gameId = Some g ->
    StateTs.res_teams (StateTs.stateRoute (ServerTs.serve reqs empty_db) gameId now)
    = map (StateTs.team_view_of (ServerTs.serve reqs empty_db) gameId g)
        (teams_of (ServerTs.serve reqs empty_db) gameId)
    /\ map StateTs.index
         (StateTs.res_teams (StateTs.stateRoute (ServerTs.serve reqs empty_db) gameId now))
       = map Z.of_nat
           (seq 0 (List.length (teams_of (ServerTs.serve reqs empty_db) gameId)))
    /\ Forall (fun v => StateTs.activeTile v = StateTs.positionTile v
                        /\ (StateTs.awaitingProof v = true
                            <-> StateTs.pendingTile v = Some (StateTs.position v)))
         (StateTs.res_teams (StateTs.stateRoute (ServerTs.serve reqs empty_db) gameId now)).
Proof.
  intros RT reqs gameId now g.
  destruct (teams_ok_serve reqs) as (_ & _ & Hindex).
  pose proof (@paired_serve RT reqs empty_db (Forall_nil _)) as Hpaired.
  set (db := ServerTs.serve reqs empty_db) in *.
  intros Hgame. specialize (Hindex gameId).
  assert (Hteams : StateTs.res_teams (StateTs.stateRoute db gameId now)
                   = map (StateTs.team_view_of db gameId g) (teams_of db gameId)).
  { unfold StateTs.stateRoute. rewrite Hgame. cbn [StateTs.res_teams].
    fold (teams_of db gameId). rewrite order_by_ascending; [ reflexivity | ].
    apply ascending_count with (start := 0%nat). exact Hindex. }
  rewrite Hteams. split; [ reflexivity | ]. split.
  - rewrite map_map. exact Hindex.
  - apply Forall_forall. intros v Hv. apply in_map_iff in Hv.
    destruct Hv as (r & <- & Hr). apply view_of_paired.
    unfold all_paired in Hpaired. rewrite Forall_forall in Hpaired. apply Hpaired.
    unfold teams_of in Hr. apply filter_In in Hr. apply Hr.
Qed.

Lemma state_lists_teams_in_creation_order_witness :
  map StateTs.index
    (StateTs.res_teams
       (@StateTs.stateRoute example_runtime
          (@ServerTs.serve example_runtime (example_setup ++ [ example_roll 4 ]) empty_db)
          "game_01" day1))
  = map Z.of_nat
      (seq 0 (List.length
                (teams_of (@ServerTs.serve example_runtime
                             (example_setup ++ [ example_roll 4 ]) empty_db) "game_01"))).
Proof.
  assert (Hgame : exists g,
            StateTs.getGame (@ServerTs.serve example_runtime
                               (example_setup ++ [ example_roll 4 ]) empty_db) "game_01"
            = Some g)
    by (vm_compute; eexists; reflexivity).
  destruct Hgame as [g Hgame].
  exact (proj1 (proj2 (@state_lists_teams_in_creation_order example_runtime
                         (example_setup ++ [ example_roll 4 ]) "game_01" day1 g Hgame))).
Defined.

Section OverlayImages.
Context {RT : Runtime}.

(** A stored tile of a board document has no field tileIndex. *)
Lemma tile_to_json_no_tileIndex t :
  OverlayTs.field "tileIndex" (BoardTs.tile_to_json t) = None.
Proof.
  unfold BoardTs.tile_to_json.
  destruct (BoardTs.type t), (BoardTs.title t), (BoardTs.description t), (BoardTs.image t),
    (BoardTs.category t), (BoardTs.requiresProof t), (BoardTs.jumpTo t); reflexivity.
Qed.

Lemma board_to_json_tiles b :
  OverlayTs.field "tiles" (BoardTs.board_to_json b)
  = Some (JArr (map BoardTs.tile_to_json (BoardTs.tiles b))).
Proof.
  unfold BoardTs.board_to_json.
  destruct (BoardTs.schemaVersion b), (BoardTs.board_id b), (BoardTs.board_title b),
    (BoardTs.board_description b), (BoardTs.tilesBasePath b); reflexivity.
Qed.

(** The overlay reads no image from a document that PUT board has
    written. *)
Lemma images_of_saved_document db gameId row parsed :
  BoardTs.board_row db gameId = Some row ->
  gb_board_json row = JSON_stringify (BoardTs.board_to_json parsed) ->
  JSON_parse (JSON_stringify (BoardTs.board_to_json parsed))
  = Some (BoardTs.board_to_json parsed) ->
  OverlayTs.getBoardTileImages db gameId = [].
Proof.
  intros Hrow Hjson Hround. unfold OverlayTs.getBoardTileImages.
  unfold BoardTs.board_row in Hrow. rewrite Hrow, Hjson.
  destruct (negb _); [ reflexivity | ].
  rewrite Hround, board_to_json_tiles.
  generalize (@nil (Z * OverlayTs.tile_image)).
  induction (BoardTs.tiles parsed) as [| t ts IH]; intros out; cbn [map fold_left];
    [ reflexivity | rewrite tile_to_json_no_tileIndex; apply IH ].
Qed.

End OverlayImages.

(** X30.  The overlay looks for the images of a tile under the fields
    tileIndex, imageUrl and imageCacheKey of the stored board document,
    while PUT board stores the tiles with the fields id and image.  So
    after a board save that answers { ok: true }, on a runtime whose
    JSON.parse reads back what JSON.stringify wrote, the overlay finds no
    image: imageUrl and imageCacheKey are empty in every reply. *)
Theorem saved_board_has_no_overlay_images :
  forall (RT : Runtime) (db db' : Db) (gameId : string) (hostPassword : option string)
         (body : BoardTs.board) (now : Z) (tileHex : nat -> string) (updatedAt : string),
    BoardTs.putBoard gameId hostPassword body now tileHex db
    = (inr (BoardTs.Saved updatedAt), db') ->
    (forall parsed, BoardTs.BoardSchema_parse body = Some parsed ->
       JSON_parse (JSON_stringify (BoardTs.board_to_json parsed))
       = Some (BoardTs.board_to_json parsed)) ->
    OverlayTs.getBoardTileImages db' gameId = []
    /\ forall (rsn_query ifNoneMatch : option string) (now' : Z) (reply : OverlayTs.body),
         OverlayTs.payload (OverlayTs.overlayRoute db' gameId rsn_query ifNoneMatch now')
         = Some reply ->
         OverlayTs.v_imageUrl (OverlayTs.body_tile reply) = ""
         /\ OverlayTs.v_imageCacheKey (OverlayTs.body_tile reply) = "".
Proof.
  intros RT db db' gameId hostPassword body now tileHex updatedAt Hrun Hround.
  destruct (putBoard_cases _ _ _ _ _ _ Hrun)
    as [[_ [Hr | (c & err & Hr & _)]]
       | (g & parsed & n & row & _ & Hparse & _ & _ & _ & _ & _ & _ & _ & _ & Hrow & Hjson
          & _)]; try discriminate Hr.
  assert (Himages : OverlayTs.getBoardTileImages db' gameId = [])
    by (apply images_of_saved_document with (row := row) (parsed := parsed);
        [ exact Hrow | exact Hjson | apply Hround; exact Hparse ]).
  split; [ exact Himages | ].
  intros rsn_query ifNoneMatch now' reply.
  destruct (OverlayTs.getGame db' gameId) as [og |] eqn:Hgame.
  - rewrite overlayRoute_found with (g := og) by exact Hgame.
    destruct (_ && _); [ discriminate | ].
    cbv zeta. cbn [OverlayTs.payload]. rewrite Himages. intros [= <-]. split; reflexivity.
  - unfold OverlayTs.overlayRoute. rewrite Hgame. intros [= <-]. split; reflexivity.
Qed.

Lemma saved_board_has_no_overlay_images_witness :
  @OverlayTs.getBoardTileImages
    (reading_runtime (BoardTs.board_to_json example_board_parsed)) example_saved "game_01"
  = [].
Proof.
  assert (Hrun : @BoardTs.putBoard
                   (reading_runtime (BoardTs.board_to_json example_board_parsed))
                   "game_01" (Some "secret") example_board day1 example_hex (example_db [])
                 = (inr (BoardTs.Saved "2024-01-01T00:00:00.000Z"), example_saved))
    by (vm_compute; reflexivity).
  refine (proj1 (@saved_board_has_no_overlay_images
                   (reading_runtime (BoardTs.board_to_json example_board_parsed))
                   _ _ _ _ _ _ _ _ Hrun _)).
  intros parsed Hparse. vm_compute in Hparse. injection Hparse as <-. reflexivity.
Defined.
